(** * Portainer MCP server: tool dispatcher and upstream client

    A shallow embedding of the TypeScript sources

      - [src/api/portainer.ts]  (client taking the environment id per call,
                                 every call wrapped in [handleRequest]),
      - the earlier client whose environment id is read once at start-up
        ([PORTAINER_ENV_ID]), and
      - the revisions of [src/main.ts] that go with each of them,

    together with the properties the specification states about them.

    JavaScript values are modelled as JSON trees, thrown values as an
    inductive type, and an [async] function as a program that may await
    HTTP calls and either returns or throws.

    [src/main.ts] holds a third revision as well, whose client functions
    ([restartDockerService], [inspectService], a [fetchContainerLogs] taking
    [since]) are not among the sources; of it only the list of tools and the
    labels of the [switch] are taken up. *)

From Stdlib Require Import String Ascii List ZArith Bool Lia DecimalString.
Import ListNotations.
Open Scope string_scope.

(* ------------------------------------------------------------------ *)
(** ** JavaScript values *)

Module Js.

#[local] Set Warnings "-register-all".

(** What [JSON.parse] produces, plus [undefined].  Numbers are integers
    (the ports, sizes, counts and status codes the upstream sends): [JNum n]
    stands for the JavaScript number of value [n], which exists when [n] is
    a safe integer (see [safe_integer] below); fractions, [NaN] and the
    infinities have no counterpart here.  Strings are byte strings.  The
    fields of an object are listed in property order, each key once. *)
Inductive JsValue : Type :=
| JUndefined
| JNull
| JBool (b : bool)
| JNum (n : Z)
| JStr (s : string)
| JArr (items : list JsValue)
| JObj (fields : list (string * JsValue)).

(** Thrown values.  [Error] is [new Error(message)] and also the errors the
    runtime raises itself ([TypeError]); [AxiosError] carries the parts of
    an axios failure that the sources inspect. *)
Record AxiosResponse : Type := mkResponse { status : Z; data : JsValue }.

Inductive Exn : Type :=
| Error (message : string)
| AxiosError (response : option AxiosResponse) (request : bool)
             (message : string).

Definition TypeError (message : string) : Exn := Error message.

(** [o.k] on the own properties of an object literal. *)
Fixpoint field (fs : list (string * JsValue)) (k : string) : JsValue :=
  match fs with
  | [] => JUndefined
  | (k', v) :: rest => if String.eqb k k' then v else field rest k
  end.

Fixpoint has_key (fs : list (string * JsValue)) (k : string) : bool :=
  match fs with
  | [] => false
  | (k', _) :: rest => String.eqb k k' || has_key rest k
  end.

(** ToBoolean. *)
Definition truthy (v : JsValue) : bool :=
  match v with
  | JUndefined | JNull => false
  | JBool b => b
  | JNum n => negb (Z.eqb n 0)
  | JStr s => negb (String.eqb s "")
  | JArr _ | JObj _ => true
  end.

Definition nullish (v : JsValue) : bool :=
  match v with
  | JUndefined | JNull => true
  | _ => false
  end.

(** [a || b] *)
Definition or_else (a b : JsValue) : JsValue := if truthy a then a else b.

(** A parameter with a default value: the default is taken exactly when the
    argument is [undefined]. *)
Definition default_to (d : JsValue) (v : JsValue) : JsValue :=
  match v with
  | JUndefined => d
  | _ => v
  end.

(** The integers a JavaScript number holds exactly:
    [Number.MIN_SAFE_INTEGER .. Number.MAX_SAFE_INTEGER], that is
    [-(2^53 - 1) .. 2^53 - 1]. *)
Definition safe_integer (n : Z) : bool :=
  (Z.abs n <=? 9007199254740991)%Z.

(** Number::toString on a safe integer: its decimal digits, with a minus
    sign when negative.  It is the text JavaScript prints only there: from
    [2^53] on a number need not be the integer written, and from [10^21] on
    it prints in exponent form ([1e+21]).  A statement about the printed
    text of a number that may be any integer therefore bounds it by
    [safe_integer]. *)
Definition string_of_Z (n : Z) : string := NilZero.string_of_int (Z.to_int n).

(** ToString, as applied by a template literal.  An object that has an own
    [toString] property (which, coming from JSON, is not callable) cannot
    be converted; an array is joined with commas, [null] and [undefined]
    elements giving the empty string. *)
Fixpoint ToString (v : JsValue) : Exn + string :=
  match v with
  | JUndefined => inr "undefined"
  | JNull => inr "null"
  | JBool true => inr "true"
  | JBool false => inr "false"
  | JNum n => inr (string_of_Z n)
  | JStr s => inr s
  | JArr items =>
      (fix join (l : list JsValue) : Exn + string :=
         match l with
         | [] => inr ""
         | x :: rest =>
             let sx := match x with
                       | JUndefined | JNull => inr ""
                       | _ => ToString x
                       end in
             match sx with
             | inl e => inl e
             | inr s =>
                 match rest with
                 | [] => inr s
                 | _ :: _ =>
                     match join rest with
                     | inl e => inl e
                     | inr r => inr (s ++ "," ++ r)
                     end
                 end
             end
         end) items
  | JObj fs =>
      if has_key fs "toString"
      then inl (TypeError "Cannot convert object to primitive value")
      else inr "[object Object]"
  end.

(** *** JSON.stringify(value) *)

Definition hex_digit (n : N) : ascii :=
  match n with
  | 0%N => "0" | 1%N => "1" | 2%N => "2" | 3%N => "3" | 4%N => "4"
  | 5%N => "5" | 6%N => "6" | 7%N => "7" | 8%N => "8" | 9%N => "9"
  | 10%N => "a" | 11%N => "b" | 12%N => "c" | 13%N => "d" | 14%N => "e"
  | _ => "f"
  end%char.

Definition dquote : string := String (ascii_of_N 34) "".
Definition backslash : string := String (ascii_of_N 92) "".

Definition quote_char (c : ascii) : string :=
  let n := N_of_ascii c in
  if N.eqb n 34 then backslash ++ dquote
  else if N.eqb n 92 then backslash ++ backslash
  else if N.eqb n 8 then "\b"
  else if N.eqb n 9 then "\t"
  else if N.eqb n 10 then "\n"
  else if N.eqb n 12 then "\f"
  else if N.eqb n 13 then "\r"
  else if N.ltb n 32
       then "\u00" ++ String (hex_digit (N.div n 16))
                        (String (hex_digit (N.modulo n 16)) "")
       else String c "".

Fixpoint quote_body (s : string) : string :=
  match s with
  | "" => ""
  | String c rest => quote_char c ++ quote_body rest
  end.

Definition QuoteJSONString (s : string) : string :=
  dquote ++ quote_body s ++ dquote.

(** [None] stands for the [undefined] that [JSON.stringify(undefined)]
    returns.  An [undefined] array element is written [null], an
    [undefined] field is left out. *)
Fixpoint JSON_stringify (v : JsValue) : option string :=
  match v with
  | JUndefined => None
  | JNull => Some "null"
  | JBool true => Some "true"
  | JBool false => Some "false"
  | JNum n => Some (string_of_Z n)
  | JStr s => Some (QuoteJSONString s)
  | JArr items =>
      Some ("[" ++
            String.concat ","
              ((fix elems (l : list JsValue) : list string :=
                  match l with
                  | [] => []
                  | x :: rest =>
                      match JSON_stringify x with
                      | None => "null"
                      | Some s => s
                      end :: elems rest
                  end) items)
            ++ "]")
  | JObj fs =>
      Some ("{" ++
            String.concat ","
              ((fix members (l : list (string * JsValue)) : list string :=
                  match l with
                  | [] => []
                  | (k, x) :: rest =>
                      match JSON_stringify x with
                      | None => members rest
                      | Some s =>
                          (QuoteJSONString k ++ ":" ++ s) :: members rest
                      end
                  end) fs)
            ++ "}")
  end.

(** The value a template literal sees for [JSON.stringify(v)]. *)
Definition JSON_stringify_value (v : JsValue) : JsValue :=
  match JSON_stringify v with
  | None => JUndefined
  | Some s => JStr s
  end.

End Js.
Export Js.

(* ------------------------------------------------------------------ *)
(** ** Asynchronous programs over the HTTP client *)

Module Async.

Inductive Method : Type := GET | POST | DELETE.

(** One call on the axios instance: [portainerClient.get(url, {params})],
    [portainerClient.post(url, data)] or
    [portainerClient.delete(url, {params})].  [params] is empty when the
    call passes no configuration, [body] is [None] when it passes no
    data. *)
Record Request : Type := mkRequest {
  method : Method;
  url : string;
  params : list (string * JsValue);
  body : option JsValue
}.

(** How the promise of a call settles: with a response, of which the
    sources read [data] only, or with a rejection. *)
Inductive Outcome : Type :=
| Resolved (response_data : JsValue)
| Rejected (error : Exn).

(** The body of an [async] function: it returns, throws, or awaits a call
    and goes on with what the call settled to. *)
Inductive Prog (A : Type) : Type :=
| Ret (a : A)
| Throw (e : Exn)
| Await (r : Request) (k : Outcome -> Prog A).

Arguments Ret {A} a.
Arguments Throw {A} e.
Arguments Await {A} r k.

Fixpoint bind {A B : Type} (p : Prog A) (f : A -> Prog B) : Prog B :=
  match p with
  | Ret a => f a
  | Throw e => Throw e
  | Await r k => Await r (fun o => bind (k o) f)
  end.

(** [try { p } catch (error) { h error }] *)
Fixpoint try_catch {A : Type} (p : Prog A) (h : Exn -> Prog A) : Prog A :=
  match p with
  | Ret a => Ret a
  | Throw e => h e
  | Await r k => Await r (fun o => try_catch (k o) h)
  end.

Definition lift {A : Type} (r : Exn + A) : Prog A :=
  match r with
  | inl e => Throw e
  | inr a => Ret a
  end.

(** The promise [portainerClient.get(...)] returns, as a value: issuing the
    call and waiting for it to settle. *)
Definition send (r : Request) : Prog Outcome := Await r (fun o => Ret o).

(** [await promise]: the response, or the rejection thrown. *)
Definition await (o : Outcome) : Prog JsValue :=
  match o with
  | Resolved d => Ret d
  | Rejected e => Throw e
  end.

(** Running a program against an upstream: the result, and the calls that
    were issued, in order. *)
Fixpoint run {A : Type} (upstream : Request -> Outcome) (p : Prog A)
  : (Exn + A) * list Request :=
  match p with
  | Ret a => (inr a, [])
  | Throw e => (inl e, [])
  | Await r k =>
      let res := run upstream (k (upstream r)) in
      (fst res, r :: snd res)
  end.

Definition run_result {A : Type} (upstream : Request -> Outcome)
  (p : Prog A) : Exn + A := fst (run upstream p).

Definition run_calls {A : Type} (upstream : Request -> Outcome)
  (p : Prog A) : list Request := snd (run upstream p).

(** What [axios.create] is given. *)
Record ClientConfig : Type := mkConfig {
  baseURL : option string;
  headers : list (string * option string);
  timeout : Z
}.

End Async.
Export Async.

Declare Scope prog_scope.
Delimit Scope prog_scope with prog.
Notation "x <- c ;; k" := (bind c (fun x => k))
  (at level 61, c at next level, right associativity) : prog_scope.
Notation "c ;;; k" := (bind c (fun _ => k))
  (at level 61, right associativity) : prog_scope.
Open Scope prog_scope.

(* ------------------------------------------------------------------ *)
(** ** The JavaScript operations the handlers use *)

Module Ops.

Definition LF : string := String (ascii_of_N 10) "".

(** [`${v}`] *)
Definition str (v : JsValue) : Prog string := lift (ToString v).

(** [v.k] for an identifier [k] that is neither an index nor a property of
    the built-in prototypes ([Id], [message], [envId], ...): reading it off
    [null] or [undefined] throws, a string, number, boolean or array does
    not have it. *)
Definition get (v : JsValue) (k : string) : Prog JsValue :=
  match v with
  | JUndefined =>
      Throw (TypeError ("Cannot read properties of undefined (reading '"
                        ++ k ++ "')"))
  | JNull =>
      Throw (TypeError ("Cannot read properties of null (reading '"
                        ++ k ++ "')"))
  | JObj fs => Ret (field fs k)
  | _ => Ret JUndefined
  end.

(** The same read where it cannot throw: on the arguments object, and after
    [?.]. *)
Definition prop (v : JsValue) (k : string) : JsValue :=
  match v with
  | JObj fs => field fs k
  | _ => JUndefined
  end.

(** [v?. rest]: the whole chain is [undefined] when [v] is [null] or
    [undefined]. *)
Definition opt_chain {A : Type} (v : JsValue) (absent : A)
  (rest : JsValue -> A) : A :=
  if nullish v then absent else rest v.

(** [v[0]] on a value that is not [null] or [undefined]. *)
Definition first (v : JsValue) : JsValue :=
  match v with
  | JArr (x :: _) => x
  | JStr (String c _) => JStr (String c "")
  | JObj fs => field fs "0"
  | _ => JUndefined
  end.

Fixpoint mapM {A B : Type} (f : A -> Prog B) (l : list A) : Prog (list B) :=
  match l with
  | [] => Ret []
  | x :: rest => y <- f x ;; ys <- mapM f rest ;; Ret (y :: ys)
  end.

(** [v.map(f)], for a callee written [callee] in the source. *)
Definition call_map {B : Type} (callee : string) (v : JsValue)
  (f : JsValue -> Prog B) : Prog (list B) :=
  match v with
  | JUndefined =>
      Throw (TypeError "Cannot read properties of undefined (reading 'map')")
  | JNull =>
      Throw (TypeError "Cannot read properties of null (reading 'map')")
  | JArr items => mapM f items
  | _ => Throw (TypeError (callee ++ " is not a function"))
  end.

(** [strings.join(sep)] on an array of strings. *)
Definition join (sep : string) (l : list string) : string :=
  String.concat sep l.

(** [Array.prototype.join] on an array of any values. *)
Fixpoint array_join (sep : string) (l : list JsValue) : Exn + string :=
  match l with
  | [] => inr ""
  | x :: rest =>
      let sx := if nullish x then inr "" else ToString x in
      match sx, rest with
      | inl e, _ => inl e
      | inr s, [] => inr s
      | inr s, _ :: _ =>
          match array_join sep rest with
          | inl e => inl e
          | inr r => inr (s ++ sep ++ r)
          end
      end
  end.

(** [v.join(sep)], for a callee written [callee]. *)
Definition call_join (callee : string) (v : JsValue) (sep : string)
  : Prog string :=
  match v with
  | JUndefined =>
      Throw (TypeError "Cannot read properties of undefined (reading 'join')")
  | JNull =>
      Throw (TypeError "Cannot read properties of null (reading 'join')")
  | JArr items => lift (array_join sep items)
  | _ => Throw (TypeError (callee ++ " is not a function"))
  end.

(** [v.length] *)
Definition get_length (v : JsValue) : Prog JsValue :=
  match v with
  | JUndefined =>
      Throw (TypeError
               "Cannot read properties of undefined (reading 'length')")
  | JNull =>
      Throw (TypeError "Cannot read properties of null (reading 'length')")
  | JArr items => Ret (JNum (Z.of_nat (List.length items)))
  | JStr s => Ret (JNum (Z.of_nat (String.length s)))
  | JObj fs => Ret (field fs "length")
  | _ => Ret JUndefined
  end.

(** Text before the first occurrence of the character [c], and whether
    there is one: what [s.split(c)[0]] and [s.includes(c)] compute for a
    one-character [c]. *)
Fixpoint before_char (c : ascii) (s : string) : string :=
  match s with
  | "" => ""
  | String d rest =>
      if Ascii.eqb d c then "" else String d (before_char c rest)
  end.

Fixpoint has_char (c : ascii) (s : string) : bool :=
  match s with
  | "" => false
  | String d rest => Ascii.eqb d c || has_char c rest
  end.

Definition is_string (s : string) (v : JsValue) : bool :=
  match v with
  | JStr t => String.eqb t s
  | _ => false
  end.

(** [v.includes("/")] on a truthy [v]. *)
Definition includes_slash (callee : string) (v : JsValue) : Prog bool :=
  match v with
  | JStr s => Ret (has_char "/" s)
  | JArr items => Ret (existsb (is_string "/") items)
  | _ => Throw (TypeError (callee ++ " is not a function"))
  end.

(** [v.split("/")[0]] *)
Definition split_slash_first (callee : string) (v : JsValue) : Prog string :=
  match v with
  | JStr s => Ret (before_char "/" s)
  | _ => Throw (TypeError (callee ++ " is not a function"))
  end.

Section Comparison.

(** Whether the number a string converts to is greater than zero: the
    runtime's string-to-number conversion is left open. *)
Variable StringToNumber_positive : string -> bool.

(** [v > 0] *)
Definition gt_zero (v : JsValue) : Prog bool :=
  match v with
  | JNum n => Ret (Z.ltb 0 n)
  | JUndefined | JNull => Ret false
  | JBool b => Ret b
  | JStr s => Ret (StringToNumber_positive s)
  | JArr _ | JObj _ => s <- str v ;; Ret (StringToNumber_positive s)
  end.

End Comparison.

End Ops.
Export Ops.

(* ------------------------------------------------------------------ *)
(** ** The tool-call protocol *)

Module Mcp.

(** [request.params] of a tool call: a name and, optionally, an object of
    arguments. *)
Record CallToolRequest : Type := mkCall {
  name : string;
  arguments : option (list (string * JsValue))
}.

Record Content : Type := mkContent { type : string; text : JsValue }.

(** [{ content: [{ type: "text", text }] }] *)
Record TextReply : Type := mkReply { content : list Content }.

Definition text_reply (t : JsValue) : TextReply :=
  mkReply [mkContent "text" t].

(** One entry of the [properties] of an input schema. *)
Record Property : Type := mkProperty {
  prop_name : string;
  prop_type : string;
  prop_description : string
}.

(** A tool descriptor of the "list tools" reply; [inputSchema.type] is
    ["object"] throughout. *)
Record Tool : Type := mkTool {
  tool_name : string;
  description : string;
  properties : list Property;
  required : list string
}.

End Mcp.
Export Mcp.

(* ------------------------------------------------------------------ *)
(** ** The declared shape of a container ([src/types/index.ts]) *)

Module Types.

Record Port : Type := mkPort {
  IP : option string;
  PrivatePort : Z;
  PublicPort : option Z;
  PortType : string                      (* [Type] *)
}.

Record Mount : Type := mkMount {
  MountType : string;                    (* [Type] *)
  MountName : option string;             (* [Name?] *)
  Source : string;
  Destination : string;
  Driver : option string;
  Mode : string;
  RW : bool;
  Propagation : string
}.

Record DockerContainer : Type := mkContainer {
  Id : string;
  Names : list string;
  Image : string;
  ImageID : string;
  Command : string;
  Created : Z;
  State : string;
  Status : string;
  Ports : list Port;
  Labels : list (string * string);
  Networks : list (string * JsValue);    (* [NetworkSettings.Networks] *)
  Mounts : list Mount
}.

(** The JSON value a record of the declared shape is, an optional field
    being left out when it is not there. *)
Definition optional {A : Type} (k : string) (f : A -> JsValue)
  (v : option A) : list (string * JsValue) :=
  match v with
  | Some a => [(k, f a)]
  | None => []
  end.

Definition port_value (p : Port) : JsValue :=
  JObj (optional "IP" JStr (IP p)
        ++ [("PrivatePort", JNum (PrivatePort p))]
        ++ optional "PublicPort" JNum (PublicPort p)
        ++ [("Type", JStr (PortType p))])%list.

Definition mount_value (m : Mount) : JsValue :=
  JObj ([("Type", JStr (MountType m))]
        ++ optional "Name" JStr (MountName m)
        ++ [("Source", JStr (Source m));
            ("Destination", JStr (Destination m))]
        ++ optional "Driver" JStr (Driver m)
        ++ [("Mode", JStr (Mode m)); ("RW", JBool (RW m));
            ("Propagation", JStr (Propagation m))])%list.

Definition container_value (c : DockerContainer) : JsValue :=
  JObj [("Id", JStr (Id c));
        ("Names", JArr (map JStr (Names c)));
        ("Image", JStr (Image c));
        ("ImageID", JStr (ImageID c));
        ("Command", JStr (Command c));
        ("Created", JNum (Created c));
        ("State", JStr (State c));
        ("Status", JStr (Status c));
        ("Ports", JArr (map port_value (Ports c)));
        ("Labels", JObj (map (fun kv => (fst kv, JStr (snd kv))) (Labels c)));
        ("NetworkSettings", JObj [("Networks", JObj (Networks c))]);
        ("Mounts", JArr (map mount_value (Mounts c)))].

End Types.
Export Types.

(* ------------------------------------------------------------------ *)
(** ** Revision with a start-up environment id

    The client reads [PORTAINER_ENV_ID] once; its functions take no
    environment id and let axios failures through as they are.  The
    dispatcher that imports it ([pruneContainer] among the imports) declares
    no [envId] argument, formats replies as text and wraps the dispatch in
    [try]/[catch]. *)

Module DefaultEnv.

(** The members of [Tools] the sources name, in the order of the [case]
    clauses. *)
Inductive ToolKey : Type :=
| GetDockerContainers
| CreateDockerContainer
| StartDockerContainer
| DeleteDockerContainer
| GetContainerLogs
| UpdateContainer
| DeleteUnwantedContainers
| GetImages
| DeleteImageBuilderCache
| DeleteUnusedImages
| GetNetworks
| GetServices
| GetServiceLogs.

Definition cases : list ToolKey :=
  [GetDockerContainers; CreateDockerContainer; StartDockerContainer;
   DeleteDockerContainer; GetContainerLogs; UpdateContainer;
   DeleteUnwantedContainers; GetImages; DeleteImageBuilderCache;
   DeleteUnusedImages; GetNetworks; GetServices; GetServiceLogs].

Section Server.

(** [Deno.env.get("PORTAINER_ENV_ID")] *)
Variable PORTAINER_ENV_ID : option string.

(** The table [Tools] of [./constants/index.ts], which is not among the
    sources: the string each member stands for. *)
Variable Tools : ToolKey -> string.

Variable StringToNumber_positive : string -> bool.

Variable PORTAINER_BASE_URL PORTAINER_API_KEY : option string.

Definition portainerClient : ClientConfig :=
  mkConfig PORTAINER_BASE_URL [("X-API-Key", PORTAINER_API_KEY)] 30000.

(** [`${PORTAINER_ENV_ID}`] *)
Definition env_text : string :=
  match PORTAINER_ENV_ID with
  | Some s => s
  | None => "undefined"
  end.

(** *** Client *)

Definition fetchDockerContainers : Prog JsValue :=
  response <- send (mkRequest GET
      ("/api/endpoints/" ++ env_text ++ "/docker/containers/json")
      [("all", JBool true)] None) ;;
  await response.

Definition createDockerContainer
  (containerName image exposedPorts hostConfig : JsValue) : Prog JsValue :=
  response <- send (mkRequest POST
      ("/api/endpoints/" ++ env_text ++ "/docker/containers/create")
      []
      (Some (JObj [("name", containerName); ("Image", image);
                   ("ExposedPorts", exposedPorts);
                   ("HostConfig", hostConfig)]))) ;;
  await response.

Definition startDockerContainer (containerId : JsValue) : Prog JsValue :=
  id <- str containerId ;;
  response <- send (mkRequest POST
      ("/api/endpoints/" ++ env_text ++ "/docker/containers/" ++ id
       ++ "/start")
      [] None) ;;
  await response ;;;
  Ret JUndefined.

Definition deleteDockerContainer (containerId force : JsValue)
  : Prog JsValue :=
  let force := default_to (JBool false) force in
  id <- str containerId ;;
  response <- send (mkRequest DELETE
      ("/api/endpoints/" ++ env_text ++ "/docker/containers/" ++ id)
      [("force", force)] None) ;;
  await response ;;;
  Ret JUndefined.

Definition fetchContainerLogs
  (containerId stdout stderr follow timestamps tail : JsValue)
  : Prog JsValue :=
  let stdout := default_to (JBool true) stdout in
  let stderr := default_to (JBool true) stderr in
  let follow := default_to (JBool false) follow in
  let timestamps := default_to (JBool false) timestamps in
  let tail := default_to (JNum 10) tail in
  id <- str containerId ;;
  response <- send (mkRequest GET
      ("/api/endpoints/" ++ env_text ++ "/docker/containers/" ++ id
       ++ "/logs")
      [("stdout", stdout); ("stderr", stderr); ("follow", follow);
       ("timestamps", timestamps); ("tail", tail)] None) ;;
  await response.

Definition updateContainerResourceLimits
  (containerId memory memorySwap restartPolicy : JsValue) : Prog JsValue :=
  id <- str containerId ;;
  response <- send (mkRequest POST
      ("/api/endpoints/" ++ env_text ++ "/docker/containers/" ++ id
       ++ "/update")
      []
      (Some (JObj [("Memory", memory); ("MemorySwap", memorySwap);
                   ("RestartPolicy", restartPolicy)]))) ;;
  await response ;;;
  Ret JUndefined.

Definition pruneContainer : Prog JsValue :=
  response <- send (mkRequest DELETE
      ("/api/endpoints/" ++ env_text ++ "/docker/containers/prune")
      [("all", JBool true)] None) ;;
  await response.

Definition fetchImages : Prog JsValue :=
  response <- send (mkRequest GET
      ("/api/endpoints/" ++ env_text ++ "/docker/images/json") [] None) ;;
  await response.

Definition deleteImageBuildCache : Prog JsValue :=
  response <- send (mkRequest DELETE
      ("/api/endpoints/" ++ env_text ++ "/docker/images/prune") [] None) ;;
  await response.

Definition deleteUnusedImages : Prog JsValue :=
  response <- send (mkRequest DELETE
      ("/api/endpoints/" ++ env_text ++ "/docker/images/prune") [] None) ;;
  await response.

Definition fetchNetworks : Prog JsValue :=
  response <- send (mkRequest GET
      ("/api/endpoints/" ++ env_text ++ "/docker/networks") [] None) ;;
  await response.

Definition fetchServices : Prog JsValue :=
  response <- send (mkRequest GET
      ("/api/endpoints/" ++ env_text ++ "/docker/services") [] None) ;;
  await response.

Definition fetchServiceLog
  (serviceId stdout stderr follow timestamps tail : JsValue)
  : Prog JsValue :=
  let stdout := default_to (JBool true) stdout in
  let stderr := default_to (JBool true) stderr in
  let follow := default_to (JBool false) follow in
  let timestamps := default_to (JBool false) timestamps in
  let tail := default_to (JNum 10) tail in
  id <- str serviceId ;;
  response <- send (mkRequest GET
      ("/api/endpoints/" ++ env_text ++ "/docker/services/" ++ id
       ++ "/logs")
      [("stdout", stdout); ("stderr", stderr); ("follow", follow);
       ("timestamps", timestamps); ("tail", tail)] None) ;;
  await response.

(** *** Dispatcher: list tools *)

Definition listTools : list Tool :=
  [ mkTool (Tools GetDockerContainers) "Fetch all Docker containers" [] [];
    mkTool (Tools CreateDockerContainer) "Create a new Docker container"
      [ mkProperty "containerName" "string"
          "The name of the container to create";
        mkProperty "image" "string"
          "The Docker image to use for the container";
        mkProperty "exposedPorts" "object"
          "Ports to expose from the container";
        mkProperty "hostConfig" "object"
          "Host configuration for the container" ]
      ["containerName"; "image"];
    mkTool (Tools StartDockerContainer) "Start a Docker container"
      [ mkProperty "containerId" "string"
          "The ID of the container to start" ]
      ["containerId"];
    mkTool (Tools DeleteDockerContainer) "Delete a Docker container"
      [ mkProperty "containerId" "string"
          "The ID of the container to delete";
        mkProperty "force" "boolean"
          "Whether to force the deletion of the container" ]
      ["containerId"];
    mkTool (Tools GetContainerLogs) "Fetch logs from a Docker container"
      [ mkProperty "containerId" "string"
          "The ID of the container to fetch logs from";
        mkProperty "stdout" "boolean" "Whether to include stdout logs";
        mkProperty "stderr" "boolean" "Whether to include stderr logs";
        mkProperty "follow" "boolean" "Whether to follow the logs";
        mkProperty "timestamps" "boolean" "Whether to include timestamps";
        mkProperty "tail" "number"
          "Number of lines to return from the end of the logs" ]
      ["containerId"];
    mkTool (Tools UpdateContainer)
      "Update resource limits for a Docker container"
      [ mkProperty "containerId" "string"
          "The ID of the container to update";
        mkProperty "memory" "number" "Memory limit in bytes";
        mkProperty "memorySwap" "number" "Memory swap limit in bytes";
        mkProperty "restartPolicy" "object"
          "Restart policy for the container" ]
      ["containerId"];
    mkTool (Tools DeleteUnwantedContainers) "Delete all stopped containers"
      [] [];
    mkTool (Tools GetImages) "Fetch all Docker images" [] [];
    mkTool (Tools DeleteImageBuilderCache)
      "Delete the build cache for Docker images" [] [];
    mkTool (Tools DeleteUnusedImages) "Delete unused Docker images" [] [];
    mkTool (Tools GetNetworks) "Fetch all Docker networks" [] [];
    mkTool (Tools GetServices) "Fetch all Docker services" [] [];
    mkTool (Tools GetServiceLogs) "Fetch logs from a Docker service"
      [ mkProperty "serviceId" "string"
          "The ID of the service to fetch logs from";
        mkProperty "stdout" "boolean" "Whether to include stdout logs";
        mkProperty "stderr" "boolean" "Whether to include stderr logs";
        mkProperty "follow" "boolean" "Whether to follow the logs";
        mkProperty "timestamps" "boolean" "Whether to include timestamps";
        mkProperty "tail" "number"
          "Number of lines to return from the end of the logs" ]
      ["serviceId"] ].

(** The handler registered for [ListToolsRequestSchema]. *)
Definition listToolsHandler : Prog (list Tool) := Ret listTools.

(** *** Dispatcher: call tool *)

(** [switch (name)]: the first [case] whose constant is the name. *)
Definition select (name : string) : option ToolKey :=
  find (fun k => String.eqb name (Tools k)) cases.

(** [`${p.PublicPort}:${p.PrivatePort}/${p.Type}`] *)
Definition port_text (p : JsValue) : Prog string :=
  publicPort <- get p "PublicPort" ;;
  s1 <- str publicPort ;;
  privatePort <- get p "PrivatePort" ;;
  s2 <- str privatePort ;;
  type <- get p "Type" ;;
  s3 <- str type ;;
  Ret (s1 ++ ":" ++ s2 ++ "/" ++ s3).

(** The line [result.map] builds for one container. *)
Definition container_line (container : JsValue) : Prog string :=
  id <- get container "Id" ;;
  s_id <- str id ;;
  names <- get container "Names" ;;
  s_name <- str (or_else (opt_chain names JUndefined first)
                         (JStr "unknown")) ;;
  ports <- get container "Ports" ;;
  ports_text <- opt_chain ports (Ret JUndefined)
      (fun ps =>
         texts <- call_map "container.Ports?.map" ps port_text ;;
         Ret (JStr (join ", " texts))) ;;
  s_ports <- str (or_else ports_text (JStr "none")) ;;
  state <- get container "State" ;;
  s_state <- str state ;;
  status <- get container "Status" ;;
  s_status <- str status ;;
  Ret ("ContainerId: " ++ s_id ++ ", Name: " ++ s_name ++ ", Ports: "
       ++ s_ports ++ ", State: " ++ s_state ++ ", Status: " ++ s_status).

Definition image_line (image : JsValue) : Prog string :=
  repoTags <- get image "RepoTags" ;;
  let name := or_else (opt_chain repoTags JUndefined first)
                      (JStr "untagged") in
  has_slash <- includes_slash "name.includes" name ;;
  registry <- (if has_slash : bool
               then split_slash_first "name.split" name
               else Ret "docker.io") ;;
  s_name <- str name ;;
  id <- get image "Id" ;;
  s_id <- str id ;;
  Ret ("Name: " ++ s_name ++ ", Registry: " ++ registry ++ ", Id: "
       ++ s_id).

Definition pruned_image_line (image : JsValue) : Prog string :=
  name <- get image "name" ;;
  s_name <- str name ;;
  description <- get image "description" ;;
  s_description <- str description ;;
  Ret ("Name: " ++ s_name ++ ", Description: " ++ s_description).

Definition network_line (network : JsValue) : Prog string :=
  v1 <- get network "Name" ;; s1 <- str v1 ;;
  v2 <- get network "Id" ;; s2 <- str v2 ;;
  v3 <- get network "Created" ;; s3 <- str v3 ;;
  v4 <- get network "Scope" ;; s4 <- str v4 ;;
  v5 <- get network "Driver" ;; s5 <- str v5 ;;
  Ret ("Name: " ++ s1 ++ ", Id: " ++ s2 ++ ", Created: " ++ s3
       ++ ", Scope: " ++ s4 ++ ", Driver: " ++ s5).

(** [`${port.PublishedPort}->${port.TargetPort}/${port.Protocol}`] *)
Definition service_port_text (port : JsValue) : Prog string :=
  v1 <- get port "PublishedPort" ;; s1 <- str v1 ;;
  v2 <- get port "TargetPort" ;; s2 <- str v2 ;;
  v3 <- get port "Protocol" ;; s3 <- str v3 ;;
  Ret (s1 ++ "->" ++ s2 ++ "/" ++ s3).

Definition service_line (service : JsValue) : Prog string :=
  let spec := opt_chain service JUndefined (fun s => prop s "Spec") in
  let name :=
    or_else (opt_chain spec JUndefined (fun sp => prop sp "Name"))
            (JStr "N/A") in
  let image :=
    or_else
      (opt_chain spec JUndefined (fun sp =>
       opt_chain (prop sp "TaskTemplate") JUndefined (fun tt =>
       opt_chain (prop tt "ContainerSpec") JUndefined (fun cs =>
       prop cs "Image"))))
      (JStr "N/A") in
  ports_text <-
    opt_chain service (Ret JUndefined) (fun s =>
    opt_chain (prop s "Endpoint") (Ret JUndefined) (fun ep =>
    opt_chain (prop ep "Ports") (Ret JUndefined) (fun ps =>
      texts <- call_map "service?.Endpoint?.Ports?.map" ps
                 service_port_text ;;
      Ret (JStr (join ", " texts))))) ;;
  let ports := or_else ports_text (JStr "None") in
  s_name <- str name ;;
  s_image <- str image ;;
  s_ports <- str ports ;;
  Ret ("Name: " ++ s_name ++ ", Image: " ++ s_image ++ ", Ports: "
       ++ s_ports).

(** [error.response?.data?.message] *)
Definition response_message (error : Exn) : JsValue :=
  match error with
  | Error _ => JUndefined
  | AxiosError None _ _ => JUndefined
  | AxiosError (Some response) _ _ =>
      opt_chain (data response) JUndefined (fun d => prop d "message")
  end.

(** [error.message] *)
Definition error_message (error : Exn) : JsValue :=
  match error with
  | Error m => JStr m
  | AxiosError _ _ m => JStr m
  end.

(** [error.response?.data?.message || error.message
     || "Cannot process the request"] *)
Definition errorMessage (error : Exn) : JsValue :=
  or_else (or_else (response_message error) (error_message error))
          (JStr "Cannot process the request").

(** The [catch] clause. *)
Definition on_error (error : Exn) : Prog TextReply :=
  s <- str (errorMessage error) ;;
  Ret (text_reply (JStr ("Failed: " ++ s))).

(** The body of the [try] block once the arguments are known to be
    there. *)
Definition dispatch (name : string) (typedArgs : list (string * JsValue))
  : Prog TextReply :=
  let arg := field typedArgs in
  match select name with
  | Some GetDockerContainers =>
      result <- fetchDockerContainers ;;
      lines <- call_map "result.map" result container_line ;;
      Ret (text_reply (JStr (join LF lines)))
  | Some CreateDockerContainer =>
      result <- createDockerContainer
                  (arg "containerName") (arg "image")
                  (or_else (arg "exposedPorts") (JObj []))
                  (or_else (arg "hostConfig") (JObj [])) ;;
      id <- get result "Id" ;;
      s_id <- str id ;;
      warnings <- get result "Warnings" ;;
      len <- get_length warnings ;;
      some <- gt_zero StringToNumber_positive len ;;
      tail <- (if some : bool
               then warnings <- get result "Warnings" ;;
                    joined <- call_join "result.Warnings.join" warnings
                                ", " ;;
                    Ret (LF ++ "Warnings: " ++ joined)
               else Ret "") ;;
      Ret (text_reply
             (JStr ("Container created successfully with Id: " ++ s_id
                    ++ tail)))
  | Some StartDockerContainer =>
      startDockerContainer (arg "containerId") ;;;
      s_id <- str (arg "containerId") ;;
      s_env <- str (arg "envId") ;;
      Ret (text_reply
             (JStr ("Operation successful - Container Id: " ++ s_id
                    ++ ", Env Id: " ++ s_env)))
  | Some DeleteDockerContainer =>
      deleteDockerContainer (arg "containerId") (arg "force") ;;;
      s_id <- str (arg "containerId") ;;
      s_env <- str (arg "envId") ;;
      Ret (text_reply
             (JStr ("Operation successful - Container Id: " ++ s_id
                    ++ ", Env Id: " ++ s_env)))
  | Some GetContainerLogs =>
      result <- fetchContainerLogs (arg "containerId") (arg "stdout")
                  (arg "stderr") (arg "follow") (arg "timestamps")
                  (arg "tail") ;;
      message <- get result "message" ;;
      Ret (text_reply message)
  | Some UpdateContainer =>
      updateContainerResourceLimits (arg "containerId") (arg "memory")
        (arg "memorySwap") (arg "restartPolicy") ;;;
      s_id <- str (arg "containerId") ;;
      s_env <- str (arg "envId") ;;
      Ret (text_reply
             (JStr ("Operation successful - Container Id: " ++ s_id
                    ++ ", Env Id: " ++ s_env)))
  | Some DeleteUnwantedContainers =>
      pruneContainer ;;;
      s_env <- str (arg "envId") ;;
      Ret (text_reply (JStr ("Operation successful - Env Id: " ++ s_env)))
  | Some GetImages =>
      images <- fetchImages ;;
      lines <- call_map "images.map" images image_line ;;
      Ret (text_reply (JStr (join LF lines)))
  | Some DeleteImageBuilderCache =>
      deleteImageBuildCache ;;;
      s_env <- str (arg "envId") ;;
      Ret (text_reply (JStr ("Operation successful - Env Id: " ++ s_env)))
  | Some DeleteUnusedImages =>
      result <- deleteUnusedImages ;;
      lines <- call_map "result.map" result pruned_image_line ;;
      Ret (text_reply (JStr (join LF lines)))
  | Some GetNetworks =>
      networks <- fetchNetworks ;;
      lines <- call_map "networks.map" networks network_line ;;
      Ret (text_reply (JStr (join LF lines)))
  | Some GetServices =>
      services <- fetchServices ;;
      lines <- call_map "services.map" services service_line ;;
      Ret (text_reply (JStr (join LF lines)))
  | Some GetServiceLogs =>
      result <- fetchServiceLog (arg "serviceId") (arg "stdout")
                  (arg "stderr") (arg "follow") (arg "timestamps")
                  (arg "tail") ;;
      message <- get result "message" ;;
      Ret (text_reply message)
  | None => Throw (Error ("Unknown tool: " ++ name))
  end.

(** The handler registered for [CallToolRequestSchema]. *)
Definition try_block (request : CallToolRequest) : Prog TextReply :=
  match arguments request with
  | None =>
      Throw (Error ("No arguments provided for tool: " ++ name request))
  | Some typedArgs => dispatch (name request) typedArgs
  end.

Definition callTool (request : CallToolRequest) : Prog TextReply :=
  try_catch (try_block request) on_error.

End Server.

End DefaultEnv.

(* ------------------------------------------------------------------ *)
(** ** Revision with an environment id per call

    [src/api/portainer.ts]: every function takes [envId] first and passes
    its call through [handleRequest].  The dispatcher that imports it
    ([deleteStoppedContainers] and [inspectNetwork] among the imports)
    declares [envId] in every schema, returns [{ result }] and has no
    [try]/[catch]. *)

Module PerCallEnv.

(** The members of [TOOL] the sources name, in the order of the [case]
    clauses. *)
Inductive ToolKey : Type :=
| FETCH_DOCKER_CONTAINERS
| CREATE_DOCKER_CONTAINER
| START_DOCKER_CONTAINER
| DELETE_DOCKER_CONTAINER
| FETCH_CONTAINER_LOGS
| UPDATE_CONTAINER_RESOURCE_LIMITS
| DELETE_STOPPED_CONTAINERS
| FETCH_IMAGES
| DELETE_IMAGE_BUILD_CACHE
| DELETE_UNUSED_IMAGES
| FETCH_NETWORKS
| INSPECT_NETWORK
| FETCH_SERVICES
| FETCH_SERVICE_LOG.

Definition cases : list ToolKey :=
  [FETCH_DOCKER_CONTAINERS; CREATE_DOCKER_CONTAINER; START_DOCKER_CONTAINER;
   DELETE_DOCKER_CONTAINER; FETCH_CONTAINER_LOGS;
   UPDATE_CONTAINER_RESOURCE_LIMITS; DELETE_STOPPED_CONTAINERS; FETCH_IMAGES;
   DELETE_IMAGE_BUILD_CACHE; DELETE_UNUSED_IMAGES; FETCH_NETWORKS;
   INSPECT_NETWORK; FETCH_SERVICES; FETCH_SERVICE_LOG].

(** [{ result }] *)
Record ResultReply : Type := mkResult { result : JsValue }.

(** *** Client *)

Section Config.

Variable PORTAINER_BASE_URL PORTAINER_API_KEY : option string.

Definition or_default (v : option string) (d : string) : string :=
  match v with
  | Some s => if String.eqb s "" then d else s
  | None => d
  end.

Definition portainerClient : ClientConfig :=
  mkConfig (Some (or_default PORTAINER_BASE_URL "portainer-api"))
    [("X-API-Key",
      Some (or_default PORTAINER_API_KEY "poratienr-access-token"))]
    30000.

End Config.

Definition isAxiosError (error : Exn) : bool :=
  match error with
  | AxiosError _ _ _ => true
  | Error _ => false
  end.

(** The [catch] clause of [handleRequest]. *)
Definition classify (error : Exn) : Prog JsValue :=
  match error with
  | AxiosError (Some response) _ _ =>
      s_status <- str (JNum (status response)) ;;
      s_body <- str (JSON_stringify_value (data response)) ;;
      Throw (Error ("Portainer API error: " ++ s_status ++ " - " ++ s_body))
  | AxiosError None true m =>
      Throw (Error ("No response from Portainer API: " ++ m))
  | AxiosError None false m =>
      Throw (Error ("Error setting up request to Portainer API: " ++ m))
  | Error _ => Throw error
  end.

Definition handleRequest (request : Outcome) : Prog JsValue :=
  try_catch (await request) classify.

Definition fetchDockerContainers (envId : JsValue) : Prog JsValue :=
  env <- str envId ;;
  request <- send (mkRequest GET
      ("/api/endpoints/" ++ env ++ "/docker/containers/json")
      [("all", JBool true)] None) ;;
  handleRequest request.

Definition createDockerContainer
  (envId containerName image exposedPorts hostConfig : JsValue)
  : Prog JsValue :=
  env <- str envId ;;
  request <- send (mkRequest POST
      ("/api/endpoints/" ++ env ++ "/docker/containers/create")
      []
      (Some (JObj [("name", containerName); ("Image", image);
                   ("ExposedPorts", exposedPorts);
                   ("HostConfig", hostConfig)]))) ;;
  handleRequest request.

Definition startDockerContainer (envId containerId : JsValue)
  : Prog JsValue :=
  env <- str envId ;;
  id <- str containerId ;;
  request <- send (mkRequest POST
      ("/api/endpoints/" ++ env ++ "/docker/containers/" ++ id ++ "/start")
      [] None) ;;
  handleRequest request.

Definition deleteDockerContainer (envId containerId force : JsValue)
  : Prog JsValue :=
  let force := default_to (JBool false) force in
  env <- str envId ;;
  id <- str containerId ;;
  request <- send (mkRequest DELETE
      ("/api/endpoints/" ++ env ++ "/docker/containers/" ++ id)
      [("force", force)] None) ;;
  handleRequest request.

Definition fetchContainerLogs
  (envId containerId stdout stderr follow timestamps tail : JsValue)
  : Prog JsValue :=
  let stdout := default_to (JBool true) stdout in
  let stderr := default_to (JBool true) stderr in
  let follow := default_to (JBool false) follow in
  let timestamps := default_to (JBool false) timestamps in
  let tail := default_to (JNum 10) tail in
  env <- str envId ;;
  id <- str containerId ;;
  request <- send (mkRequest GET
      ("/api/endpoints/" ++ env ++ "/docker/containers/" ++ id ++ "/logs")
      [("stdout", stdout); ("stderr", stderr); ("follow", follow);
       ("timestamps", timestamps); ("tail", tail)] None) ;;
  handleRequest request.

Definition updateContainerResourceLimits
  (envId containerId memory memorySwap restartPolicy : JsValue)
  : Prog JsValue :=
  env <- str envId ;;
  id <- str containerId ;;
  request <- send (mkRequest POST
      ("/api/endpoints/" ++ env ++ "/docker/containers/" ++ id ++ "/update")
      []
      (Some (JObj [("Memory", memory); ("MemorySwap", memorySwap);
                   ("RestartPolicy", restartPolicy)]))) ;;
  handleRequest request.

Definition deleteStoppedContainers (envId : JsValue) : Prog JsValue :=
  env <- str envId ;;
  request <- send (mkRequest DELETE
      ("/api/endpoints/" ++ env ++ "/docker/containers/prune")
      [("all", JBool true)] None) ;;
  handleRequest request.

Definition fetchImages (envId : JsValue) : Prog JsValue :=
  env <- str envId ;;
  request <- send (mkRequest GET
      ("/api/endpoints/" ++ env ++ "/docker/images/json") [] None) ;;
  handleRequest request.

Definition deleteImageBuildCache (envId : JsValue) : Prog JsValue :=
  env <- str envId ;;
  request <- send (mkRequest DELETE
      ("/api/endpoints/" ++ env ++ "/docker/images/prune") [] None) ;;
  handleRequest request.

Definition deleteUnusedImages (envId : JsValue) : Prog JsValue :=
  env <- str envId ;;
  request <- send (mkRequest DELETE
      ("/api/endpoints/" ++ env ++ "/docker/images/prune") [] None) ;;
  handleRequest request.

Definition fetchNetworks (envId : JsValue) : Prog JsValue :=
  env <- str envId ;;
  request <- send (mkRequest GET
      ("/api/endpoints/" ++ env ++ "/docker/networks") [] None) ;;
  handleRequest request.

Definition inspectNetwork (envId networkId : JsValue) : Prog JsValue :=
  env <- str envId ;;
  id <- str networkId ;;
  request <- send (mkRequest GET
      ("/api/endpoints/" ++ env ++ "/docker/networks/" ++ id) [] None) ;;
  handleRequest request.

Definition fetchServices (envId : JsValue) : Prog JsValue :=
  env <- str envId ;;
  request <- send (mkRequest GET
      ("/api/endpoints/" ++ env ++ "/docker/services") [] None) ;;
  handleRequest request.

Definition fetchServiceLog
  (envId serviceId stdout stderr follow timestamps tail : JsValue)
  : Prog JsValue :=
  let stdout := default_to (JBool true) stdout in
  let stderr := default_to (JBool true) stderr in
  let follow := default_to (JBool false) follow in
  let timestamps := default_to (JBool false) timestamps in
  let tail := default_to (JNum 10) tail in
  env <- str envId ;;
  id <- str serviceId ;;
  request <- send (mkRequest GET
      ("/api/endpoints/" ++ env ++ "/docker/services/" ++ id ++ "/logs")
      [("stdout", stdout); ("stderr", stderr); ("follow", follow);
       ("timestamps", timestamps); ("tail", tail)] None) ;;
  handleRequest request.

Section Server.

(** The table [TOOL] of [./constants/index.ts], which is not among the
    sources: the string each member stands for. *)
Variable TOOL : ToolKey -> string.

(** *** Dispatcher: list tools *)

Definition listTools : list Tool :=
  [ mkTool (TOOL FETCH_DOCKER_CONTAINERS)
      "Fetch all Docker containers from a specified environment"
      [ mkProperty "envId" "string"
          "The ID of the environment to fetch containers from" ]
      ["envId"];
    mkTool (TOOL CREATE_DOCKER_CONTAINER)
      "Create a new Docker container in a specified environment"
      [ mkProperty "envId" "string"
          "The ID of the environment to create the container in";
        mkProperty "containerName" "string"
          "The name of the container to create";
        mkProperty "image" "string"
          "The Docker image to use for the container";
        mkProperty "exposedPorts" "object"
          "Ports to expose from the container";
        mkProperty "hostConfig" "object"
          "Host configuration for the container" ]
      ["envId"; "containerName"; "image"];
    mkTool (TOOL START_DOCKER_CONTAINER)
      "Start a Docker container in a specified environment"
      [ mkProperty "envId" "string"
          "The ID of the environment containing the container";
        mkProperty "containerId" "string"
          "The ID of the container to start" ]
      ["envId"; "containerId"];
    mkTool (TOOL DELETE_DOCKER_CONTAINER)
      "Delete a Docker container from a specified environment"
      [ mkProperty "envId" "string"
          "The ID of the environment containing the container";
        mkProperty "containerId" "string"
          "The ID of the container to delete";
        mkProperty "force" "boolean"
          "Whether to force the deletion of the container" ]
      ["envId"; "containerId"];
    mkTool (TOOL FETCH_CONTAINER_LOGS)
      "Fetch logs from a Docker container"
      [ mkProperty "envId" "string"
          "The ID of the environment containing the container";
        mkProperty "containerId" "string"
          "The ID of the container to fetch logs from";
        mkProperty "stdout" "boolean" "Whether to include stdout logs";
        mkProperty "stderr" "boolean" "Whether to include stderr logs";
        mkProperty "follow" "boolean" "Whether to follow the logs";
        mkProperty "timestamps" "boolean" "Whether to include timestamps";
        mkProperty "tail" "number"
          "Number of lines to return from the end of the logs" ]
      ["envId"; "containerId"];
    mkTool (TOOL UPDATE_CONTAINER_RESOURCE_LIMITS)
      "Update resource limits for a Docker container"
      [ mkProperty "envId" "string"
          "The ID of the environment containing the container";
        mkProperty "containerId" "string"
          "The ID of the container to update";
        mkProperty "memory" "number" "Memory limit in bytes";
        mkProperty "memorySwap" "number" "Memory swap limit in bytes";
        mkProperty "restartPolicy" "object"
          "Restart policy for the container" ]
      ["envId"; "containerId"];
    mkTool (TOOL DELETE_STOPPED_CONTAINERS)
      "Delete all stopped containers from a specified environment"
      [ mkProperty "envId" "string"
          "The ID of the environment to clean up" ]
      ["envId"];
    mkTool (TOOL FETCH_IMAGES)
      "Fetch all Docker images from a specified environment"
      [ mkProperty "envId" "string"
          "The ID of the environment to fetch images from" ]
      ["envId"];
    mkTool (TOOL DELETE_IMAGE_BUILD_CACHE)
      "Delete the build cache for Docker images"
      [ mkProperty "envId" "string"
          "The ID of the environment to clean up" ]
      ["envId"];
    mkTool (TOOL DELETE_UNUSED_IMAGES) "Delete unused Docker images"
      [ mkProperty "envId" "string"
          "The ID of the environment to clean up" ]
      ["envId"];
    mkTool (TOOL FETCH_NETWORKS)
      "Fetch all Docker networks from a specified environment"
      [ mkProperty "envId" "string"
          "The ID of the environment to fetch networks from" ]
      ["envId"];
    mkTool (TOOL INSPECT_NETWORK)
      "Get detailed information about a specific Docker network"
      [ mkProperty "envId" "string"
          "The ID of the environment containing the network";
        mkProperty "networkId" "string"
          "The ID of the network to inspect" ]
      ["envId"; "networkId"];
    mkTool (TOOL FETCH_SERVICES)
      "Fetch all Docker services from a specified environment"
      [ mkProperty "envId" "string"
          "The ID of the environment to fetch services from" ]
      ["envId"];
    mkTool (TOOL FETCH_SERVICE_LOG) "Fetch logs from a Docker service"
      [ mkProperty "envId" "string"
          "The ID of the environment containing the service";
        mkProperty "serviceId" "string"
          "The ID of the service to fetch logs from";
        mkProperty "stdout" "boolean" "Whether to include stdout logs";
        mkProperty "stderr" "boolean" "Whether to include stderr logs";
        mkProperty "follow" "boolean" "Whether to follow the logs";
        mkProperty "timestamps" "boolean" "Whether to include timestamps";
        mkProperty "tail" "number"
          "Number of lines to return from the end of the logs" ]
      ["envId"; "serviceId"] ].

(** The handler registered for [ListToolsRequestSchema]. *)
Definition listToolsHandler : Prog (list Tool) := Ret listTools.

(** *** Dispatcher: call tool *)

(** [switch (name)]: the first [case] whose constant is the name. *)
Definition select (name : string) : option ToolKey :=
  find (fun k => String.eqb name (TOOL k)) cases.

Definition reply (p : Prog JsValue) : Prog ResultReply :=
  r <- p ;; Ret (mkResult r).

Definition dispatch (name : string) (typedArgs : list (string * JsValue))
  : Prog ResultReply :=
  let arg := field typedArgs in
  match select name with
  | Some FETCH_DOCKER_CONTAINERS =>
      reply (fetchDockerContainers (arg "envId"))
  | Some CREATE_DOCKER_CONTAINER =>
      reply (createDockerContainer (arg "envId") (arg "containerName")
               (arg "image")
               (or_else (arg "exposedPorts") (JObj []))
               (or_else (arg "hostConfig") (JObj [])))
  | Some START_DOCKER_CONTAINER =>
      reply (startDockerContainer (arg "envId") (arg "containerId"))
  | Some DELETE_DOCKER_CONTAINER =>
      reply (deleteDockerContainer (arg "envId") (arg "containerId")
               (arg "force"))
  | Some FETCH_CONTAINER_LOGS =>
      reply (fetchContainerLogs (arg "envId") (arg "containerId")
               (arg "stdout") (arg "stderr") (arg "follow")
               (arg "timestamps") (arg "tail"))
  | Some UPDATE_CONTAINER_RESOURCE_LIMITS =>
      reply (updateContainerResourceLimits (arg "envId")
               (arg "containerId") (arg "memory") (arg "memorySwap")
               (arg "restartPolicy"))
  | Some DELETE_STOPPED_CONTAINERS =>
      reply (deleteStoppedContainers (arg "envId"))
  | Some FETCH_IMAGES => reply (fetchImages (arg "envId"))
  | Some DELETE_IMAGE_BUILD_CACHE =>
      reply (deleteImageBuildCache (arg "envId"))
  | Some DELETE_UNUSED_IMAGES => reply (deleteUnusedImages (arg "envId"))
  | Some FETCH_NETWORKS => reply (fetchNetworks (arg "envId"))
  | Some INSPECT_NETWORK =>
      reply (inspectNetwork (arg "envId") (arg "networkId"))
  | Some FETCH_SERVICES => reply (fetchServices (arg "envId"))
  | Some FETCH_SERVICE_LOG =>
      reply (fetchServiceLog (arg "envId") (arg "serviceId")
               (arg "stdout") (arg "stderr") (arg "follow")
               (arg "timestamps") (arg "tail"))
  | None => Throw (Error ("Unknown tool: " ++ name))
  end.

(** The handler registered for [CallToolRequestSchema]. *)
Definition callTool (request : CallToolRequest) : Prog ResultReply :=
  match arguments request with
  | None =>
      Throw (Error ("No arguments provided for tool: " ++ name request))
  | Some typedArgs => dispatch (name request) typedArgs
  end.

End Server.

End PerCallEnv.


(* ------------------------------------------------------------------ *)
(** ** The table of tools of the specification (section 6)

    Written after the specification's table: for each tool the arguments
    it requires and the optional ones.  The environment id is starred in
    the table (its presence varies across revisions), so the required
    arguments are given for both readings. *)

Module SpecTable.

Inductive SpecTool : Type :=
| fetch_containers
| create_container
| start_container
| delete_container
| fetch_container_logs
| update_container_limits
| delete_stopped_containers
| fetch_images
| delete_image_build_cache
| delete_unused_images
| fetch_networks
| inspect_network
| fetch_services
| fetch_service_logs.

Inductive SpecArg : Type :=
| environment_id
| container_name
| image
| exposed_ports
| host_config
| container_id
| force
| stdout
| stderr
| follow
| timestamps
| tail
| memory
| memory_swap
| restart_policy
| network_id
| service_id.

(** The required arguments besides the environment id. *)
Definition required_besides_env (t : SpecTool) : list SpecArg :=
  match t with
  | fetch_containers => []
  | create_container => [container_name; image]
  | start_container => [container_id]
  | delete_container => [container_id]
  | fetch_container_logs => [container_id]
  | update_container_limits => [container_id]
  | delete_stopped_containers => []
  | fetch_images => []
  | delete_image_build_cache => []
  | delete_unused_images => []
  | fetch_networks => []
  | inspect_network => [network_id]
  | fetch_services => []
  | fetch_service_logs => [service_id]
  end.

(** The required arguments of a row, with the starred environment id
    ([per_call = true]) or without it. *)
Definition required_args (per_call : bool) (t : SpecTool) : list SpecArg :=
  ((if per_call then [environment_id] else []) ++ required_besides_env t)%list.

Definition optional_args (t : SpecTool) : list SpecArg :=
  match t with
  | create_container => [exposed_ports; host_config]
  | delete_container => [force]
  | fetch_container_logs => [stdout; stderr; follow; timestamps; tail]
  | update_container_limits => [memory; memory_swap; restart_policy]
  | fetch_service_logs => [stdout; stderr; follow; timestamps; tail]
  | _ => []
  end.

(** The name of an argument in the input schemas. *)
Definition schema_name (a : SpecArg) : string :=
  match a with
  | environment_id => "envId"
  | container_name => "containerName"
  | image => "image"
  | exposed_ports => "exposedPorts"
  | host_config => "hostConfig"
  | container_id => "containerId"
  | force => "force"
  | stdout => "stdout"
  | stderr => "stderr"
  | follow => "follow"
  | timestamps => "timestamps"
  | tail => "tail"
  | memory => "memory"
  | memory_swap => "memorySwap"
  | restart_policy => "restartPolicy"
  | network_id => "networkId"
  | service_id => "serviceId"
  end.

(** The row each tool constant of the sources stands for. *)
Definition row_of_TOOL (k : PerCallEnv.ToolKey) : SpecTool :=
  match k with
  | PerCallEnv.FETCH_DOCKER_CONTAINERS => fetch_containers
  | PerCallEnv.CREATE_DOCKER_CONTAINER => create_container
  | PerCallEnv.START_DOCKER_CONTAINER => start_container
  | PerCallEnv.DELETE_DOCKER_CONTAINER => delete_container
  | PerCallEnv.FETCH_CONTAINER_LOGS => fetch_container_logs
  | PerCallEnv.UPDATE_CONTAINER_RESOURCE_LIMITS => update_container_limits
  | PerCallEnv.DELETE_STOPPED_CONTAINERS => delete_stopped_containers
  | PerCallEnv.FETCH_IMAGES => fetch_images
  | PerCallEnv.DELETE_IMAGE_BUILD_CACHE => delete_image_build_cache
  | PerCallEnv.DELETE_UNUSED_IMAGES => delete_unused_images
  | PerCallEnv.FETCH_NETWORKS => fetch_networks
  | PerCallEnv.INSPECT_NETWORK => inspect_network
  | PerCallEnv.FETCH_SERVICES => fetch_services
  | PerCallEnv.FETCH_SERVICE_LOG => fetch_service_logs
  end.

Definition row_of_Tools (k : DefaultEnv.ToolKey) : SpecTool :=
  match k with
  | DefaultEnv.GetDockerContainers => fetch_containers
  | DefaultEnv.CreateDockerContainer => create_container
  | DefaultEnv.StartDockerContainer => start_container
  | DefaultEnv.DeleteDockerContainer => delete_container
  | DefaultEnv.GetContainerLogs => fetch_container_logs
  | DefaultEnv.UpdateContainer => update_container_limits
  | DefaultEnv.DeleteUnwantedContainers => delete_stopped_containers
  | DefaultEnv.GetImages => fetch_images
  | DefaultEnv.DeleteImageBuilderCache => delete_image_build_cache
  | DefaultEnv.DeleteUnusedImages => delete_unused_images
  | DefaultEnv.GetNetworks => fetch_networks
  | DefaultEnv.GetServices => fetch_services
  | DefaultEnv.GetServiceLogs => fetch_service_logs
  end.

(** The descriptors of a list that carry a given name. *)
Definition descriptors_named (n : string) (tools : list Tool) : list Tool :=
  filter (fun d => String.eqb (tool_name d) n) tools.

End SpecTable.

(* ------------------------------------------------------------------ *)
(** ** The text of a container of the declared shape

    What [container_line] comes to on a [DockerContainer]: the name shown is
    the first of [Names], or [unknown] when there is none or it is empty; a
    port without [PublicPort] shows as [undefined]. *)

Module ContainerText.

Definition display_name (c : DockerContainer) : string :=
  match Names c with
  | n :: _ => if String.eqb n "" then "unknown" else n
  | [] => "unknown"
  end.

Definition port_line (p : Port) : string :=
  match PublicPort p with
  | Some n => string_of_Z n
  | None => "undefined"
  end ++ ":" ++ string_of_Z (PrivatePort p) ++ "/" ++ PortType p.

Definition ports_line (c : DockerContainer) : string :=
  let joined := join ", " (map port_line (Ports c)) in
  if String.eqb joined "" then "none" else joined.

(** A port whose numbers are safe integers, so that [port_line] is the text
    JavaScript prints for it. *)
Definition exact_port (p : Port) : bool :=
  safe_integer (PrivatePort p)
  && match PublicPort p with
     | Some n => safe_integer n
     | None => true
     end.

Definition container_text (c : DockerContainer) : string :=
  "ContainerId: " ++ Id c ++ ", Name: " ++ display_name c ++ ", Ports: "
  ++ ports_line c ++ ", State: " ++ State c ++ ", Status: " ++ Status c.

End ContainerText.
Export ContainerText.

(* ------------------------------------------------------------------ *)
(** ** Instances used to run the model *)

Module Sample.

(** A table [Tools] whose members stand for their own names. *)
Definition Tools (k : DefaultEnv.ToolKey) : string :=
  match k with
  | DefaultEnv.GetDockerContainers => "GetDockerContainers"
  | DefaultEnv.CreateDockerContainer => "CreateDockerContainer"
  | DefaultEnv.StartDockerContainer => "StartDockerContainer"
  | DefaultEnv.DeleteDockerContainer => "DeleteDockerContainer"
  | DefaultEnv.GetContainerLogs => "GetContainerLogs"
  | DefaultEnv.UpdateContainer => "UpdateContainer"
  | DefaultEnv.DeleteUnwantedContainers => "DeleteUnwantedContainers"
  | DefaultEnv.GetImages => "GetImages"
  | DefaultEnv.DeleteImageBuilderCache => "DeleteImageBuilderCache"
  | DefaultEnv.DeleteUnusedImages => "DeleteUnusedImages"
  | DefaultEnv.GetNetworks => "GetNetworks"
  | DefaultEnv.GetServices => "GetServices"
  | DefaultEnv.GetServiceLogs => "GetServiceLogs"
  end.

(** A table [TOOL] with the tool names the README lists. *)
Definition TOOL (k : PerCallEnv.ToolKey) : string :=
  match k with
  | PerCallEnv.FETCH_DOCKER_CONTAINERS => "FETCH_DOCKER_CONTAINERS"
  | PerCallEnv.CREATE_DOCKER_CONTAINER => "CREATE_DOCKER_CONTAINER"
  | PerCallEnv.START_DOCKER_CONTAINER => "START_DOCKER_CONTAINER"
  | PerCallEnv.DELETE_DOCKER_CONTAINER => "DELETE_DOCKER_CONTAINER"
  | PerCallEnv.FETCH_CONTAINER_LOGS => "FETCH_CONTAINER_LOGS"
  | PerCallEnv.UPDATE_CONTAINER_RESOURCE_LIMITS =>
      "UPDATE_CONTAINER_RESOURCE_LIMITS"
  | PerCallEnv.DELETE_STOPPED_CONTAINERS => "DELETE_STOPPED_CONTAINERS"
  | PerCallEnv.FETCH_IMAGES => "FETCH_IMAGES"
  | PerCallEnv.DELETE_IMAGE_BUILD_CACHE => "DELETE_IMAGE_BUILD_CACHE"
  | PerCallEnv.DELETE_UNUSED_IMAGES => "DELETE_UNUSED_IMAGES"
  | PerCallEnv.FETCH_NETWORKS => "FETCH_NETWORKS"
  | PerCallEnv.INSPECT_NETWORK => "INSPECT_NETWORK"
  | PerCallEnv.FETCH_SERVICES => "FETCH_SERVICES"
  | PerCallEnv.FETCH_SERVICE_LOG => "FETCH_SERVICE_LOG"
  end.

(** A string-to-number comparison that knows the decimal digits only. *)
Definition digits_positive (s : string) : bool :=
  match s with
  | String c "" => andb (Nat.ltb 48 (nat_of_ascii c))
                        (Nat.leb (nat_of_ascii c) 57)
  | _ => false
  end.

(** Upstreams: one that answers every call with the same body, one that
    rejects every call with the same error. *)
Definition answering (d : JsValue) (r : Request) : Outcome := Resolved d.
Definition failing (e : Exn) (r : Request) : Outcome := Rejected e.

Definition web : DockerContainer :=
  mkContainer "4f1c" ["/web"; "/front"] "nginx:1.25" "sha256:aa" "nginx"
    1700000000 "running" "Up 2 hours"
    [mkPort (Some "0.0.0.0") 80 (Some 8080%Z) "tcp"; mkPort None 443 None "tcp"]
    [("tier", "front")] [] [].

Definition cache : DockerContainer :=
  mkContainer "9b2e" [] "redis:7" "sha256:bb" "redis-server"
    1700000100 "exited" "Exited (0) 3 minutes ago" [] [] [] [].

End Sample.

(* ------------------------------------------------------------------ *)
(** ** The calls the specification speaks of *)

Module Calls.

(** The optional arguments of the log tools, given with the values their
    parameters default to. *)
Definition log_defaults : list (string * JsValue) :=
  [("stdout", JBool true); ("stderr", JBool true); ("follow", JBool false);
   ("timestamps", JBool false); ("tail", JNum 10)].

Definition log_options : list string :=
  ["stdout"; "stderr"; "follow"; "timestamps"; "tail"].

(** [GET /api/endpoints/<env>/docker/<kind>/<id>/logs] with the log
    parameters. *)
Definition logs_call (kind env id : string)
  (log_params : list (string * JsValue)) : Request :=
  mkRequest GET
    ("/api/endpoints/" ++ env ++ "/docker/" ++ kind ++ "/" ++ id ++ "/logs")
    log_params None.

(** [DELETE /api/endpoints/<env>/docker/containers/<id>] with [force]. *)
Definition delete_call (env id : string) (force : JsValue) : Request :=
  mkRequest DELETE
    ("/api/endpoints/" ++ env ++ "/docker/containers/" ++ id)
    [("force", force)] None.

(** [POST /api/endpoints/<env>/docker/containers/<id>/start] *)
Definition start_call (env id : string) : Request :=
  mkRequest POST
    ("/api/endpoints/" ++ env ++ "/docker/containers/" ++ id ++ "/start")
    [] None.

(** [POST /api/endpoints/<env>/docker/containers/<id>/update] with the
    limits. *)
Definition update_call (env id : string)
  (memory memorySwap restartPolicy : JsValue) : Request :=
  mkRequest POST
    ("/api/endpoints/" ++ env ++ "/docker/containers/" ++ id ++ "/update")
    []
    (Some (JObj [("Memory", memory); ("MemorySwap", memorySwap);
                 ("RestartPolicy", restartPolicy)])).

(** [DELETE /api/endpoints/<env>/docker/containers/prune?all=true] *)
Definition prune_call (env : string) : Request :=
  mkRequest DELETE
    ("/api/endpoints/" ++ env ++ "/docker/containers/prune")
    [("all", JBool true)] None.

(** [GET /api/endpoints/<env>/docker/containers/json?all=true] *)
Definition containers_call (env : string) : Request :=
  mkRequest GET
    ("/api/endpoints/" ++ env ++ "/docker/containers/json")
    [("all", JBool true)] None.

End Calls.
Export Calls.

(* ------------------------------------------------------------------ *)
(** ** Statements of the specification that the sources do not meet

    Each is written as the specification has it; it is refuted below on a
    concrete input. *)

Module Stated.

(** The three messages [handleRequest] may raise with, by the
    specification. *)
Definition upstream_rejected (msg : string) : Prop :=
  exists status body,
    msg = "Portainer API error: " ++ status ++ " - " ++ body.

Definition unreachable (msg : string) : Prop :=
  exists m, msg = "No response from Portainer API: " ++ m.

Definition local_request_error (msg : string) : Prop :=
  exists m, msg = "Error setting up request to Portainer API: " ++ m.

Definition classified_message (msg : string) : Prop :=
  upstream_rejected msg \/ unreachable msg \/ local_request_error msg.

(** Every failed call raises with one of the three messages. *)
Definition every_failure_classified : Prop :=
  forall e : Exn,
    exists msg, PerCallEnv.handleRequest (Rejected e) = Throw (Error msg)
                /\ classified_message msg.

(** A handler of tool calls that answers every request with a reply. *)
Definition never_raises {R : Type} (handler : CallToolRequest -> Prog R)
  : Prop :=
  forall upstream request,
    exists reply, run_result upstream (handler request) = inr reply.

(** A handler that answers a request for a name outside the [switch] with
    the text [Failed: Unknown tool: <name>]. *)
Definition unknown_tool_reply
  (select : string -> option DefaultEnv.ToolKey)
  (handler : CallToolRequest -> Prog TextReply) : Prop :=
  forall upstream request,
    select (name request) = None ->
    run upstream (handler request)
    = (inr (text_reply (JStr ("Failed: Unknown tool: " ++ name request))),
       []).

(** A list of tools as the specification describes it: for every tool
    constant exactly one descriptor of that name, whose required fields are
    those of the tool's row in the table of section 6, the environment id
    first among them. *)
Definition listed_as_tabled {K : Type} (table : K -> string)
  (row : K -> SpecTable.SpecTool) (tools : list Tool) : Prop :=
  forall k, exists d,
    SpecTable.descriptors_named (table k) tools = [d]
    /\ required d
       = map SpecTable.schema_name (SpecTable.required_args true (row k)).

End Stated.

(* ------------------------------------------------------------------ *)
(** ** Third revision: the list of tools and the labels of the [switch]

    The handler of this revision has the [catch] clause of the first one
    and replies with [JSON.stringify(result, null, 2)]; its [case] bodies
    call client functions that are not among the sources, so only the list
    and the labels are taken up. *)

Module ThirdRevision.

Inductive ToolKey : Type :=
| DockerContainers
| CreateDockerContainer
| StartDockerContainer
| DeleteDockerContainer
| ContainerLogs
| UpdateContainer
| DeleteUnwantedContainers
| GetImages
| DeleteImageBuilderCache
| DeleteUnusedImages
| GetNetworks
| GetServices
| ServiceLogs
| InspectService
| UpdateService.

Definition cases : list ToolKey :=
  [DockerContainers; CreateDockerContainer; StartDockerContainer;
   DeleteDockerContainer; ContainerLogs; UpdateContainer;
   DeleteUnwantedContainers; GetImages; DeleteImageBuilderCache;
   DeleteUnusedImages; GetNetworks; GetServices; ServiceLogs; InspectService;
   UpdateService].

Section Server.

(** The table [Tools] of this revision's [./constants/index.ts], which is
    not among the sources. *)
Variable Tools : ToolKey -> string.

Definition listTools : list Tool :=
  [
    mkTool (Tools DockerContainers)
      "Fetch all Docker containers"
      []
      [];
    mkTool (Tools CreateDockerContainer)
      "Create a new Docker container"
      [ mkProperty "containerName" "string"
          "The name of the container to create";
        mkProperty "image" "string"
          "The Docker image to use for the container";
        mkProperty "exposedPorts" "object"
          "Ports to expose from the container";
        mkProperty "hostConfig" "object"
          "Host configuration for the container" ]
      ["containerName"; "image"];
    mkTool (Tools StartDockerContainer)
      "Start a Docker container"
      [ mkProperty "containerId" "string"
          "The ID of the container to start" ]
      ["containerId"];
    mkTool (Tools DeleteDockerContainer)
      "Delete a Docker container"
      [ mkProperty "containerId" "string"
          "The ID of the container to delete";
        mkProperty "force" "boolean"
          "Whether to force the deletion of the container" ]
      ["containerId"];
    mkTool (Tools ContainerLogs)
      "Fetch logs from a Docker container"
      [ mkProperty "containerId" "string"
          "The ID of the container to fetch logs from";
        mkProperty "since" "number"
          "Timestamp to start fetching logs from";
        mkProperty "timestamps" "boolean"
          "Whether to include timestamps";
        mkProperty "tail" "string"
          "Number of lines to return from the end of the logs" ]
      ["containerId"];
    mkTool (Tools UpdateContainer)
      "Update resource limits for a Docker container"
      [ mkProperty "containerId" "string"
          "The ID of the container to update";
        mkProperty "memory" "number"
          "Memory limit in bytes";
        mkProperty "memorySwap" "number"
          "Memory swap limit in bytes";
        mkProperty "restartPolicy" "object"
          "Restart policy for the container" ]
      ["containerId"];
    mkTool (Tools DeleteUnwantedContainers)
      "Delete all stopped containers"
      []
      [];
    mkTool (Tools GetImages)
      "Fetch all Docker images"
      []
      [];
    mkTool (Tools DeleteImageBuilderCache)
      "Delete the build cache for Docker images"
      []
      [];
    mkTool (Tools DeleteUnusedImages)
      "Delete unused Docker images"
      []
      [];
    mkTool (Tools GetNetworks)
      "Fetch all Docker networks"
      []
      [];
    mkTool (Tools GetServices)
      "Fetch all Docker services"
      []
      [];
    mkTool (Tools ServiceLogs)
      "Fetch logs from a Docker service"
      [ mkProperty "serviceId" "string"
          "The ID of the service to fetch logs from";
        mkProperty "since" "number"
          "Timestamp to start fetching logs from";
        mkProperty "timestamps" "boolean"
          "Whether to include timestamps";
        mkProperty "tail" "number"
          "Number of lines to return from the end of the logs" ]
      ["serviceId"];
    mkTool (Tools InspectService)
      "Inspect a Docker service"
      [ mkProperty "serviceId" "string"
          "The ID of the service to inspect" ]
      ["serviceId"];
    mkTool (Tools UpdateService)
      "Update a Docker service"
      [ mkProperty "serviceId" "string"
          "The ID of the service to update" ]
      ["serviceId"] ].

(** [switch (name)]: the first [case] whose constant is the name. *)
Definition select (name : string) : option ToolKey :=
  find (fun k => String.eqb name (Tools k)) cases.

End Server.

End ThirdRevision.


(* ------------------------------------------------------------------ *)
(** ** The other declared shapes ([src/types/index.ts]) *)

Module ImageShape.

Record DockerImage : Type := mkImage {
  Id : string;
  ParentId : string;
  RepoTags : list string;
  RepoDigests : list string;
  Created : Z;
  Size : Z;
  VirtualSize : Z;
  Labels : list (string * string)
}.

Definition image_value (i : DockerImage) : JsValue :=
  JObj [("Id", JStr (Id i));
        ("ParentId", JStr (ParentId i));
        ("RepoTags", JArr (map JStr (RepoTags i)));
        ("RepoDigests", JArr (map JStr (RepoDigests i)));
        ("Created", JNum (Created i));
        ("Size", JNum (Size i));
        ("VirtualSize", JNum (VirtualSize i));
        ("Labels", JObj (map (fun kv => (fst kv, JStr (snd kv))) (Labels i)))].

(** The name shown for an image: its first tag, or [untagged] when there
    is none or it is empty. *)
Definition shown_name (i : DockerImage) : string :=
  match RepoTags i with
  | t :: _ => if String.eqb t "" then "untagged" else t
  | [] => "untagged"
  end.

(** The registry shown: the text of the name before its first slash, or
    [docker.io] when the name has no slash. *)
Definition shown_registry (i : DockerImage) : string :=
  if has_char "/" (shown_name i)
  then before_char "/" (shown_name i)
  else "docker.io".

Definition image_text (i : DockerImage) : string :=
  "Name: " ++ shown_name i ++ ", Registry: " ++ shown_registry i
  ++ ", Id: " ++ Id i.

End ImageShape.

Module NetworkShape.

Record DockerNetwork : Type := mkNetwork {
  Id : string;
  Name : string;
  Scope : string;
  Driver : string;
  EnableIPv6 : bool;
  IPAM_Driver : string;                          (* [IPAM.Driver] *)
  IPAM_Options : list (string * string);         (* [IPAM.Options] *)
  IPAM_Config : list (string * string);          (* [Subnet], [Gateway] *)
  Internal : bool;
  Attachable : bool;
  Ingress : bool;
  ConfigFrom_Network : string;                   (* [ConfigFrom.Network] *)
  ConfigOnly : bool;
  Containers : list (string * JsValue);
  Options : list (string * string)
}.

Definition strings_value (l : list (string * string)) : JsValue :=
  JObj (map (fun kv => (fst kv, JStr (snd kv))) l).

Definition network_value (n : DockerNetwork) : JsValue :=
  JObj [("Id", JStr (Id n));
        ("Name", JStr (Name n));
        ("Scope", JStr (Scope n));
        ("Driver", JStr (Driver n));
        ("EnableIPv6", JBool (EnableIPv6 n));
        ("IPAM",
         JObj [("Driver", JStr (IPAM_Driver n));
               ("Options", strings_value (IPAM_Options n));
               ("Config",
                JArr (map (fun c => JObj [("Subnet", JStr (fst c));
                                          ("Gateway", JStr (snd c))])
                        (IPAM_Config n)))]);
        ("Internal", JBool (Internal n));
        ("Attachable", JBool (Attachable n));
        ("Ingress", JBool (Ingress n));
        ("ConfigFrom", JObj [("Network", JStr (ConfigFrom_Network n))]);
        ("ConfigOnly", JBool (ConfigOnly n));
        ("Containers", JObj (Containers n));
        ("Options", strings_value (Options n))].

(** The declared shape has no [Created]. *)
Definition network_text (n : DockerNetwork) : string :=
  "Name: " ++ Name n ++ ", Id: " ++ Id n ++ ", Created: undefined, Scope: "
  ++ Scope n ++ ", Driver: " ++ Driver n.

End NetworkShape.

Module ServiceShape.

Record ServicePort : Type := mkServicePort {
  Protocol : string;
  TargetPort : Z;
  PublishedPort : Z;
  PublishMode : string
}.

Record DockerService : Type := mkService {
  ID : string;
  Version_Index : Z;                             (* [Version.Index] *)
  CreatedAt : string;
  UpdatedAt : string;
  Spec_Name : string;                            (* [Spec.Name] *)
  Spec_Labels : list (string * string);          (* [Spec.Labels] *)
  Spec_Image : string;  (* [Spec.TaskTemplate.ContainerSpec.Image] *)
  Spec_Replicas : Z;    (* [Spec.Mode.Replicated.Replicas] *)
  Endpoint_Mode : string;                        (* [Endpoint.Spec.Mode] *)
  Endpoint_Ports : list ServicePort;             (* [Endpoint.Spec.Ports] *)
  UpdateStatus_State : string;
  UpdateStatus_StartedAt : string;
  UpdateStatus_CompletedAt : string;
  UpdateStatus_Message : string
}.

Definition service_port_value (p : ServicePort) : JsValue :=
  JObj [("Protocol", JStr (Protocol p));
        ("TargetPort", JNum (TargetPort p));
        ("PublishedPort", JNum (PublishedPort p));
        ("PublishMode", JStr (PublishMode p))].

Definition service_value (s : DockerService) : JsValue :=
  JObj [("ID", JStr (ID s));
        ("Version", JObj [("Index", JNum (Version_Index s))]);
        ("CreatedAt", JStr (CreatedAt s));
        ("UpdatedAt", JStr (UpdatedAt s));
        ("Spec",
         JObj [("Name", JStr (Spec_Name s));
               ("Labels",
                JObj (map (fun kv => (fst kv, JStr (snd kv)))
                        (Spec_Labels s)));
               ("TaskTemplate",
                JObj [("ContainerSpec",
                       JObj [("Image", JStr (Spec_Image s))])]);
               ("Mode",
                JObj [("Replicated",
                       JObj [("Replicas", JNum (Spec_Replicas s))])])]);
        ("Endpoint",
         JObj [("Spec",
                JObj [("Mode", JStr (Endpoint_Mode s));
                      ("Ports",
                       JArr (map service_port_value (Endpoint_Ports s)))])]);
        ("UpdateStatus",
         JObj [("State", JStr (UpdateStatus_State s));
               ("StartedAt", JStr (UpdateStatus_StartedAt s));
               ("CompletedAt", JStr (UpdateStatus_CompletedAt s));
               ("Message", JStr (UpdateStatus_Message s))])].

Definition or_na (s : string) : string :=
  if String.eqb s "" then "N/A" else s.

(** The ports are read at [Endpoint.Ports], where the declared shape has
    nothing. *)
Definition service_text (s : DockerService) : string :=
  "Name: " ++ or_na (Spec_Name s) ++ ", Image: " ++ or_na (Spec_Image s)
  ++ ", Ports: None".

(** A service as the upstream sends it, with its ports at
    [Endpoint.Ports]; [None] stands for a [null] entry of the list. *)
Definition listed_value (name image : string) (ports : list ServicePort)
  : JsValue :=
  JObj [("Spec",
         JObj [("Name", JStr name);
               ("TaskTemplate",
                JObj [("ContainerSpec", JObj [("Image", JStr image)])])]);
        ("Endpoint", JObj [("Ports", JArr (map service_port_value ports))])].

Definition entry_value (e : option (string * string * list ServicePort))
  : JsValue :=
  match e with
  | Some (name, image, ports) => listed_value name image ports
  | None => JNull
  end.

Definition port_shown (p : ServicePort) : string :=
  string_of_Z (PublishedPort p) ++ "->" ++ string_of_Z (TargetPort p)
  ++ "/" ++ Protocol p.

Definition ports_shown (ports : list ServicePort) : string :=
  match ports with
  | [] => "None"
  | _ :: _ => join ", " (map port_shown ports)
  end.

(** A port whose numbers are safe integers, so that [port_shown] is the
    text JavaScript prints for it; an entry all of whose ports are. *)
Definition exact_port (p : ServicePort) : bool :=
  safe_integer (PublishedPort p) && safe_integer (TargetPort p).

Definition exact_entry (e : option (string * string * list ServicePort))
  : bool :=
  match e with
  | Some (_, _, ports) => forallb exact_port ports
  | None => true
  end.

Definition entry_text (e : option (string * string * list ServicePort))
  : string :=
  match e with
  | Some (name, image, ports) =>
      "Name: " ++ or_na name ++ ", Image: " ++ or_na image ++ ", Ports: "
      ++ ports_shown ports
  | None => "Name: N/A, Image: N/A, Ports: None"
  end.

End ServiceShape.

(** The answer to "create container": [{ Id: string; Warnings: string[] }]
    and its text. *)
Module CreatedShape.

Definition created_value (id : string) (warnings : list string) : JsValue :=
  JObj [("Id", JStr id); ("Warnings", JArr (map JStr warnings))].

Definition created_text (id : string) (warnings : list string) : string :=
  "Container created successfully with Id: " ++ id
  ++ match warnings with
     | [] => ""
     | _ :: _ => LF ++ "Warnings: " ++ join ", " warnings
     end.

(** [POST /api/endpoints/<env>/docker/containers/create] with the body the
    client builds. *)
Definition create_call (env : string)
  (containerName image exposedPorts hostConfig : JsValue) : Request :=
  mkRequest POST
    ("/api/endpoints/" ++ env ++ "/docker/containers/create")
    []
    (Some (JObj [("name", containerName); ("Image", image);
                 ("ExposedPorts", exposedPorts);
                 ("HostConfig", hostConfig)])).

End CreatedShape.

(* ------------------------------------------------------------------ *)
(** ** Shapes of programs and of calls *)

Module Shape.

(** A program that awaits no call and throws, if it throws, an [Error] (a
    [TypeError] of the runtime or an error the sources build), not an axios
    error. *)
Definition plain {A : Type} (p : Prog A) : Prop :=
  match p with
  | Ret _ => True
  | Throw (Error _) => True
  | _ => False
  end.

(** A call into the Docker proxy of one environment. *)
Definition under_environment (env : string) (r : Request) : Prop :=
  exists rest, url r = "/api/endpoints/" ++ env ++ "/docker/" ++ rest.

(** The tools that only read. *)
Definition reads_only_default (k : DefaultEnv.ToolKey) : bool :=
  match k with
  | DefaultEnv.GetDockerContainers | DefaultEnv.GetContainerLogs
  | DefaultEnv.GetImages | DefaultEnv.GetNetworks | DefaultEnv.GetServices
  | DefaultEnv.GetServiceLogs => true
  | _ => false
  end.

Definition reads_only_per_call (k : PerCallEnv.ToolKey) : bool :=
  match k with
  | PerCallEnv.FETCH_DOCKER_CONTAINERS | PerCallEnv.FETCH_CONTAINER_LOGS
  | PerCallEnv.FETCH_IMAGES | PerCallEnv.FETCH_NETWORKS
  | PerCallEnv.INSPECT_NETWORK | PerCallEnv.FETCH_SERVICES
  | PerCallEnv.FETCH_SERVICE_LOG => true
  | _ => false
  end.

(** The tools whose reply is built with [map] over the answer, and the
    callee as the source writes it. *)
Definition mapped_callee (k : DefaultEnv.ToolKey) : option string :=
  match k with
  | DefaultEnv.GetDockerContainers => Some "result.map"
  | DefaultEnv.GetImages => Some "images.map"
  | DefaultEnv.DeleteUnusedImages => Some "result.map"
  | DefaultEnv.GetNetworks => Some "networks.map"
  | DefaultEnv.GetServices => Some "services.map"
  | _ => None
  end.

(** How the runtime names a value that has no properties to read. *)
Definition nullish_word (v : JsValue) : string :=
  match v with
  | JNull => "null"
  | _ => "undefined"
  end.

(** The message of reading property [k] of a [null] or [undefined] [v]. *)
Definition cannot_read (v : JsValue) (k : string) : string :=
  "Cannot read properties of " ++ nullish_word v ++ " (reading '" ++ k
  ++ "')".

(** A value with no [map] to call: not [null] or [undefined], and not an
    array. *)
Definition unmappable (v : JsValue) : bool :=
  match v with
  | JUndefined | JNull | JArr _ => false
  | _ => true
  end.

(** An input schema in order: what it requires it declares, it declares no
    property twice, and the types are those of the protocol's schemas that
    the sources use. *)
Definition schema_types : list string :=
  ["string"; "number"; "boolean"; "object"].

Definition well_formed (d : Tool) : Prop :=
  incl (required d) (map prop_name (properties d))
  /\ NoDup (map prop_name (properties d))
  /\ Forall (fun p => In (prop_type p) schema_types) (properties d).

End Shape.
Export Shape.

(* ------------------------------------------------------------------ *)
(** ** Running programs *)

Lemma run_bind {A B : Type} (upstream : Request -> Outcome) (p : Prog A)
  (f : A -> Prog B) :
  run upstream (bind p f)
  = match fst (run upstream p) with
    | inr a => (fst (run upstream (f a)),
                (snd (run upstream p) ++ snd (run upstream (f a)))%list)
    | inl e => (inl e, snd (run upstream p))
    end.
Proof.
  induction p as [a | e | r k IH]; simpl.
  - now destruct (run upstream (f a)).
  - reflexivity.
  - rewrite IH. now destruct (fst (run upstream (k (upstream r)))).
Qed.

Lemma run_try_catch {A : Type} (upstream : Request -> Outcome) (p : Prog A)
  (h : Exn -> Prog A) :
  run upstream (try_catch p h)
  = match fst (run upstream p) with
    | inr a => (inr a, snd (run upstream p))
    | inl e => (fst (run upstream (h e)),
                (snd (run upstream p) ++ snd (run upstream (h e)))%list)
    end.
Proof.
  induction p as [a | e | r k IH]; simpl.
  - reflexivity.
  - now destruct (run upstream (h e)).
  - rewrite IH. now destruct (fst (run upstream (k (upstream r)))).
Qed.

Lemma run_lift {A : Type} (upstream : Request -> Outcome) (r : Exn + A) :
  run upstream (lift r) = (r, []).
Proof. now destruct r. Qed.

Lemma mapM_map {A B C : Type} (g : A -> B) (f : B -> Prog C) (h : A -> C)
  (l : list A) :
  (forall x, f (g x) = Ret (h x)) ->
  mapM f (map g l) = Ret (map h l).
Proof.
  intros Hf. induction l as [| x l IH]; simpl.
  - reflexivity.
  - now rewrite Hf, IH.
Qed.

(** A string is what it converts to. *)
Lemma str_string (s : string) : str (JStr s) = Ret s.
Proof. reflexivity. Qed.

(* ------------------------------------------------------------------ *)
(** ** The upstream client *)

Lemma handleRequest_rejected (e : Exn) :
  PerCallEnv.handleRequest (Rejected e) = PerCallEnv.classify e.
Proof. reflexivity. Qed.

Lemma classify_throws (e : Exn) :
  exists e', PerCallEnv.classify e = Throw e'.
Proof.
  destruct e as [m | [response |] [|] m]; simpl; try (eexists; reflexivity).
  all: unfold JSON_stringify_value;
    destruct (JSON_stringify (data response)); eexists; reflexivity.
Qed.

Lemma handleRequest_no_calls (upstream : Request -> Outcome) (o : Outcome) :
  snd (run upstream (PerCallEnv.handleRequest o)) = [].
Proof.
  destruct o as [d | e]; [reflexivity |].
  rewrite handleRequest_rejected.
  now destruct (classify_throws e) as [e' ->].
Qed.

Lemma classes_disjoint (msg : string) :
  ~ (Stated.upstream_rejected msg /\ Stated.unreachable msg)
  /\ ~ (Stated.upstream_rejected msg /\ Stated.local_request_error msg)
  /\ ~ (Stated.unreachable msg /\ Stated.local_request_error msg).
Proof.
  unfold Stated.upstream_rejected, Stated.unreachable,
    Stated.local_request_error.
  repeat split; intros [H1 H2];
    repeat match goal with
           | H : exists _, _ |- _ => destruct H
           end;
    subst msg; discriminate.
Qed.

(** C2, as the sources have it.  [handleRequest] returns the body of a
    response that arrived with success.  A rejection that is an axios error
    is raised again as an [Error] whose message is
    [Portainer API error: <status> - <serialized body>] when a response
    came with it, [No response from Portainer API: <message>] when only the
    request was made, and
    [Error setting up request to Portainer API: <message>] otherwise; the
    three messages exclude each other.  A rejection that is not an axios
    error is raised again as it is.  No rejection makes [handleRequest]
    return a value, and [handleRequest] issues no call of its own. *)
Theorem handleRequest_classifies :
  (forall d, PerCallEnv.handleRequest (Resolved d) = Ret d)
  /\ (forall response request m,
        PerCallEnv.handleRequest
          (Rejected (AxiosError (Some response) request m))
        = Throw (Error ("Portainer API error: "
                        ++ string_of_Z (status response) ++ " - "
                        ++ match JSON_stringify (data response) with
                           | Some body => body
                           | None => "undefined"
                           end)))
  /\ (forall m,
        PerCallEnv.handleRequest (Rejected (AxiosError None true m))
        = Throw (Error ("No response from Portainer API: " ++ m)))
  /\ (forall m,
        PerCallEnv.handleRequest (Rejected (AxiosError None false m))
        = Throw (Error ("Error setting up request to Portainer API: " ++ m)))
  /\ (forall m,
        PerCallEnv.handleRequest (Rejected (Error m)) = Throw (Error m))
  /\ (forall msg,
        ~ (Stated.upstream_rejected msg /\ Stated.unreachable msg)
        /\ ~ (Stated.upstream_rejected msg /\ Stated.local_request_error msg)
        /\ ~ (Stated.unreachable msg /\ Stated.local_request_error msg))
  /\ (forall e d, PerCallEnv.handleRequest (Rejected e) <> Ret d)
  /\ (forall upstream e,
        exists e',
          run upstream (PerCallEnv.handleRequest (Rejected e))
          = (inl e', [])).
Proof.
  split; [reflexivity |].
  split.
  { intros response request m. rewrite handleRequest_rejected. simpl.
    unfold JSON_stringify_value.
    now destruct (JSON_stringify (data response)). }
  split; [reflexivity |].
  split; [reflexivity |].
  split; [reflexivity |].
  split; [exact classes_disjoint |].
  split.
  - intros e d. rewrite handleRequest_rejected.
    destruct (classify_throws e) as [e' ->]. discriminate.
  - intros upstream e. rewrite handleRequest_rejected.
    destruct (classify_throws e) as [e' ->]. now exists e'.
Qed.

(** C2, as stated, fails: a rejection that is not an axios error, such as
    the [TypeError] of an invalid URL, is raised again unchanged, and its
    message is none of the three. *)
Lemma handleRequest_unclassified_failure :
  PerCallEnv.handleRequest (Rejected (Error "Invalid URL"))
  = Throw (Error "Invalid URL")
  /\ ~ Stated.classified_message "Invalid URL"
  /\ ~ Stated.every_failure_classified.
Proof.
  assert (Hno : ~ Stated.classified_message "Invalid URL").
  { intros [[st [b H]] | [[m H] | [m H]]]; discriminate. }
  split; [reflexivity |].
  split; [exact Hno |].
  intros H. destruct (H (Error "Invalid URL")) as [msg [Heq Hc]].
  simpl in Heq. injection Heq as <-. exact (Hno Hc).
Qed.

(** C4.  In both clients "delete the image build cache" and "delete unused
    images" are the same program: for every environment id they issue the
    one call [DELETE /api/endpoints/<envId>/docker/images/prune], without
    parameters, and give the same result. *)
Theorem prune_operations_coincide :
  (forall envId,
      PerCallEnv.deleteImageBuildCache envId
      = PerCallEnv.deleteUnusedImages envId)
  /\ (forall PORTAINER_ENV_ID,
        DefaultEnv.deleteImageBuildCache PORTAINER_ENV_ID
        = DefaultEnv.deleteUnusedImages PORTAINER_ENV_ID)
  /\ (forall upstream envId,
        run_calls upstream (PerCallEnv.deleteUnusedImages envId)
        = match ToString envId with
          | inr env =>
              [mkRequest DELETE
                 ("/api/endpoints/" ++ env ++ "/docker/images/prune")
                 [] None]
          | inl _ => []
          end
        /\ run upstream (PerCallEnv.deleteImageBuildCache envId)
           = run upstream (PerCallEnv.deleteUnusedImages envId))
  /\ (forall upstream PORTAINER_ENV_ID,
        run_calls upstream (DefaultEnv.deleteUnusedImages PORTAINER_ENV_ID)
        = [mkRequest DELETE
             ("/api/endpoints/" ++ DefaultEnv.env_text PORTAINER_ENV_ID
              ++ "/docker/images/prune")
             [] None]
        /\ run upstream (DefaultEnv.deleteImageBuildCache PORTAINER_ENV_ID)
           = run upstream (DefaultEnv.deleteUnusedImages PORTAINER_ENV_ID)).
Proof.
  split; [reflexivity |].
  split; [reflexivity |].
  split.
  - intros upstream envId. split; [| reflexivity].
    unfold run_calls, PerCallEnv.deleteUnusedImages, str.
    destruct (ToString envId) as [e | env]; [reflexivity |].
    simpl. now rewrite handleRequest_no_calls.
  - intros upstream env. split; [| reflexivity].
    unfold run_calls, DefaultEnv.deleteUnusedImages. simpl.
    now destruct (upstream _).
Qed.

(* ------------------------------------------------------------------ *)
(** ** The list of tools *)

Import SpecTable.

Lemma none_named (n : string) (tools : list Tool) :
  ~ In n (map tool_name tools) -> descriptors_named n tools = [].
Proof.
  induction tools as [| d tools IH]; simpl; intros Hn; [reflexivity |].
  destruct (String.eqb_spec (tool_name d) n) as [E | E].
  - exfalso. apply Hn. now left.
  - apply IH. intros H. apply Hn. now right.
Qed.

(** In a list whose names are distinct, the descriptors of a name are the
    one that carries it. *)
Lemma named_at (tools : list Tool) (i : nat) (d : Tool) (n : string) :
  NoDup (map tool_name tools) ->
  nth_error tools i = Some d ->
  n = tool_name d ->
  descriptors_named n tools = [d].
Proof.
  intros Hnd Hi ->. revert i Hi.
  induction tools as [| d' tools IH]; intros i Hi.
  - now destruct i.
  - simpl in Hnd. inversion Hnd as [| x l Hnotin Hnd']; subst.
    destruct i as [| i]; simpl in Hi.
    + injection Hi as ->. simpl. rewrite String.eqb_refl.
      now rewrite none_named.
    + simpl.
      destruct (String.eqb_spec (tool_name d') (tool_name d)) as [E | E].
      * exfalso. apply Hnotin. rewrite E. apply in_map.
        eapply nth_error_In, Hi.
      * now apply (IH Hnd' i).
Qed.

Lemma distinct_names {K : Type} (table : K -> string) (keys : list K) :
  (forall a b, table a = table b -> a = b) ->
  NoDup keys -> NoDup (map table keys).
Proof.
  intros inj Hnd. induction Hnd as [| k keys Hnotin Hnd IH]; simpl.
  - constructor.
  - constructor; [| exact IH].
    intros Hin. apply in_map_iff in Hin as [k' [Hk Hin]].
    apply inj in Hk. now subst k'.
Qed.

Lemma PerCallEnv_cases_distinct : NoDup PerCallEnv.cases.
Proof.
  unfold PerCallEnv.cases.
  repeat (constructor; [simpl; intuition discriminate |]). constructor.
Qed.

Lemma DefaultEnv_cases_distinct : NoDup DefaultEnv.cases.
Proof.
  unfold DefaultEnv.cases.
  repeat (constructor; [simpl; intuition discriminate |]). constructor.
Qed.

Lemma PerCallEnv_names (TOOL : PerCallEnv.ToolKey -> string) :
  map tool_name (PerCallEnv.listTools TOOL) = map TOOL PerCallEnv.cases.
Proof. reflexivity. Qed.

Lemma DefaultEnv_names (Tools : DefaultEnv.ToolKey -> string) :
  map tool_name (DefaultEnv.listTools Tools) = map Tools DefaultEnv.cases.
Proof. reflexivity. Qed.

(** The descriptor at one of the first positions of the list. *)
Ltac descriptor_at tools nodup :=
  first [ eapply (named_at tools 0 _ _ nodup); reflexivity
        | eapply (named_at tools 1 _ _ nodup); reflexivity
        | eapply (named_at tools 2 _ _ nodup); reflexivity
        | eapply (named_at tools 3 _ _ nodup); reflexivity
        | eapply (named_at tools 4 _ _ nodup); reflexivity
        | eapply (named_at tools 5 _ _ nodup); reflexivity
        | eapply (named_at tools 6 _ _ nodup); reflexivity
        | eapply (named_at tools 7 _ _ nodup); reflexivity
        | eapply (named_at tools 8 _ _ nodup); reflexivity
        | eapply (named_at tools 9 _ _ nodup); reflexivity
        | eapply (named_at tools 10 _ _ nodup); reflexivity
        | eapply (named_at tools 11 _ _ nodup); reflexivity
        | eapply (named_at tools 12 _ _ nodup); reflexivity
        | eapply (named_at tools 13 _ _ nodup); reflexivity ].

Lemma listTools_per_call (TOOL : PerCallEnv.ToolKey -> string) :
  (forall a b, TOOL a = TOOL b -> a = b) ->
  forall k, exists d,
    descriptors_named (TOOL k) (PerCallEnv.listTools TOOL) = [d]
    /\ required d = map schema_name (required_args true (row_of_TOOL k))
    /\ map prop_name (properties d)
       = map schema_name (required_args true (row_of_TOOL k)
                          ++ optional_args (row_of_TOOL k)).
Proof.
  intros inj k.
  assert (Hnd : NoDup (map tool_name (PerCallEnv.listTools TOOL))).
  { rewrite PerCallEnv_names.
    apply distinct_names; [exact inj | exact PerCallEnv_cases_distinct]. }
  destruct k; eexists;
    (split;
     [ descriptor_at (PerCallEnv.listTools TOOL) Hnd
     | split; reflexivity ]).
Qed.

Lemma listTools_default_env (Tools : DefaultEnv.ToolKey -> string) :
  (forall a b, Tools a = Tools b -> a = b) ->
  forall k, exists d,
    descriptors_named (Tools k) (DefaultEnv.listTools Tools) = [d]
    /\ required d = map schema_name (required_args false (row_of_Tools k))
    /\ map prop_name (properties d)
       = map schema_name (required_args false (row_of_Tools k)
                          ++ optional_args (row_of_Tools k)).
Proof.
  intros inj k.
  assert (Hnd : NoDup (map tool_name (DefaultEnv.listTools Tools))).
  { rewrite DefaultEnv_names.
    apply distinct_names; [exact inj | exact DefaultEnv_cases_distinct]. }
  destruct k; eexists;
    (split;
     [ descriptor_at (DefaultEnv.listTools Tools) Hnd
     | split; reflexivity ]).
Qed.

(** The descriptors of a name are as many as the occurrences of the name
    among the names of the list. *)
Lemma count_descriptors_named (n : string) (tools : list Tool) :
  List.length (descriptors_named n tools)
  = count_occ string_dec (map tool_name tools) n.
Proof.
  induction tools as [| d tools IH]; [reflexivity |].
  simpl. destruct (String.eqb_spec (tool_name d) n) as [E | E];
    destruct (string_dec (tool_name d) n) as [E' | E'];
    try contradiction; simpl; now rewrite IH.
Qed.

Lemma NoDup_map_injective {K : Type} (table : K -> string) (keys : list K) :
  NoDup (map table keys) ->
  forall a b, In a keys -> In b keys -> table a = table b -> a = b.
Proof.
  induction keys as [| k keys IH]; simpl; intros Hnd a b Ha Hb Hab;
    [destruct Ha |].
  inversion Hnd as [| x l Hnotin Hnd']; subst.
  destruct Ha as [-> | Ha], Hb as [-> | Hb].
  - reflexivity.
  - exfalso. apply Hnotin. rewrite Hab. now apply in_map.
  - exfalso. apply Hnotin. rewrite <- Hab. now apply in_map.
  - now apply IH.
Qed.

(** Where the names of a list are the constants of a table, one for each
    constant, every constant names exactly one descriptor if and only if
    the table gives distinct constants distinct strings. *)
Lemma one_descriptor_iff_distinct {K : Type} (table : K -> string)
  (keys : list K) (tools : list Tool) :
  map tool_name tools = map table keys ->
  NoDup keys -> (forall k, In k keys) ->
  (forall k, exists d, descriptors_named (table k) tools = [d])
  <-> (forall a b, table a = table b -> a = b).
Proof.
  intros Hnames Hnd Hall. split.
  - intros Hone a b Hab.
    apply (NoDup_map_injective table keys); auto.
    apply (proj2 (NoDup_count_occ' string_dec (map table keys))).
    intros x Hx. apply in_map_iff in Hx as [k [<- _]].
    rewrite <- Hnames, <- count_descriptors_named.
    destruct (Hone k) as [d ->]. reflexivity.
  - intros inj k.
    assert (Hnd' : NoDup (map tool_name tools)).
    { rewrite Hnames. now apply distinct_names. }
    assert (Hin : In (table k) (map tool_name tools)).
    { rewrite Hnames. apply in_map, Hall. }
    apply in_map_iff in Hin as [d [Hd Hin]].
    apply In_nth_error in Hin as [i Hi].
    exists d. now apply (named_at tools i d (table k)).
Qed.

Lemma PerCallEnv_cases_all (k : PerCallEnv.ToolKey) : In k PerCallEnv.cases.
Proof. destruct k; simpl; tauto. Qed.

Lemma DefaultEnv_cases_all (k : DefaultEnv.ToolKey) : In k DefaultEnv.cases.
Proof. destruct k; simpl; tauto. Qed.

Lemma Sample_TOOL_distinct (a b : PerCallEnv.ToolKey) :
  Sample.TOOL a = Sample.TOOL b -> a = b.
Proof. destruct a, b; simpl; intros H; try reflexivity; discriminate H. Qed.

Lemma Sample_Tools_distinct (a b : DefaultEnv.ToolKey) :
  Sample.Tools a = Sample.Tools b -> a = b.
Proof. destruct a, b; simpl; intros H; try reflexivity; discriminate H. Qed.

(** C3, as stated, fails on the list of the revision with a start-up
    environment id: no schema of it declares [envId], so "fetch containers"
    requires nothing and "delete container" requires the container id
    only, where the table has the environment id first.  This is so
    whatever strings the tool constants stand for. *)
Lemma first_list_requires_no_environment_id :
  (exists d,
      descriptors_named "GetDockerContainers"
        (DefaultEnv.listTools Sample.Tools) = [d]
      /\ required d = [] /\ properties d = [])
  /\ map schema_name (required_args true fetch_containers) = ["envId"]
  /\ (exists d,
        descriptors_named "DeleteDockerContainer"
          (DefaultEnv.listTools Sample.Tools) = [d]
        /\ required d = ["containerId"]
        /\ map prop_name (properties d) = ["containerId"; "force"])
  /\ map schema_name (required_args true delete_container)
     = ["envId"; "containerId"]
  /\ ~ Stated.listed_as_tabled Sample.Tools row_of_Tools
         (DefaultEnv.listTools Sample.Tools)
  /\ (forall Tools : DefaultEnv.ToolKey -> string,
        ~ Stated.listed_as_tabled Tools row_of_Tools
            (DefaultEnv.listTools Tools)).
Proof.
  split; [eexists; split; [reflexivity | split; reflexivity] |].
  split; [reflexivity |].
  split; [eexists; split; [reflexivity | split; reflexivity] |].
  split; [reflexivity |].
  assert (Hno : forall Tools : DefaultEnv.ToolKey -> string,
             ~ Stated.listed_as_tabled Tools row_of_Tools
                 (DefaultEnv.listTools Tools)).
  { intros Tools H.
    destruct (H DefaultEnv.GetDockerContainers) as [d [Hd Hreq]].
    assert (Hin : In (nth 0 (DefaultEnv.listTools Tools) d)
                    (descriptors_named (Tools DefaultEnv.GetDockerContainers)
                       (DefaultEnv.listTools Tools))).
    { apply filter_In. split; [left; reflexivity | apply String.eqb_refl]. }
    rewrite Hd in Hin. destruct Hin as [E | []].
    rewrite E in Hreq. discriminate Hreq. }
  split; [apply Hno | exact Hno].
Qed.

(** C3.  In the revision whose schemas declare [envId] the list of tools
    has one descriptor for each of the fourteen tool constants, in the
    order of the [switch] and under the name the constant stands for; its
    required fields are those of the tool's row in the table of section 6,
    the environment id first, its properties are the required fields
    followed by the optional ones, and every row of the table has its tool.
    In the revision with a start-up environment id the list has one
    descriptor for each of its thirteen constants, none of them "inspect
    network", and the required fields are those of the row without the
    environment id.  In either list every constant names exactly one
    descriptor if and only if the constants stand for distinct strings; for
    the tool names the README gives they do, and the list is as the
    specification describes it.  The handler returns the same list for
    every upstream and issues no call. *)
Theorem list_tools_against_table
  (TOOL : PerCallEnv.ToolKey -> string)
  (Tools : DefaultEnv.ToolKey -> string) :
  (forall i k,
      nth_error PerCallEnv.cases i = Some k ->
      exists d,
        nth_error (PerCallEnv.listTools TOOL) i = Some d
        /\ tool_name d = TOOL k
        /\ required d = map schema_name (required_args true (row_of_TOOL k))
        /\ map prop_name (properties d)
           = map schema_name (required_args true (row_of_TOOL k)
                              ++ optional_args (row_of_TOOL k)))
  /\ List.length (PerCallEnv.listTools TOOL) = 14
  /\ List.length PerCallEnv.cases = 14
  /\ NoDup PerCallEnv.cases
  /\ (forall k, In k PerCallEnv.cases)
  /\ (forall row, exists k, row_of_TOOL k = row)
  /\ ((forall k, exists d,
          descriptors_named (TOOL k) (PerCallEnv.listTools TOOL) = [d])
      <-> (forall a b, TOOL a = TOOL b -> a = b))
  /\ Stated.listed_as_tabled Sample.TOOL row_of_TOOL
       (PerCallEnv.listTools Sample.TOOL)
  /\ (forall i k,
        nth_error DefaultEnv.cases i = Some k ->
        exists d,
          nth_error (DefaultEnv.listTools Tools) i = Some d
          /\ tool_name d = Tools k
          /\ required d
             = map schema_name (required_args false (row_of_Tools k))
          /\ map prop_name (properties d)
             = map schema_name (required_args false (row_of_Tools k)
                                ++ optional_args (row_of_Tools k)))
  /\ List.length (DefaultEnv.listTools Tools) = 13
  /\ List.length DefaultEnv.cases = 13
  /\ NoDup DefaultEnv.cases
  /\ (forall k, In k DefaultEnv.cases)
  /\ (forall k, row_of_Tools k <> inspect_network)
  /\ ((forall k, exists d,
          descriptors_named (Tools k) (DefaultEnv.listTools Tools) = [d])
      <-> (forall a b, Tools a = Tools b -> a = b))
  /\ (forall upstream,
        run upstream (PerCallEnv.listToolsHandler TOOL)
        = (inr (PerCallEnv.listTools TOOL), []))
  /\ (forall upstream,
        run upstream (DefaultEnv.listToolsHandler Tools)
        = (inr (DefaultEnv.listTools Tools), [])).
Proof.
  split.
  { intros i k Hi.
    do 14 (destruct i as [| i];
           [ injection Hi as <-; eexists;
             (split; [reflexivity | split; [reflexivity | split; reflexivity]])
           | ]).
    destruct i; discriminate Hi. }
  split; [reflexivity |].
  split; [reflexivity |].
  split; [exact PerCallEnv_cases_distinct |].
  split; [exact PerCallEnv_cases_all |].
  split.
  { intros row.
    destruct row;
      [ exists PerCallEnv.FETCH_DOCKER_CONTAINERS
      | exists PerCallEnv.CREATE_DOCKER_CONTAINER
      | exists PerCallEnv.START_DOCKER_CONTAINER
      | exists PerCallEnv.DELETE_DOCKER_CONTAINER
      | exists PerCallEnv.FETCH_CONTAINER_LOGS
      | exists PerCallEnv.UPDATE_CONTAINER_RESOURCE_LIMITS
      | exists PerCallEnv.DELETE_STOPPED_CONTAINERS
      | exists PerCallEnv.FETCH_IMAGES
      | exists PerCallEnv.DELETE_IMAGE_BUILD_CACHE
      | exists PerCallEnv.DELETE_UNUSED_IMAGES
      | exists PerCallEnv.FETCH_NETWORKS
      | exists PerCallEnv.INSPECT_NETWORK
      | exists PerCallEnv.FETCH_SERVICES
      | exists PerCallEnv.FETCH_SERVICE_LOG ];
      reflexivity. }
  split.
  { apply (one_descriptor_iff_distinct TOOL PerCallEnv.cases);
      [ apply PerCallEnv_names | exact PerCallEnv_cases_distinct
      | exact PerCallEnv_cases_all ]. }
  split.
  { intros k.
    destruct (listTools_per_call Sample.TOOL Sample_TOOL_distinct k)
      as [d [Hd [Hreq _]]].
    exists d. split; [exact Hd | exact Hreq]. }
  split.
  { intros i k Hi.
    do 13 (destruct i as [| i];
           [ injection Hi as <-; eexists;
             (split; [reflexivity | split; [reflexivity | split; reflexivity]])
           | ]).
    destruct i; discriminate Hi. }
  split; [reflexivity |].
  split; [reflexivity |].
  split; [exact DefaultEnv_cases_distinct |].
  split; [exact DefaultEnv_cases_all |].
  split; [intros k; destruct k; discriminate |].
  split.
  { apply (one_descriptor_iff_distinct Tools DefaultEnv.cases);
      [ apply DefaultEnv_names | exact DefaultEnv_cases_distinct
      | exact DefaultEnv_cases_all ]. }
  split; reflexivity.
Qed.

(* ------------------------------------------------------------------ *)
(** ** The recovery boundary *)

(** What the [catch] clause makes of the outcome of a [try] block. *)
Lemma try_catch_on_error (upstream : Request -> Outcome)
  (block : Prog TextReply) :
  run upstream (try_catch block DefaultEnv.on_error)
  = match run upstream block with
    | (inr reply, calls) => (inr reply, calls)
    | (inl error, calls) =>
        match ToString (DefaultEnv.errorMessage error) with
        | inr message =>
            (inr (text_reply (JStr ("Failed: " ++ message))), calls)
        | inl e => (inl e, calls)
        end
    end.
Proof.
  rewrite run_try_catch.
  destruct (run upstream block) as [[error | reply] calls];
    simpl; [| reflexivity].
  unfold DefaultEnv.on_error, str.
  destruct (ToString (DefaultEnv.errorMessage error)); simpl;
    now rewrite app_nil_r.
Qed.

Lemma callTool_try_catch (PORTAINER_ENV_ID : option string)
  (Tools : DefaultEnv.ToolKey -> string)
  (StringToNumber_positive : string -> bool)
  (upstream : Request -> Outcome) (request : CallToolRequest) :
  run upstream
    (DefaultEnv.callTool PORTAINER_ENV_ID Tools StringToNumber_positive
       request)
  = match run upstream
            (DefaultEnv.try_block PORTAINER_ENV_ID Tools
               StringToNumber_positive request) with
    | (inr reply, calls) => (inr reply, calls)
    | (inl error, calls) =>
        match ToString (DefaultEnv.errorMessage error) with
        | inr message =>
            (inr (text_reply (JStr ("Failed: " ++ message))), calls)
        | inl e => (inl e, calls)
        end
    end.
Proof. apply try_catch_on_error. Qed.

(** The message of an error without an upstream response. *)
Lemma errorMessage_plain (m : string) :
  ToString (DefaultEnv.errorMessage (Error m))
  = inr (if String.eqb m "" then "Cannot process the request" else m).
Proof.
  unfold DefaultEnv.errorMessage, or_else. simpl.
  now destruct (String.eqb m "").
Qed.

Lemma errorMessage_no_response (request : bool) (m : string) :
  ToString (DefaultEnv.errorMessage (AxiosError None request m))
  = inr (if String.eqb m "" then "Cannot process the request" else m).
Proof.
  unfold DefaultEnv.errorMessage, or_else. simpl.
  now destruct (String.eqb m "").
Qed.

(** C1, as the sources have it.  In the revision whose handler wraps the
    dispatch in [try]/[catch], whatever the [try] block throws (missing
    arguments, an unknown tool name, a failure of the client) is caught: the
    handler returns the reply [Failed: <message>] and the calls issued are
    those of the block.  The message is the first truthy one of the
    [message] field of the upstream response body, the [message] of the
    error, and [Cannot process the request]; for an error that carries no
    response it is the error's message, or the generic text when that is
    empty.  The handler raises only when the message chosen is a value that
    has no conversion to a string.  A reply of the block is returned as it
    is.  Without arguments the reply is
    [Failed: No arguments provided for tool: <name>] and no call is
    issued.  The [catch] clause does the same under any [try] block, so
    also in the third revision of the handler, which has the same clause. *)
Theorem callTool_failure_reply
  (PORTAINER_ENV_ID : option string)
  (Tools : DefaultEnv.ToolKey -> string)
  (StringToNumber_positive : string -> bool) :
  (forall upstream request,
      run upstream
        (DefaultEnv.callTool PORTAINER_ENV_ID Tools StringToNumber_positive
           request)
      = match run upstream
                (DefaultEnv.try_block PORTAINER_ENV_ID Tools
                   StringToNumber_positive request) with
        | (inr reply, calls) => (inr reply, calls)
        | (inl error, calls) =>
            match ToString (DefaultEnv.errorMessage error) with
            | inr message =>
                (inr (text_reply (JStr ("Failed: " ++ message))), calls)
            | inl e => (inl e, calls)
            end
        end)
  /\ (forall error,
        DefaultEnv.errorMessage error
        = if truthy (DefaultEnv.response_message error)
          then DefaultEnv.response_message error
          else if truthy (DefaultEnv.error_message error)
               then DefaultEnv.error_message error
               else JStr "Cannot process the request")
  /\ (forall status fields request m,
        DefaultEnv.response_message
          (AxiosError (Some (mkResponse status (JObj fields))) request m)
        = field fields "message")
  /\ (forall m,
        ToString (DefaultEnv.errorMessage (Error m))
        = inr (if String.eqb m "" then "Cannot process the request" else m))
  /\ (forall request m,
        ToString (DefaultEnv.errorMessage (AxiosError None request m))
        = inr (if String.eqb m "" then "Cannot process the request" else m))
  /\ (forall upstream name,
        run upstream
          (DefaultEnv.callTool PORTAINER_ENV_ID Tools
             StringToNumber_positive (mkCall name None))
        = (inr (text_reply
                  (JStr ("Failed: No arguments provided for tool: " ++ name))),
           []))
  /\ (forall upstream block,
        run upstream (try_catch block DefaultEnv.on_error)
        = match run upstream block with
          | (inr reply, calls) => (inr reply, calls)
          | (inl error, calls) =>
              match ToString (DefaultEnv.errorMessage error) with
              | inr message =>
                  (inr (text_reply (JStr ("Failed: " ++ message))), calls)
              | inl e => (inl e, calls)
              end
          end).
Proof.
  split; [apply callTool_try_catch |].
  split.
  { intros error. unfold DefaultEnv.errorMessage, or_else.
    destruct (truthy (DefaultEnv.response_message error)) eqn:E;
      [now rewrite E | reflexivity]. }
  split; [reflexivity |].
  split; [apply errorMessage_plain |].
  split; [apply errorMessage_no_response |].
  split; [| apply try_catch_on_error].
  intros upstream name. rewrite callTool_try_catch. reflexivity.
Qed.

(** C1, as stated, fails: the handler of the revision that returns
    [{ result }] has no [catch]; called without arguments it raises. *)
Lemma callTool_raises_without_catch :
  run (Sample.answering JNull)
    (PerCallEnv.callTool Sample.TOOL (mkCall "FETCH_IMAGES" None))
  = (inl (Error "No arguments provided for tool: FETCH_IMAGES"), [])
  /\ ~ Stated.never_raises (PerCallEnv.callTool Sample.TOOL).
Proof.
  split; [reflexivity |].
  intros H.
  destruct (H (Sample.answering JNull) (mkCall "FETCH_IMAGES" None))
    as [reply Hreply].
  discriminate Hreply.
Qed.

(** A message that has no conversion to a string: the upstream answers
    with a body whose [message] is an object with a [toString] field, and
    the [catch] clause itself raises. *)
Example callTool_message_not_convertible :
  run (Sample.failing
         (AxiosError
            (Some (mkResponse 500
                     (JObj [("message", JObj [("toString", JNum 1)])])))
            true "Request failed with status code 500"))
    (DefaultEnv.callTool (Some "2") Sample.Tools Sample.digits_positive
       (mkCall "GetImages" (Some [])))
  = (inl (TypeError "Cannot convert object to primitive value"),
     [mkRequest GET "/api/endpoints/2/docker/images/json" [] None]).
Proof. reflexivity. Qed.

(* ------------------------------------------------------------------ *)
(** ** Dispatch *)

Lemma field_absent (fs : list (string * JsValue)) (k : string) :
  has_key fs k = false -> field fs k = JUndefined.
Proof.
  induction fs as [| [k' v] fs IH]; simpl; [reflexivity |].
  destruct (String.eqb k k'); simpl; [discriminate | exact IH].
Qed.

Lemma callTool_calls (PORTAINER_ENV_ID : option string)
  (Tools : DefaultEnv.ToolKey -> string)
  (StringToNumber_positive : string -> bool)
  (upstream : Request -> Outcome) (request : CallToolRequest) :
  run_calls upstream
    (DefaultEnv.callTool PORTAINER_ENV_ID Tools StringToNumber_positive
       request)
  = run_calls upstream
      (DefaultEnv.try_block PORTAINER_ENV_ID Tools StringToNumber_positive
         request).
Proof.
  unfold run_calls. rewrite callTool_try_catch.
  destruct (run upstream (DefaultEnv.try_block _ _ _ request))
    as [[error | reply] calls]; [| reflexivity].
  now destruct (ToString (DefaultEnv.errorMessage error)).
Qed.

(** C7, as the sources have it.  A request that carries arguments and
    whose name matches no [case] issues no call.  The handler with the
    [catch] clause replies [Failed: Unknown tool: <name>]; the handler
    without it raises the error [Unknown tool: <name>].  A request without
    arguments fails on the arguments first, whatever its name. *)
Theorem unknown_tool_fails
  (PORTAINER_ENV_ID : option string)
  (Tools : DefaultEnv.ToolKey -> string)
  (StringToNumber_positive : string -> bool)
  (TOOL : PerCallEnv.ToolKey -> string)
  (upstream : Request -> Outcome)
  (name : string) (args : list (string * JsValue)) :
  (DefaultEnv.select Tools name = None ->
   run upstream
     (DefaultEnv.callTool PORTAINER_ENV_ID Tools StringToNumber_positive
        (mkCall name (Some args)))
   = (inr (text_reply (JStr ("Failed: Unknown tool: " ++ name))), []))
  /\ (PerCallEnv.select TOOL name = None ->
      run upstream (PerCallEnv.callTool TOOL (mkCall name (Some args)))
      = (inl (Error ("Unknown tool: " ++ name)), []))
  /\ run upstream
       (DefaultEnv.callTool PORTAINER_ENV_ID Tools StringToNumber_positive
          (mkCall name None))
     = (inr (text_reply
               (JStr ("Failed: No arguments provided for tool: " ++ name))),
        [])
  /\ run upstream (PerCallEnv.callTool TOOL (mkCall name None))
     = (inl (Error ("No arguments provided for tool: " ++ name)), []).
Proof.
  split.
  { intros Hsel. rewrite callTool_try_catch.
    unfold DefaultEnv.try_block, DefaultEnv.dispatch.
    cbn [Mcp.arguments Mcp.name]. rewrite Hsel. reflexivity. }
  split.
  { intros Hsel. unfold PerCallEnv.callTool, PerCallEnv.dispatch.
    cbn [Mcp.arguments Mcp.name]. rewrite Hsel. reflexivity. }
  split; [| reflexivity].
  rewrite callTool_try_catch. reflexivity.
Qed.

Lemma unknown_tool_fails_witness :
  DefaultEnv.select Sample.Tools "RestartContainer" = None
  /\ PerCallEnv.select Sample.TOOL "RestartContainer" = None
  /\ run (Sample.answering JNull)
       (DefaultEnv.callTool (Some "2") Sample.Tools Sample.digits_positive
          (mkCall "RestartContainer" (Some [("containerId", JStr "4f1c")])))
     = (inr (text_reply (JStr "Failed: Unknown tool: RestartContainer")), [])
  /\ run (Sample.answering JNull)
       (PerCallEnv.callTool Sample.TOOL
          (mkCall "RestartContainer" (Some [("containerId", JStr "4f1c")])))
     = (inl (Error "Unknown tool: RestartContainer"), []).
Proof.
  pose proof (unknown_tool_fails (Some "2") Sample.Tools
                Sample.digits_positive Sample.TOOL (Sample.answering JNull)
                "RestartContainer" [("containerId", JStr "4f1c")])
    as [Ha [Hb _]].
  split; [reflexivity |].
  split; [reflexivity |].
  split; [apply Ha; reflexivity | apply Hb; reflexivity].
Defined.

(** C7, as stated, fails: without arguments the reply to an unknown name
    is about the arguments, and the handler without [catch] gives no reply
    at all. *)
Lemma unknown_tool_other_outcomes :
  DefaultEnv.select Sample.Tools "RestartContainer" = None
  /\ run (Sample.answering JNull)
       (DefaultEnv.callTool (Some "2") Sample.Tools Sample.digits_positive
          (mkCall "RestartContainer" None))
     = (inr (text_reply
               (JStr "Failed: No arguments provided for tool: RestartContainer")),
        [])
  /\ ~ Stated.unknown_tool_reply
         (DefaultEnv.select Sample.Tools)
         (DefaultEnv.callTool (Some "2") Sample.Tools Sample.digits_positive)
  /\ PerCallEnv.select Sample.TOOL "RestartContainer" = None
  /\ run (Sample.answering JNull)
       (PerCallEnv.callTool Sample.TOOL (mkCall "RestartContainer" (Some [])))
     = (inl (Error "Unknown tool: RestartContainer"), []).
Proof.
  split; [reflexivity |].
  split; [reflexivity |].
  split; [| split; reflexivity].
  intros H.
  specialize (H (Sample.answering JNull) (mkCall "RestartContainer" None)
                eq_refl).
  discriminate H.
Qed.

Ltac enter_case Hsel :=
  rewrite callTool_try_catch;
  unfold DefaultEnv.try_block, DefaultEnv.dispatch;
  cbn [Mcp.arguments Mcp.name]; rewrite Hsel.

(** C10.  In the revision with a start-up environment id, take a request
    whose arguments have no [envId] and an upstream that answers the call.
    Then "start container", "delete container" and "update container
    limits" on a container id that reads [id] reply
    [Operation successful - Container Id: <id>, Env Id: undefined], and
    "delete stopped containers" replies
    [Operation successful - Env Id: undefined]; the one call issued goes to
    the environment read at start-up. *)
Theorem env_id_undefined_in_replies
  (PORTAINER_ENV_ID : option string)
  (Tools : DefaultEnv.ToolKey -> string)
  (StringToNumber_positive : string -> bool)
  (upstream : Request -> Outcome)
  (name : string) (args : list (string * JsValue)) (id : string)
  (d : JsValue)
  (no_envId : has_key args "envId" = false) :
  let env := DefaultEnv.env_text PORTAINER_ENV_ID in
  let handler :=
    DefaultEnv.callTool PORTAINER_ENV_ID Tools StringToNumber_positive in
  (DefaultEnv.select Tools name = Some DefaultEnv.StartDockerContainer ->
   ToString (field args "containerId") = inr id ->
   upstream (start_call env id) = Resolved d ->
   run upstream (handler (mkCall name (Some args)))
   = (inr (text_reply
             (JStr ("Operation successful - Container Id: " ++ id
                    ++ ", Env Id: undefined"))),
      [start_call env id]))
  /\ (DefaultEnv.select Tools name = Some DefaultEnv.DeleteDockerContainer ->
      ToString (field args "containerId") = inr id ->
      upstream (delete_call env id
                  (default_to (JBool false) (field args "force")))
      = Resolved d ->
      run upstream (handler (mkCall name (Some args)))
      = (inr (text_reply
                (JStr ("Operation successful - Container Id: " ++ id
                       ++ ", Env Id: undefined"))),
         [delete_call env id
            (default_to (JBool false) (field args "force"))]))
  /\ (DefaultEnv.select Tools name = Some DefaultEnv.UpdateContainer ->
      ToString (field args "containerId") = inr id ->
      upstream (update_call env id (field args "memory")
                  (field args "memorySwap") (field args "restartPolicy"))
      = Resolved d ->
      run upstream (handler (mkCall name (Some args)))
      = (inr (text_reply
                (JStr ("Operation successful - Container Id: " ++ id
                       ++ ", Env Id: undefined"))),
         [update_call env id (field args "memory")
            (field args "memorySwap") (field args "restartPolicy")]))
  /\ (DefaultEnv.select Tools name
      = Some DefaultEnv.DeleteUnwantedContainers ->
      upstream (prune_call env) = Resolved d ->
      run upstream (handler (mkCall name (Some args)))
      = (inr (text_reply (JStr "Operation successful - Env Id: undefined")),
         [prune_call env])).
Proof.
  intros env handler. subst env handler.
  apply field_absent in no_envId.
  repeat split.
  - intros Hsel Hid Hup. enter_case Hsel. rewrite no_envId.
    unfold DefaultEnv.startDockerContainer, start_call, str in *.
    rewrite Hid. cbn [lift bind send await run fst snd].
    rewrite Hup. reflexivity.
  - intros Hsel Hid Hup. enter_case Hsel. rewrite no_envId.
    unfold DefaultEnv.deleteDockerContainer, delete_call, str in *.
    rewrite Hid. cbn [lift bind send await run fst snd].
    rewrite Hup. reflexivity.
  - intros Hsel Hid Hup. enter_case Hsel. rewrite no_envId.
    unfold DefaultEnv.updateContainerResourceLimits, update_call, str in *.
    rewrite Hid. cbn [lift bind send await run fst snd].
    rewrite Hup. reflexivity.
  - intros Hsel Hup. enter_case Hsel. rewrite no_envId.
    unfold DefaultEnv.pruneContainer, prune_call in *.
    cbn [bind send await run fst snd].
    rewrite Hup. reflexivity.
Qed.

Lemma env_id_undefined_in_replies_witness :
  has_key [("containerId", JStr "4f1c"); ("force", JBool true)] "envId"
  = false
  /\ run (Sample.answering (JStr ""))
       (DefaultEnv.callTool (Some "2") Sample.Tools Sample.digits_positive
          (mkCall "DeleteDockerContainer"
             (Some [("containerId", JStr "4f1c"); ("force", JBool true)])))
     = (inr (text_reply
               (JStr "Operation successful - Container Id: 4f1c, Env Id: undefined")),
        [mkRequest DELETE "/api/endpoints/2/docker/containers/4f1c"
           [("force", JBool true)] None]).
Proof.
  split; [reflexivity |].
  apply (proj1 (proj2
           (env_id_undefined_in_replies (Some "2") Sample.Tools
              Sample.digits_positive (Sample.answering (JStr ""))
              "DeleteDockerContainer"
              [("containerId", JStr "4f1c"); ("force", JBool true)]
              "4f1c" (JStr "") eq_refl)));
    reflexivity.
Defined.

(** C9.  In the revision whose log cases build the reply from
    [result.message]: when the upstream answers the log call with a string,
    the text of the reply is [undefined], whatever the string; so it is for
    the container logs and for the service logs. *)
Theorem log_reply_drops_content
  (PORTAINER_ENV_ID : option string)
  (Tools : DefaultEnv.ToolKey -> string)
  (StringToNumber_positive : string -> bool)
  (upstream : Request -> Outcome)
  (name : string) (args : list (string * JsValue)) (id logs : string) :
  let env := DefaultEnv.env_text PORTAINER_ENV_ID in
  let handler :=
    DefaultEnv.callTool PORTAINER_ENV_ID Tools StringToNumber_positive in
  let log_params :=
    [("stdout", default_to (JBool true) (field args "stdout"));
     ("stderr", default_to (JBool true) (field args "stderr"));
     ("follow", default_to (JBool false) (field args "follow"));
     ("timestamps", default_to (JBool false) (field args "timestamps"));
     ("tail", default_to (JNum 10) (field args "tail"))] in
  (DefaultEnv.select Tools name = Some DefaultEnv.GetContainerLogs ->
   ToString (field args "containerId") = inr id ->
   upstream (logs_call "containers" env id log_params)
   = Resolved (JStr logs) ->
   run upstream (handler (mkCall name (Some args)))
   = (inr (text_reply JUndefined),
      [logs_call "containers" env id log_params]))
  /\ (DefaultEnv.select Tools name = Some DefaultEnv.GetServiceLogs ->
      ToString (field args "serviceId") = inr id ->
      upstream (logs_call "services" env id log_params)
      = Resolved (JStr logs) ->
      run upstream (handler (mkCall name (Some args)))
      = (inr (text_reply JUndefined),
         [logs_call "services" env id log_params])).
Proof.
  intros env handler log_params. subst env handler log_params.
  split.
  - intros Hsel Hid Hup. enter_case Hsel.
    unfold DefaultEnv.fetchContainerLogs, logs_call, str in *.
    rewrite Hid. cbn [lift bind send await run fst snd].
    cbn [String.append] in Hup. cbn [String.append].
    rewrite Hup. reflexivity.
  - intros Hsel Hid Hup. enter_case Hsel.
    unfold DefaultEnv.fetchServiceLog, logs_call, str in *.
    rewrite Hid. cbn [lift bind send await run fst snd].
    cbn [String.append] in Hup. cbn [String.append].
    rewrite Hup. reflexivity.
Qed.

Lemma log_reply_drops_content_witness :
  run (Sample.answering (JStr "2024-01-01T00:00:00Z listening on :80"))
    (DefaultEnv.callTool (Some "2") Sample.Tools Sample.digits_positive
       (mkCall "GetContainerLogs"
          (Some [("containerId", JStr "4f1c"); ("tail", JNum 50)])))
  = (inr (text_reply JUndefined),
     [mkRequest GET "/api/endpoints/2/docker/containers/4f1c/logs"
        [("stdout", JBool true); ("stderr", JBool true);
         ("follow", JBool false); ("timestamps", JBool false);
         ("tail", JNum 50)] None]).
Proof.
  apply (proj1
           (log_reply_drops_content (Some "2") Sample.Tools
              Sample.digits_positive
              (Sample.answering (JStr "2024-01-01T00:00:00Z listening on :80"))
              "GetContainerLogs"
              [("containerId", JStr "4f1c"); ("tail", JNum 50)]
              "4f1c" "2024-01-01T00:00:00Z listening on :80"));
    reflexivity.
Defined.

Lemma options_omitted (args : list (string * JsValue)) :
  (forall k, In k log_options -> has_key args k = false) ->
  field args "stdout" = JUndefined /\ field args "stderr" = JUndefined
  /\ field args "follow" = JUndefined
  /\ field args "timestamps" = JUndefined /\ field args "tail" = JUndefined.
Proof.
  intros H. repeat split; apply field_absent, H; simpl; tauto.
Qed.

(** C5.  When a "fetch container logs" request leaves out [stdout],
    [stderr], [follow], [timestamps] and [tail], both dispatchers behave as
    on the same request with [stdout=true], [stderr=true], [follow=false],
    [timestamps=false] and [tail=10] given: the same result and the same
    calls.  The call issued carries exactly these five parameters. *)
Theorem container_logs_defaults
  (PORTAINER_ENV_ID : option string)
  (Tools : DefaultEnv.ToolKey -> string)
  (StringToNumber_positive : string -> bool)
  (TOOL : PerCallEnv.ToolKey -> string)
  (upstream : Request -> Outcome)
  (name_a name_b : string) (args : list (string * JsValue))
  (case_a : DefaultEnv.select Tools name_a = Some DefaultEnv.GetContainerLogs)
  (case_b : PerCallEnv.select TOOL name_b
            = Some PerCallEnv.FETCH_CONTAINER_LOGS)
  (omitted : forall k, In k log_options -> has_key args k = false) :
  let handler_a :=
    DefaultEnv.callTool PORTAINER_ENV_ID Tools StringToNumber_positive in
  let handler_b := PerCallEnv.callTool TOOL in
  let explicit := (log_defaults ++ args)%list in
  run upstream (handler_a (mkCall name_a (Some args)))
  = run upstream (handler_a (mkCall name_a (Some explicit)))
  /\ run upstream (handler_b (mkCall name_b (Some args)))
     = run upstream (handler_b (mkCall name_b (Some explicit)))
  /\ (forall id,
        ToString (field args "containerId") = inr id ->
        run_calls upstream (handler_a (mkCall name_a (Some args)))
        = [logs_call "containers" (DefaultEnv.env_text PORTAINER_ENV_ID) id
             log_defaults])
  /\ (forall env id,
        ToString (field args "envId") = inr env ->
        ToString (field args "containerId") = inr id ->
        run_calls upstream (handler_b (mkCall name_b (Some args)))
        = [logs_call "containers" env id log_defaults]).
Proof.
  intros handler_a handler_b explicit. subst handler_a handler_b explicit.
  destruct (options_omitted args omitted) as [H1 [H2 [H3 [H4 H5]]]].
  split.
  { rewrite !callTool_try_catch.
    unfold DefaultEnv.try_block, DefaultEnv.dispatch.
    cbn [Mcp.arguments Mcp.name]. rewrite case_a.
    unfold log_defaults. cbn [app field String.eqb Ascii.eqb Bool.eqb].
    now rewrite H1, H2, H3, H4, H5. }
  split.
  { unfold PerCallEnv.callTool, PerCallEnv.dispatch.
    cbn [Mcp.arguments Mcp.name]. rewrite case_b.
    unfold log_defaults. cbn [app field String.eqb Ascii.eqb Bool.eqb].
    now rewrite H1, H2, H3, H4, H5. }
  split.
  { intros id Hid. rewrite callTool_calls. unfold run_calls.
    unfold DefaultEnv.try_block, DefaultEnv.dispatch.
    cbn [Mcp.arguments Mcp.name]. rewrite case_a.
    unfold DefaultEnv.fetchContainerLogs, str.
    rewrite H1, H2, H3, H4, H5, Hid.
    cbn [lift bind send await run fst snd default_to].
    destruct (upstream _) as [[| | | | | |] | e]; reflexivity. }
  { intros env id Henv Hid. unfold run_calls.
    unfold PerCallEnv.callTool, PerCallEnv.dispatch.
    cbn [Mcp.arguments Mcp.name]. rewrite case_b.
    unfold PerCallEnv.fetchContainerLogs, PerCallEnv.reply, str.
    rewrite H1, H2, H3, H4, H5, Henv, Hid.
    cbn [lift bind send await run fst snd default_to].
    rewrite run_bind. rewrite handleRequest_no_calls.
    now destruct (fst (run upstream (PerCallEnv.handleRequest _))). }
Qed.

Lemma container_logs_defaults_witness :
  DefaultEnv.select Sample.Tools "GetContainerLogs"
  = Some DefaultEnv.GetContainerLogs
  /\ PerCallEnv.select Sample.TOOL "FETCH_CONTAINER_LOGS"
     = Some PerCallEnv.FETCH_CONTAINER_LOGS
  /\ (forall k, In k log_options ->
        has_key [("envId", JStr "2"); ("containerId", JStr "4f1c")] k = false)
  /\ run_calls (Sample.answering (JStr "ready"))
       (PerCallEnv.callTool Sample.TOOL
          (mkCall "FETCH_CONTAINER_LOGS"
             (Some [("envId", JStr "2"); ("containerId", JStr "4f1c")])))
     = [mkRequest GET "/api/endpoints/2/docker/containers/4f1c/logs"
          [("stdout", JBool true); ("stderr", JBool true);
           ("follow", JBool false); ("timestamps", JBool false);
           ("tail", JNum 10)] None].
Proof.
  assert (Hom : forall k, In k log_options ->
            has_key [("envId", JStr "2"); ("containerId", JStr "4f1c")] k
            = false).
  { intros k Hk. simpl in Hk.
    repeat (destruct Hk as [<- | Hk]; [reflexivity |]). destruct Hk. }
  split; [reflexivity |].
  split; [reflexivity |].
  split; [exact Hom |].
  exact (proj2 (proj2 (proj2
           (container_logs_defaults (Some "2") Sample.Tools
              Sample.digits_positive Sample.TOOL
              (Sample.answering (JStr "ready"))
              "GetContainerLogs" "FETCH_CONTAINER_LOGS"
              [("envId", JStr "2"); ("containerId", JStr "4f1c")]
              eq_refl eq_refl Hom)))
           "2" "4f1c" eq_refl eq_refl).
Defined.

(** C6.  "Delete container" without [force] behaves as with
    [force=false]: the client functions are the same program for an omitted
    and for a false [force], whatever the environment id and the container
    id, and both dispatchers give the same result and issue the same call,
    which carries [force=false]. *)
Theorem delete_force_default
  (PORTAINER_ENV_ID : option string)
  (Tools : DefaultEnv.ToolKey -> string)
  (StringToNumber_positive : string -> bool)
  (TOOL : PerCallEnv.ToolKey -> string)
  (upstream : Request -> Outcome)
  (name_a name_b : string) (args : list (string * JsValue))
  (case_a : DefaultEnv.select Tools name_a
            = Some DefaultEnv.DeleteDockerContainer)
  (case_b : PerCallEnv.select TOOL name_b
            = Some PerCallEnv.DELETE_DOCKER_CONTAINER)
  (omitted : has_key args "force" = false) :
  let handler_a :=
    DefaultEnv.callTool PORTAINER_ENV_ID Tools StringToNumber_positive in
  let handler_b := PerCallEnv.callTool TOOL in
  let explicit := ("force", JBool false) :: args in
  (forall envId containerId,
      PerCallEnv.deleteDockerContainer envId containerId JUndefined
      = PerCallEnv.deleteDockerContainer envId containerId (JBool false))
  /\ (forall containerId,
        DefaultEnv.deleteDockerContainer PORTAINER_ENV_ID containerId
          JUndefined
        = DefaultEnv.deleteDockerContainer PORTAINER_ENV_ID containerId
            (JBool false))
  /\ run upstream (handler_a (mkCall name_a (Some args)))
     = run upstream (handler_a (mkCall name_a (Some explicit)))
  /\ run upstream (handler_b (mkCall name_b (Some args)))
     = run upstream (handler_b (mkCall name_b (Some explicit)))
  /\ (forall id,
        ToString (field args "containerId") = inr id ->
        run_calls upstream (handler_a (mkCall name_a (Some args)))
        = [delete_call (DefaultEnv.env_text PORTAINER_ENV_ID) id
             (JBool false)])
  /\ (forall env id,
        ToString (field args "envId") = inr env ->
        ToString (field args "containerId") = inr id ->
        run_calls upstream (handler_b (mkCall name_b (Some args)))
        = [delete_call env id (JBool false)]).
Proof.
  intros handler_a handler_b explicit. subst handler_a handler_b explicit.
  apply field_absent in omitted.
  split; [reflexivity |].
  split; [reflexivity |].
  split.
  { rewrite !callTool_try_catch.
    unfold DefaultEnv.try_block, DefaultEnv.dispatch.
    cbn [Mcp.arguments Mcp.name]. rewrite case_a.
    cbn [field String.eqb Ascii.eqb Bool.eqb].
    now rewrite omitted. }
  split.
  { unfold PerCallEnv.callTool, PerCallEnv.dispatch.
    cbn [Mcp.arguments Mcp.name]. rewrite case_b.
    cbn [field String.eqb Ascii.eqb Bool.eqb].
    now rewrite omitted. }
  split.
  { intros id Hid. rewrite callTool_calls. unfold run_calls.
    unfold DefaultEnv.try_block, DefaultEnv.dispatch.
    cbn [Mcp.arguments Mcp.name]. rewrite case_a.
    unfold DefaultEnv.deleteDockerContainer, str.
    rewrite omitted, Hid.
    cbn [lift bind send await run fst snd default_to].
    destruct (upstream _) as [d | e]; [| reflexivity].
    cbn [lift bind send await run fst snd].
    now destruct (ToString (field args "envId")). }
  { intros env id Henv Hid. unfold run_calls.
    unfold PerCallEnv.callTool, PerCallEnv.dispatch.
    cbn [Mcp.arguments Mcp.name]. rewrite case_b.
    unfold PerCallEnv.deleteDockerContainer, PerCallEnv.reply, str.
    rewrite omitted, Henv, Hid.
    cbn [lift bind send await run fst snd default_to].
    rewrite run_bind. rewrite handleRequest_no_calls.
    now destruct (fst (run upstream (PerCallEnv.handleRequest _))). }
Qed.

Lemma delete_force_default_witness :
  DefaultEnv.select Sample.Tools "DeleteDockerContainer"
  = Some DefaultEnv.DeleteDockerContainer
  /\ PerCallEnv.select Sample.TOOL "DELETE_DOCKER_CONTAINER"
     = Some PerCallEnv.DELETE_DOCKER_CONTAINER
  /\ has_key [("envId", JStr "2"); ("containerId", JStr "4f1c")] "force"
     = false
  /\ run (Sample.answering (JStr ""))
       (PerCallEnv.callTool Sample.TOOL
          (mkCall "DELETE_DOCKER_CONTAINER"
             (Some [("envId", JStr "2"); ("containerId", JStr "4f1c")])))
     = run (Sample.answering (JStr ""))
         (PerCallEnv.callTool Sample.TOOL
            (mkCall "DELETE_DOCKER_CONTAINER"
               (Some [("force", JBool false); ("envId", JStr "2");
                      ("containerId", JStr "4f1c")]))).
Proof.
  split; [reflexivity |].
  split; [reflexivity |].
  split; [reflexivity |].
  exact (proj1 (proj2 (proj2 (proj2
           (delete_force_default (Some "2") Sample.Tools
              Sample.digits_positive Sample.TOOL
              (Sample.answering (JStr ""))
              "DeleteDockerContainer" "DELETE_DOCKER_CONTAINER"
              [("envId", JStr "2"); ("containerId", JStr "4f1c")]
              eq_refl eq_refl eq_refl))))).
Defined.

(* ------------------------------------------------------------------ *)
(** ** The container list *)

Lemma port_text_value (p : Port) :
  DefaultEnv.port_text (port_value p) = Ret (port_line p).
Proof.
  unfold DefaultEnv.port_text, port_value, port_line.
  destruct p as [ip priv pub ty]; destruct ip, pub; reflexivity.
Qed.

Lemma container_line_value (c : DockerContainer) :
  DefaultEnv.container_line (container_value c) = Ret (container_text c).
Proof.
  unfold DefaultEnv.container_line, container_value, container_text.
  cbn [get bind field String.eqb Ascii.eqb Bool.eqb str lift ToString].
  assert (Hname :
            or_else (opt_chain (JArr (map JStr (Names c))) JUndefined first)
                    (JStr "unknown")
            = JStr (display_name c)).
  { unfold display_name, opt_chain, or_else. simpl.
    destruct (Names c) as [| n ns]; [reflexivity |]. simpl.
    now destruct (String.eqb n ""). }
  rewrite Hname.
  cbn [get bind field String.eqb Ascii.eqb Bool.eqb str lift ToString].
  unfold opt_chain. cbn [nullish call_map].
  rewrite (mapM_map port_value DefaultEnv.port_text port_line)
    by apply port_text_value.
  cbn [bind].
  assert (Hports :
            or_else (JStr (join ", " (map port_line (Ports c))))
                    (JStr "none")
            = JStr (ports_line c)).
  { unfold ports_line, or_else. simpl.
    now destruct (String.eqb (join ", " (map port_line (Ports c))) ""). }
  rewrite Hports.
  reflexivity.
Qed.

Lemma join_nonempty (sep : string) (x : string) (l : list string) :
  x <> "" -> join sep (x :: l) <> "".
Proof.
  intros Hx. unfold join. simpl. destruct l as [| y l]; [exact Hx |].
  destruct x as [| c x]; [now contradiction Hx | discriminate].
Qed.

Lemma port_line_nonempty (p : Port) : port_line p <> "".
Proof.
  unfold port_line.
  destruct (match PublicPort p with
            | Some n => string_of_Z n
            | None => "undefined"
            end); discriminate.
Qed.

(** C8.  When the upstream answers the container call with a list of
    containers, the reply of "fetch containers" is a function of the list:
    the lines of the containers joined by line feeds, one line for each
    container and in the order of the list.  The line of a container is
    [ContainerId: <Id>, Name: <name>, Ports: <ports>, State: <State>,
     Status: <Status>], with each of the three named once, the name being
    the first of [Names] or the word [unknown].  The text of the ports is a
    function of the ports alone: [none] when there are none, and, when their
    numbers are safe integers, [<PublicPort>:<PrivatePort>/<Type>] for each
    port, separated by a comma and a space. *)
Theorem containers_reply_lists_every_container :
  exists shown_ports : list Port -> string,
    shown_ports [] = "none"
    /\ (forall ports,
          forallb exact_port ports = true ->
          ports <> [] ->
          shown_ports ports = join ", " (map port_line ports))
    /\ (forall (PORTAINER_ENV_ID : option string)
               (Tools : DefaultEnv.ToolKey -> string)
               (StringToNumber_positive : string -> bool)
               (upstream : Request -> Outcome)
               (name : string) (args : list (string * JsValue))
               (containers : list DockerContainer),
          DefaultEnv.select Tools name = Some DefaultEnv.GetDockerContainers ->
          upstream (containers_call (DefaultEnv.env_text PORTAINER_ENV_ID))
          = Resolved (JArr (map container_value containers)) ->
          let line := fun c : DockerContainer =>
            "ContainerId: " ++ Id c ++ ", Name: " ++ display_name c
            ++ ", Ports: " ++ shown_ports (Ports c) ++ ", State: " ++ State c
            ++ ", Status: " ++ Status c in
          run upstream
            (DefaultEnv.callTool PORTAINER_ENV_ID Tools
               StringToNumber_positive (mkCall name (Some args)))
          = (inr (text_reply (JStr (join LF (map line containers)))),
             [containers_call (DefaultEnv.env_text PORTAINER_ENV_ID)])
          /\ List.length (map line containers) = List.length containers
          /\ (forall i c,
                nth_error containers i = Some c ->
                nth_error (map line containers) i = Some (line c))).
Proof.
  exists (fun ports =>
            let joined := join ", " (map port_line ports) in
            if String.eqb joined "" then "none" else joined).
  split; [reflexivity |].
  split.
  { intros [| p ports] _ Hne; [now contradiction Hne |].
    cbn [map].
    destruct (String.eqb_spec
                (join ", " (port_line p :: map port_line ports)) "")
      as [E | E]; [| reflexivity].
    exfalso. revert E. apply join_nonempty, port_line_nonempty. }
  intros PORTAINER_ENV_ID Tools StringToNumber_positive upstream name args
    containers case answer line.
  split; [| split].
  - enter_case case.
    unfold DefaultEnv.fetchDockerContainers, containers_call in *.
    cbn [bind send await run fst snd].
    rewrite answer.
    cbn [bind send await run fst snd call_map].
    rewrite (mapM_map container_value _ container_text)
      by apply container_line_value.
    reflexivity.
  - apply length_map.
  - intros i c Hi. now rewrite nth_error_map, Hi.
Qed.

Lemma containers_reply_lists_every_container_witness :
  forallb exact_port (Ports Sample.web) = true
  /\ run (Sample.answering
            (JArr (map container_value [Sample.web; Sample.cache])))
       (DefaultEnv.callTool (Some "2") Sample.Tools Sample.digits_positive
          (mkCall "GetDockerContainers" (Some [])))
     = (inr (text_reply
               (JStr (join LF
                        ["ContainerId: 4f1c, Name: /web, Ports: 8080:80/tcp, undefined:443/tcp, State: running, Status: Up 2 hours";
                         "ContainerId: 9b2e, Name: unknown, Ports: none, State: exited, Status: Exited (0) 3 minutes ago"]))),
        [mkRequest GET "/api/endpoints/2/docker/containers/json"
           [("all", JBool true)] None]).
Proof.
  split; [reflexivity |].
  destruct containers_reply_lists_every_container
    as [shown_ports [Hnone [Hexact Hreply]]].
  destruct (Hreply (Some "2") Sample.Tools Sample.digits_positive
              (Sample.answering
                 (JArr (map container_value [Sample.web; Sample.cache])))
              "GetDockerContainers" [] [Sample.web; Sample.cache]
              eq_refl eq_refl) as [Hrun _].
  rewrite Hrun. cbn [map Sample.web Sample.cache Ports].
  rewrite Hnone, Hexact; [reflexivity | reflexivity | discriminate].
Defined.

(* ------------------------------------------------------------------ *)
(** ** Programs that await nothing *)

(** Induction on values, with the elements of an array and the fields of
    an object at hand. *)
Lemma JsValue_nested_ind (P : JsValue -> Prop) :
  P JUndefined -> P JNull -> (forall b, P (JBool b)) ->
  (forall n, P (JNum n)) -> (forall s, P (JStr s)) ->
  (forall items, Forall P items -> P (JArr items)) ->
  (forall fs, Forall (fun kv => P (snd kv)) fs -> P (JObj fs)) ->
  forall v, P v.
Proof.
  intros Hu Hn Hb Hz Hs Harr Hobj. fix IH 1.
  intros [| | b | n | s | items | fs];
    [exact Hu | exact Hn | apply Hb | apply Hz | apply Hs | |].
  - apply Harr. induction items as [| x rest IHrest]; constructor;
      [apply IH | exact IHrest].
  - apply Hobj. induction fs as [| [k x] rest IHrest]; constructor;
      [apply IH | exact IHrest].
Qed.

(** An array converts to a string as [join(",")] does it. *)
Lemma ToString_array (items : list JsValue) :
  ToString (JArr items) = array_join "," items.
Proof.
  induction items as [| x rest IH]; [reflexivity |].
  simpl in IH |- *. rewrite IH.
  destruct x; reflexivity.
Qed.

Lemma array_join_error_of (sep : string) (l : list JsValue) :
  Forall (fun v => match ToString v with
                   | inl e => exists m, e = Error m
                   | inr _ => True
                   end) l ->
  match array_join sep l with
  | inl e => exists m, e = Error m
  | inr _ => True
  end.
Proof.
  induction 1 as [| x rest Hx Hrest IH]; simpl; [exact I |].
  assert (Hx' : match (if nullish x then inr "" else ToString x) with
                | inl e => exists m, e = Error m
                | inr _ => True
                end).
  { destruct (nullish x); [exact I | exact Hx]. }
  destruct (if nullish x then inr "" else ToString x) as [e | s];
    [exact Hx' |].
  destruct rest as [| y rest]; [exact I |].
  destruct (array_join sep (y :: rest)); [exact IH | exact I].
Qed.

(** What a conversion to a string throws is an [Error]. *)
Lemma ToString_error (v : JsValue) :
  match ToString v with
  | inl e => exists m, e = Error m
  | inr _ => True
  end.
Proof.
  induction v as [| | b | n | s | items IH | fs IH] using JsValue_nested_ind;
    try exact I.
  - now destruct b.
  - rewrite ToString_array. now apply array_join_error_of.
  - simpl. destruct (has_key fs "toString"); [| exact I]. now eexists.
Qed.

Lemma array_join_error (sep : string) (l : list JsValue) :
  match array_join sep l with
  | inl e => exists m, e = Error m
  | inr _ => True
  end.
Proof.
  apply array_join_error_of. apply Forall_forall. intros x _.
  apply ToString_error.
Qed.

Lemma plain_run {A : Type} (upstream : Request -> Outcome) (p : Prog A) :
  plain p -> snd (run upstream p) = [].
Proof. destruct p as [a | [] | r k]; simpl; tauto. Qed.

Lemma plain_bind {A B : Type} (p : Prog A) (f : A -> Prog B) :
  plain p -> (forall a, plain (f a)) -> plain (bind p f).
Proof. destruct p as [a | [] | r k]; simpl; auto. Qed.

Lemma plain_str (v : JsValue) : plain (str v).
Proof.
  unfold str. pose proof (ToString_error v) as H.
  destruct (ToString v) as [e | s]; [| exact I].
  now destruct H as [m ->].
Qed.

Lemma plain_get (v : JsValue) (k : string) : plain (get v k).
Proof. now destruct v. Qed.

Lemma plain_mapM {A B : Type} (f : A -> Prog B) (l : list A) :
  (forall x, plain (f x)) -> plain (mapM f l).
Proof.
  intros Hf. induction l as [| x l IH]; simpl; [exact I |].
  apply plain_bind; [apply Hf |]. intros y.
  apply plain_bind; [exact IH |]. now intros ys.
Qed.

Lemma plain_call_map {B : Type} (callee : string) (v : JsValue)
  (f : JsValue -> Prog B) :
  (forall x, plain (f x)) -> plain (call_map callee v f).
Proof. intros Hf. destruct v; simpl; auto. now apply plain_mapM. Qed.

Lemma plain_call_join (callee : string) (v : JsValue) (sep : string) :
  plain (call_join callee v sep).
Proof.
  destruct v; simpl; auto.
  pose proof (array_join_error sep items) as H.
  destruct (array_join sep items) as [e | s]; [| exact I].
  now destruct H as [m ->].
Qed.

Lemma plain_get_length (v : JsValue) : plain (get_length v).
Proof. now destruct v. Qed.

Lemma plain_gt_zero (f : string -> bool) (v : JsValue) :
  plain (gt_zero f v).
Proof.
  destruct v; simpl; auto;
    (apply plain_bind; [apply plain_str | now intros]).
Qed.

Lemma plain_includes_slash (callee : string) (v : JsValue) :
  plain (includes_slash callee v).
Proof. now destruct v. Qed.

Lemma plain_split_slash_first (callee : string) (v : JsValue) :
  plain (split_slash_first callee v).
Proof. now destruct v. Qed.

Lemma plain_opt_chain {A : Type} (v : JsValue) (p : Prog A)
  (rest : JsValue -> Prog A) :
  plain p -> (forall x, plain (rest x)) -> plain (opt_chain v p rest).
Proof. intros Hp Hr. unfold opt_chain. now destruct (nullish v). Qed.

Create HintDb plain_db discriminated.

#[export] Hint Resolve plain_str plain_get plain_call_join plain_get_length
  plain_gt_zero plain_includes_slash plain_split_slash_first : plain_db.

Ltac plain_step :=
  first [ exact I
        | apply plain_bind; [| intro]
        | apply plain_call_map; intro
        | apply plain_opt_chain; [| intro]
        | solve [auto with plain_db]
        | apply plain_str
        | match goal with
          | |- plain (if ?b then _ else _) => destruct b
          end ].

Ltac plainly := repeat plain_step.

Lemma plain_container_line (c : JsValue) :
  plain (DefaultEnv.container_line c).
Proof. unfold DefaultEnv.container_line, DefaultEnv.port_text. plainly. Qed.

Lemma plain_image_line (i : JsValue) : plain (DefaultEnv.image_line i).
Proof. unfold DefaultEnv.image_line. plainly. Qed.

Lemma plain_pruned_image_line (i : JsValue) :
  plain (DefaultEnv.pruned_image_line i).
Proof. unfold DefaultEnv.pruned_image_line. plainly. Qed.

Lemma plain_network_line (n : JsValue) : plain (DefaultEnv.network_line n).
Proof. unfold DefaultEnv.network_line. plainly. Qed.

Lemma plain_service_line (s : JsValue) : plain (DefaultEnv.service_line s).
Proof.
  unfold DefaultEnv.service_line, DefaultEnv.service_port_text. plainly.
Qed.

#[export] Hint Resolve plain_container_line plain_image_line
  plain_pruned_image_line plain_network_line plain_service_line : plain_db.

(* ------------------------------------------------------------------ *)
(** ** The shape of a dispatch *)

Ltac convert_ids :=
  repeat match goal with
         | |- context [ToString (field ?a ?k)] =>
             let H := fresh "Hconv" in
             pose proof (ToString_error (field a k)) as H;
             destruct (ToString (field a k));
             [destruct H as [? ->] | clear H]
         end.

(** The dispatch of the revision with a start-up environment id throws an
    [Error] at once or awaits one call into that environment; after an
    answer it awaits nothing more and throws only an [Error], and a
    rejection it throws on as it is. *)
Lemma default_dispatch_shape (PORTAINER_ENV_ID : option string)
  (Tools : DefaultEnv.ToolKey -> string)
  (StringToNumber_positive : string -> bool)
  (name : string) (args : list (string * JsValue)) :
  match DefaultEnv.dispatch PORTAINER_ENV_ID Tools StringToNumber_positive
          name args with
  | Ret _ => False
  | Throw e => exists m, e = Error m
  | Await r k =>
      under_environment (DefaultEnv.env_text PORTAINER_ENV_ID) r
      /\ (forall key,
            DefaultEnv.select Tools name = Some key ->
            reads_only_default key = true -> method r = GET)
      /\ (forall d, plain (k (Resolved d)))
      /\ (forall e, k (Rejected e) = Throw e)
  end.
Proof.
  unfold DefaultEnv.dispatch.
  destruct (DefaultEnv.select Tools name) as [[] |] eqn:Hsel;
    unfold DefaultEnv.fetchDockerContainers,
      DefaultEnv.createDockerContainer, DefaultEnv.startDockerContainer,
      DefaultEnv.deleteDockerContainer, DefaultEnv.fetchContainerLogs,
      DefaultEnv.updateContainerResourceLimits, DefaultEnv.pruneContainer,
      DefaultEnv.fetchImages, DefaultEnv.deleteImageBuildCache,
      DefaultEnv.deleteUnusedImages, DefaultEnv.fetchNetworks,
      DefaultEnv.fetchServices, DefaultEnv.fetchServiceLog, str;
    convert_ids; cbn [lift bind send]; try (eexists; reflexivity);
    (split; [eexists; reflexivity |]);
    (split;
     [ intros key Hkey Hro; injection Hkey as <-;
       first [reflexivity | discriminate Hro] |]);
    (split; [intros d; cbn [await bind]; plainly | reflexivity]).
Qed.

(* ------------------------------------------------------------------ *)
(** ** One call at most, and where it goes *)

(** A plain [try] block ends in a reply. *)
Lemma plain_caught (upstream : Request -> Outcome) (p : Prog TextReply) :
  plain p ->
  exists reply,
    run upstream (try_catch p DefaultEnv.on_error) = (inr reply, []).
Proof.
  destruct p as [a | [m | ] | r k]; simpl; try tauto; intros _.
  - now exists a.
  - unfold DefaultEnv.on_error, str. rewrite errorMessage_plain.
    eexists. reflexivity.
Qed.

(** The run of the handler with the [catch] clause: no call and a reply,
    or one call into the start-up environment, answered by a reply when the
    upstream answers and by the [catch] clause on the rejection when it
    rejects. *)
Lemma default_callTool_run (PORTAINER_ENV_ID : option string)
  (Tools : DefaultEnv.ToolKey -> string)
  (StringToNumber_positive : string -> bool)
  (upstream : Request -> Outcome) (request : CallToolRequest) :
  let outcome :=
    run upstream
      (DefaultEnv.callTool PORTAINER_ENV_ID Tools StringToNumber_positive
         request) in
  (exists reply, outcome = (inr reply, []))
  \/ (exists r,
        snd outcome = [r]
        /\ under_environment (DefaultEnv.env_text PORTAINER_ENV_ID) r
        /\ (forall key,
              DefaultEnv.select Tools (name request) = Some key ->
              reads_only_default key = true -> method r = GET)
        /\ match upstream r with
           | Resolved _ => exists reply, fst outcome = inr reply
           | Rejected e =>
               fst outcome
               = match ToString (DefaultEnv.errorMessage e) with
                 | inr message =>
                     inr (text_reply (JStr ("Failed: " ++ message)))
                 | inl e' => inl e'
                 end
           end).
Proof.
  intros outcome. subst outcome.
  unfold DefaultEnv.callTool, DefaultEnv.try_block.
  destruct (arguments request) as [args |].
  2: { left. apply plain_caught. exact I. }
  pose proof (default_dispatch_shape PORTAINER_ENV_ID Tools
                StringToNumber_positive (name request) args) as H.
  destruct (DefaultEnv.dispatch PORTAINER_ENV_ID Tools
              StringToNumber_positive (name request) args)
    as [a | e | r k].
  - destruct H.
  - left. destruct H as [m ->]. apply plain_caught. exact I.
  - right. destruct H as [Henv [Hget [Hplain Hrej]]].
    exists r. cbn [try_catch run fst snd].
    destruct (upstream r) as [d | e].
    + destruct (plain_caught upstream (k (Resolved d)) (Hplain d))
        as [reply Hreply].
      rewrite Hreply. repeat split; auto. now exists reply.
    + rewrite Hrej. cbn [try_catch].
      unfold DefaultEnv.on_error, str.
      destruct (ToString (DefaultEnv.errorMessage e)); repeat split; auto.
Qed.

(** With the [catch] clause, a tool call issues one call at most. *)
Lemma default_callTool_count (PORTAINER_ENV_ID : option string)
  (Tools : DefaultEnv.ToolKey -> string)
  (StringToNumber_positive : string -> bool)
  (upstream : Request -> Outcome) (request : CallToolRequest) :
  List.length
    (run_calls upstream
       (DefaultEnv.callTool PORTAINER_ENV_ID Tools StringToNumber_positive
          request)) <= 1.
Proof.
  unfold run_calls.
  destruct (default_callTool_run PORTAINER_ENV_ID Tools
              StringToNumber_positive upstream request)
    as [[reply ->] | [r [-> _]]]; simpl; lia.
Qed.

Ltac convert_ids_keeping :=
  repeat match goal with
         | |- context [ToString (field ?a ?k)] =>
             let H := fresh "Hconv" in
             pose proof (ToString_error (field a k)) as H;
             destruct (ToString (field a k)) eqn:?;
             [destruct H as [? ->] | clear H]
         end.

(** The dispatch of the revision with an environment id per call throws an
    [Error] at once or awaits one call into the environment the [envId]
    argument reads as; it then replies with what [handleRequest] makes of
    the outcome. *)
Lemma per_call_dispatch_shape (TOOL : PerCallEnv.ToolKey -> string)
  (name : string) (args : list (string * JsValue)) :
  match PerCallEnv.dispatch TOOL name args with
  | Ret _ => False
  | Throw e => exists m, e = Error m
  | Await r k =>
      (exists env,
          ToString (field args "envId") = inr env
          /\ under_environment env r)
      /\ (forall key,
            PerCallEnv.select TOOL name = Some key ->
            reads_only_per_call key = true -> method r = GET)
      /\ (forall o,
            k o = PerCallEnv.reply (PerCallEnv.handleRequest o))
  end.
Proof.
  unfold PerCallEnv.dispatch.
  destruct (PerCallEnv.select TOOL name) as [[] |] eqn:Hsel;
    unfold PerCallEnv.reply, PerCallEnv.fetchDockerContainers,
      PerCallEnv.createDockerContainer, PerCallEnv.startDockerContainer,
      PerCallEnv.deleteDockerContainer, PerCallEnv.fetchContainerLogs,
      PerCallEnv.updateContainerResourceLimits,
      PerCallEnv.deleteStoppedContainers, PerCallEnv.fetchImages,
      PerCallEnv.deleteImageBuildCache, PerCallEnv.deleteUnusedImages,
      PerCallEnv.fetchNetworks, PerCallEnv.inspectNetwork,
      PerCallEnv.fetchServices, PerCallEnv.fetchServiceLog, str;
    convert_ids_keeping; cbn [lift bind send];
    try (eexists; reflexivity);
    (split; [eexists; split; [reflexivity | eexists; reflexivity] |]);
    (split;
     [ intros key Hkey Hro; injection Hkey as <-;
       first [reflexivity | discriminate Hro]
     | reflexivity ]).
Qed.

(** [handleRequest] awaits nothing and throws only an [Error]. *)
Lemma plain_handleRequest (o : Outcome) : plain (PerCallEnv.handleRequest o).
Proof.
  destruct o as [d | [m | [response |] [|] m]]; try exact I.
  all: rewrite handleRequest_rejected; simpl;
    unfold JSON_stringify_value;
    destruct (JSON_stringify (data response)); exact I.
Qed.

(** The run of the handler without a [catch] clause: it raises an [Error]
    without a call, or issues one call into the environment of [envId] and
    makes of its outcome what [handleRequest] makes of it. *)
Lemma per_call_callTool_run (TOOL : PerCallEnv.ToolKey -> string)
  (upstream : Request -> Outcome) (request : CallToolRequest) :
  let outcome := run upstream (PerCallEnv.callTool TOOL request) in
  (exists m, outcome = (inl (Error m), []))
  \/ (exists r,
        snd outcome = [r]
        /\ (exists args env,
               arguments request = Some args
               /\ ToString (field args "envId") = inr env
               /\ under_environment env r)
        /\ (forall key,
              PerCallEnv.select TOOL (name request) = Some key ->
              reads_only_per_call key = true -> method r = GET)
        /\ fst outcome
           = fst (run upstream
                    (PerCallEnv.reply
                       (PerCallEnv.handleRequest (upstream r))))).
Proof.
  intros outcome. subst outcome. unfold PerCallEnv.callTool.
  destruct (arguments request) as [args |] eqn:Hargs.
  2: { left. eexists. reflexivity. }
  pose proof (per_call_dispatch_shape TOOL (name request) args) as H.
  destruct (PerCallEnv.dispatch TOOL (name request) args) as [a | e | r k].
  - destruct H.
  - left. destruct H as [m ->]. now exists m.
  - right. destruct H as [[env [Henv Hunder]] [Hget Hk]].
    exists r. cbn [run fst snd]. rewrite Hk.
    assert (Hplain : plain (PerCallEnv.reply
                              (PerCallEnv.handleRequest (upstream r)))).
    { unfold PerCallEnv.reply. apply plain_bind;
        [apply plain_handleRequest | now intros]. }
    rewrite (plain_run upstream _ Hplain).
    repeat split; auto. now exists args, env.
Qed.

(** X1.  Whatever the request and the upstream, a tool call issues one
    upstream call at most, in the revision with the [catch] clause and in
    the one without: nothing is retried and nothing fans out. *)
Theorem one_call_at_most
  (PORTAINER_ENV_ID : option string)
  (Tools : DefaultEnv.ToolKey -> string)
  (StringToNumber_positive : string -> bool)
  (TOOL : PerCallEnv.ToolKey -> string)
  (upstream : Request -> Outcome) (request : CallToolRequest) :
  List.length
    (run_calls upstream
       (DefaultEnv.callTool PORTAINER_ENV_ID Tools StringToNumber_positive
          request)) <= 1
  /\ List.length (run_calls upstream (PerCallEnv.callTool TOOL request)) <= 1.
Proof.
  split; [apply default_callTool_count |].
  unfold run_calls.
  destruct (per_call_callTool_run TOOL upstream request)
    as [[m ->] | [r [-> _]]]; simpl; lia.
Qed.

(** X2.  In the revision with a start-up environment id every call a tool
    call issues has a URL of the form
    [/api/endpoints/<PORTAINER_ENV_ID>/docker/...], whatever the arguments
    are, an [envId] among them included. *)
Theorem calls_stay_in_start_up_environment
  (PORTAINER_ENV_ID : option string)
  (Tools : DefaultEnv.ToolKey -> string)
  (StringToNumber_positive : string -> bool)
  (upstream : Request -> Outcome) (request : CallToolRequest) :
  Forall (under_environment (DefaultEnv.env_text PORTAINER_ENV_ID))
    (run_calls upstream
       (DefaultEnv.callTool PORTAINER_ENV_ID Tools StringToNumber_positive
          request)).
Proof.
  unfold run_calls.
  destruct (default_callTool_run PORTAINER_ENV_ID Tools
              StringToNumber_positive upstream request)
    as [[reply ->] | [r [-> [Henv _]]]]; simpl; auto.
Qed.

(** The calls of a tool call of the revision with an environment id per
    call are the one call its dispatch awaits, if it awaits one. *)
Lemma per_call_calls_of_dispatch (TOOL : PerCallEnv.ToolKey -> string)
  (upstream : Request -> Outcome)
  (name : string) (args : list (string * JsValue)) :
  run_calls upstream (PerCallEnv.callTool TOOL (mkCall name (Some args)))
  = match PerCallEnv.dispatch TOOL name args with
    | Await r _ => [r]
    | _ => []
    end.
Proof.
  unfold run_calls, PerCallEnv.callTool. cbn [Mcp.arguments Mcp.name].
  pose proof (per_call_dispatch_shape TOOL name args) as H.
  destruct (PerCallEnv.dispatch TOOL name args) as [a | e | r k];
    [reflexivity | reflexivity |].
  destruct H as [_ [_ Hk]]. cbn [run snd]. rewrite Hk.
  rewrite plain_run; [reflexivity |].
  unfold PerCallEnv.reply.
  apply plain_bind; [apply plain_handleRequest | now intros].
Qed.

(** A request for a known tool whose arguments all have a text is
    dispatched to a call: nothing about the arguments is checked before. *)
Lemma per_call_dispatch_awaits (TOOL : PerCallEnv.ToolKey -> string)
  (name : string) (args : list (string * JsValue))
  (key : PerCallEnv.ToolKey) :
  PerCallEnv.select TOOL name = Some key ->
  (forall k, exists s, ToString (field args k) = inr s) ->
  exists r k, PerCallEnv.dispatch TOOL name args = Await r k.
Proof.
  intros Hsel texts. unfold PerCallEnv.dispatch. rewrite Hsel.
  destruct key;
    unfold PerCallEnv.reply, PerCallEnv.fetchDockerContainers,
      PerCallEnv.createDockerContainer, PerCallEnv.startDockerContainer,
      PerCallEnv.deleteDockerContainer, PerCallEnv.fetchContainerLogs,
      PerCallEnv.updateContainerResourceLimits,
      PerCallEnv.deleteStoppedContainers, PerCallEnv.fetchImages,
      PerCallEnv.deleteImageBuildCache, PerCallEnv.deleteUnusedImages,
      PerCallEnv.fetchNetworks, PerCallEnv.inspectNetwork,
      PerCallEnv.fetchServices, PerCallEnv.fetchServiceLog, str;
    repeat match goal with
           | |- context [ToString (field args ?k)] =>
               let s := fresh "s" in
               destruct (texts k) as [s ->]
           end;
    cbn [lift bind send]; eexists; eexists; reflexivity.
Qed.

(** X3.  In the revision with an environment id per call every call a
    tool call issues has a URL of the form
    [/api/endpoints/<envId>/docker/...] for the text the [envId] argument
    converts to.  The argument is not checked: a request for a known tool
    whose arguments all have a text issues exactly one call, and when
    [envId] is not among them that call is sent to
    [/api/endpoints/undefined/docker/...]. *)
Theorem calls_go_to_the_envId_argument
  (TOOL : PerCallEnv.ToolKey -> string)
  (upstream : Request -> Outcome)
  (name : string) (args : list (string * JsValue)) :
  Forall (fun r => exists env,
              ToString (field args "envId") = inr env
              /\ under_environment env r)
    (run_calls upstream (PerCallEnv.callTool TOOL (mkCall name (Some args))))
  /\ (forall key,
        PerCallEnv.select TOOL name = Some key ->
        (forall k, exists s, ToString (field args k) = inr s) ->
        exists env r,
          ToString (field args "envId") = inr env
          /\ run_calls upstream
               (PerCallEnv.callTool TOOL (mkCall name (Some args))) = [r]
          /\ under_environment env r)
  /\ (forall key,
        PerCallEnv.select TOOL name = Some key ->
        (forall k, exists s, ToString (field args k) = inr s) ->
        has_key args "envId" = false ->
        exists r,
          run_calls upstream
            (PerCallEnv.callTool TOOL (mkCall name (Some args))) = [r]
          /\ under_environment "undefined" r).
Proof.
  assert (H : Forall (fun r => exists env,
                          ToString (field args "envId") = inr env
                          /\ under_environment env r)
                (run_calls upstream
                   (PerCallEnv.callTool TOOL (mkCall name (Some args))))).
  { unfold run_calls.
    destruct (per_call_callTool_run TOOL upstream (mkCall name (Some args)))
      as [[m ->] | [r [-> [[args' [env [Ha [Henv Hu]]]] _]]]]; simpl; auto.
    injection Ha as <-. constructor; [| constructor]. now exists env. }
  assert (Hcall : forall key,
             PerCallEnv.select TOOL name = Some key ->
             (forall k, exists s, ToString (field args k) = inr s) ->
             exists env r,
               ToString (field args "envId") = inr env
               /\ run_calls upstream
                    (PerCallEnv.callTool TOOL (mkCall name (Some args)))
                  = [r]
               /\ under_environment env r).
  { intros key Hsel texts.
    destruct (per_call_dispatch_awaits TOOL name args key Hsel texts)
      as [r [k E]].
    pose proof (per_call_dispatch_shape TOOL name args) as Hshape.
    rewrite per_call_calls_of_dispatch. rewrite E in *.
    destruct Hshape as [[env [Henv Hu]] _].
    exists env, r. auto. }
  split; [exact H |].
  split; [exact Hcall |].
  intros key Hsel texts Hno.
  destruct (Hcall key Hsel texts) as [env [r [Henv [Hr Hu]]]].
  apply field_absent in Hno. rewrite Hno in Henv.
  injection Henv as <-. now exists r.
Qed.

Lemma calls_go_to_the_envId_argument_witness :
  PerCallEnv.select Sample.TOOL "START_DOCKER_CONTAINER"
  = Some PerCallEnv.START_DOCKER_CONTAINER
  /\ (forall k, exists s,
         ToString (field [("containerId", JStr "4f1c")] k) = inr s)
  /\ has_key [("containerId", JStr "4f1c")] "envId" = false
  /\ run_calls (Sample.answering (JStr ""))
       (PerCallEnv.callTool Sample.TOOL
          (mkCall "START_DOCKER_CONTAINER"
             (Some [("containerId", JStr "4f1c")])))
     = [mkRequest POST "/api/endpoints/undefined/docker/containers/4f1c/start"
          [] None]
  /\ exists r,
       run_calls (Sample.answering (JStr ""))
         (PerCallEnv.callTool Sample.TOOL
            (mkCall "START_DOCKER_CONTAINER"
               (Some [("containerId", JStr "4f1c")]))) = [r]
       /\ under_environment "undefined" r.
Proof.
  assert (texts : forall k, exists s,
             ToString (field [("containerId", JStr "4f1c")] k) = inr s).
  { intros k. simpl. destruct (String.eqb k "containerId");
      eexists; reflexivity. }
  split; [reflexivity |].
  split; [exact texts |].
  split; [reflexivity |].
  split; [reflexivity |].
  exact (proj2 (proj2 (calls_go_to_the_envId_argument Sample.TOOL
                         (Sample.answering (JStr ""))
                         "START_DOCKER_CONTAINER"
                         [("containerId", JStr "4f1c")]))
           PerCallEnv.START_DOCKER_CONTAINER eq_refl texts eq_refl).
Defined.

(** X4.  The tools that fetch or inspect issue [GET] calls only: in both
    revisions a request dispatched to one of them never sends a [POST] or a
    [DELETE]. *)
Theorem reading_tools_only_get
  (PORTAINER_ENV_ID : option string)
  (Tools : DefaultEnv.ToolKey -> string)
  (StringToNumber_positive : string -> bool)
  (TOOL : PerCallEnv.ToolKey -> string)
  (upstream : Request -> Outcome) (request : CallToolRequest) :
  (forall key,
      DefaultEnv.select Tools (name request) = Some key ->
      reads_only_default key = true ->
      Forall (fun r => method r = GET)
        (run_calls upstream
           (DefaultEnv.callTool PORTAINER_ENV_ID Tools
              StringToNumber_positive request)))
  /\ (forall key,
        PerCallEnv.select TOOL (name request) = Some key ->
        reads_only_per_call key = true ->
        Forall (fun r => method r = GET)
          (run_calls upstream (PerCallEnv.callTool TOOL request))).
Proof.
  split; intros key Hsel Hro; unfold run_calls.
  - destruct (default_callTool_run PORTAINER_ENV_ID Tools
                StringToNumber_positive upstream request)
      as [[reply ->] | [r [-> [_ [Hget _]]]]]; simpl; eauto.
  - destruct (per_call_callTool_run TOOL upstream request)
      as [[m ->] | [r [-> [_ [Hget _]]]]]; simpl; eauto.
Qed.

Lemma reading_tools_only_get_witness :
  DefaultEnv.select Sample.Tools "GetServiceLogs"
  = Some DefaultEnv.GetServiceLogs
  /\ reads_only_default DefaultEnv.GetServiceLogs = true
  /\ Forall (fun r => method r = GET)
       (run_calls (Sample.answering (JStr "ready"))
          (DefaultEnv.callTool (Some "2") Sample.Tools
             Sample.digits_positive
             (mkCall "GetServiceLogs" (Some [("serviceId", JStr "api")])))).
Proof.
  split; [reflexivity |].
  split; [reflexivity |].
  exact (proj1 (reading_tools_only_get (Some "2") Sample.Tools
                  Sample.digits_positive Sample.TOOL
                  (Sample.answering (JStr "ready"))
                  (mkCall "GetServiceLogs" (Some [("serviceId", JStr "api")])))
           DefaultEnv.GetServiceLogs eq_refl eq_refl).
Defined.

(** X5.  With the [catch] clause the handler always ends in a reply when it
    issued no call or the upstream answered the call, even if building the
    text fails.  When the upstream rejects the call, the rejection reaches
    the [catch] clause as it is: the reply is [Failed: <message>] for the
    message chosen from that rejection, and the handler raises only if that
    message has no conversion to a string. *)
Theorem rejection_becomes_failed_reply
  (PORTAINER_ENV_ID : option string)
  (Tools : DefaultEnv.ToolKey -> string)
  (StringToNumber_positive : string -> bool)
  (upstream : Request -> Outcome) (request : CallToolRequest) :
  match run upstream
          (DefaultEnv.callTool PORTAINER_ENV_ID Tools
             StringToNumber_positive request) with
  | (outcome, []) => exists reply, outcome = inr reply
  | (outcome, r :: _) =>
      match upstream r with
      | Resolved _ => exists reply, outcome = inr reply
      | Rejected e =>
          outcome
          = match ToString (DefaultEnv.errorMessage e) with
            | inr message => inr (text_reply (JStr ("Failed: " ++ message)))
            | inl e' => inl e'
            end
      end
  end.
Proof.
  destruct (default_callTool_run PORTAINER_ENV_ID Tools
              StringToNumber_positive upstream request)
    as [[reply ->] | [r [Hcalls [_ [_ Hr]]]]].
  - now exists reply.
  - destruct (run upstream (DefaultEnv.callTool _ _ _ request))
      as [outcome calls].
    simpl in Hcalls, Hr. subst calls. exact Hr.
Qed.

(** X6.  Without the [catch] clause the handler raises an [Error] when it
    issues no call.  When it issues its call and the upstream answers, the
    reply is [{ result }] with the body of the answer, unchanged, for every
    tool; when the upstream rejects, the handler raises the error
    [handleRequest] builds: [Portainer API error: <status> - <body>] for a
    response, [No response from Portainer API: <message>] for a request
    without response, [Error setting up request to Portainer API:
    <message>] for another axios error, and the error itself when it is
    not an axios error. *)
Theorem reply_is_the_upstream_body
  (TOOL : PerCallEnv.ToolKey -> string)
  (upstream : Request -> Outcome) (request : CallToolRequest) :
  match run upstream (PerCallEnv.callTool TOOL request) with
  | (outcome, []) => exists m, outcome = inl (Error m)
  | (outcome, [r]) =>
      match upstream r with
      | Resolved d => outcome = inr (PerCallEnv.mkResult d)
      | Rejected (AxiosError (Some response) _ _) =>
          outcome
          = inl (Error ("Portainer API error: "
                        ++ string_of_Z (status response) ++ " - "
                        ++ match JSON_stringify (data response) with
                           | Some body => body
                           | None => "undefined"
                           end))
      | Rejected (AxiosError None true m) =>
          outcome = inl (Error ("No response from Portainer API: " ++ m))
      | Rejected (AxiosError None false m) =>
          outcome
          = inl (Error ("Error setting up request to Portainer API: " ++ m))
      | Rejected (Error m) => outcome = inl (Error m)
      end
  | _ => False
  end.
Proof.
  destruct (per_call_callTool_run TOOL upstream request)
    as [[m ->] | [r [Hcalls [_ [_ Hr]]]]].
  - now exists m.
  - destruct (run upstream (PerCallEnv.callTool TOOL request))
      as [outcome calls].
    simpl in Hcalls, Hr. subst calls outcome.
    destruct (upstream r) as [d | [m | [response |] [|] m]];
      try reflexivity.
    all: unfold PerCallEnv.reply; rewrite handleRequest_rejected; simpl;
      unfold JSON_stringify_value;
      now destruct (JSON_stringify (data response)).
Qed.

(* ------------------------------------------------------------------ *)
(** ** The tools the server advertises and the tools it dispatches *)

Lemma find_name_iff {K : Type} (table : K -> string) (keys : list K)
  (n : string) :
  find (fun k => String.eqb n (table k)) keys <> None
  <-> In n (map table keys).
Proof.
  induction keys as [| k keys IH]; simpl.
  - split; [congruence | tauto].
  - destruct (String.eqb_spec n (table k)) as [E | E].
    + split; [now left | congruence].
    + rewrite IH. split; [now right |].
      intros [H | H]; [now symmetry in H | exact H].
Qed.

Lemma find_name_sound {K : Type} (table : K -> string) (keys : list K)
  (n : string) (k : K) :
  find (fun k => String.eqb n (table k)) keys = Some k -> n = table k.
Proof.
  intros H. apply find_some in H as [_ H]. now apply String.eqb_eq.
Qed.

Lemma ThirdRevision_names (Tools : ThirdRevision.ToolKey -> string) :
  map tool_name (ThirdRevision.listTools Tools)
  = map Tools ThirdRevision.cases.
Proof. reflexivity. Qed.

(** X7.  A name is dispatched to a [case] of the [switch] exactly when the
    list of tools advertises it, in each of the three revisions of the
    server; and the [case] it is dispatched to is one whose constant is
    that very name (the match is exact, so a name in another letter case is
    unknown). *)
Theorem advertised_tools_are_the_dispatched_ones
  (Tools : DefaultEnv.ToolKey -> string)
  (TOOL : PerCallEnv.ToolKey -> string)
  (Tools3 : ThirdRevision.ToolKey -> string) (n : string) :
  (DefaultEnv.select Tools n <> None
   <-> In n (map tool_name (DefaultEnv.listTools Tools)))
  /\ (PerCallEnv.select TOOL n <> None
      <-> In n (map tool_name (PerCallEnv.listTools TOOL)))
  /\ (ThirdRevision.select Tools3 n <> None
      <-> In n (map tool_name (ThirdRevision.listTools Tools3)))
  /\ (forall key, DefaultEnv.select Tools n = Some key -> n = Tools key)
  /\ (forall key, PerCallEnv.select TOOL n = Some key -> n = TOOL key)
  /\ (forall key, ThirdRevision.select Tools3 n = Some key -> n = Tools3 key).
Proof.
  split; [| split; [| split; [| split; [| split]]]].
  - rewrite DefaultEnv_names. apply find_name_iff.
  - rewrite PerCallEnv_names. apply find_name_iff.
  - rewrite ThirdRevision_names. apply find_name_iff.
  - intros key. apply find_name_sound.
  - intros key. apply find_name_sound.
  - intros key. apply find_name_sound.
Qed.

Lemma advertised_tools_are_the_dispatched_ones_witness :
  DefaultEnv.select Sample.Tools "GetImages" = Some DefaultEnv.GetImages
  /\ "GetImages" = Sample.Tools DefaultEnv.GetImages
  /\ DefaultEnv.select Sample.Tools "getimages" = None.
Proof.
  split; [reflexivity |].
  split; [| reflexivity].
  exact (proj1 (proj2 (proj2 (proj2
           (advertised_tools_are_the_dispatched_ones Sample.Tools Sample.TOOL
              (fun _ => "") "GetImages"))))
           DefaultEnv.GetImages eq_refl).
Defined.

(* ------------------------------------------------------------------ *)
(** ** The texts of the list tools *)

Lemma before_char_free (c : ascii) (s : string) :
  has_char c (before_char c s) = false.
Proof.
  induction s as [| d s IH]; simpl; [reflexivity |].
  destruct (Ascii.eqb d c) eqn:E; simpl; [reflexivity |].
  now rewrite E.
Qed.

Lemma before_char_split (c : ascii) (s : string) :
  has_char c s = true ->
  exists rest, s = before_char c s ++ String c rest.
Proof.
  induction s as [| d s IH]; simpl; [discriminate |].
  destruct (Ascii.eqb_spec d c) as [-> | E]; simpl.
  - intros _. now exists s.
  - intros H. destruct (IH H) as [rest Hrest]. exists rest.
    now rewrite <- Hrest.
Qed.

Lemma image_line_value (i : ImageShape.DockerImage) :
  DefaultEnv.image_line (ImageShape.image_value i)
  = Ret (ImageShape.image_text i).
Proof.
  unfold DefaultEnv.image_line, ImageShape.image_value,
    ImageShape.image_text, ImageShape.shown_registry.
  cbn [get bind field String.eqb Ascii.eqb Bool.eqb].
  assert (Hname :
            or_else (opt_chain (JArr (map JStr (ImageShape.RepoTags i)))
                       JUndefined first)
                    (JStr "untagged")
            = JStr (ImageShape.shown_name i)).
  { unfold ImageShape.shown_name, opt_chain, or_else. simpl.
    destruct (ImageShape.RepoTags i) as [| t ts]; [reflexivity |]. simpl.
    now destruct (String.eqb t ""). }
  rewrite Hname. cbn [includes_slash bind].
  destruct (has_char "/" (ImageShape.shown_name i)); reflexivity.
Qed.

Lemma network_line_value (n : NetworkShape.DockerNetwork) :
  DefaultEnv.network_line (NetworkShape.network_value n)
  = Ret (NetworkShape.network_text n).
Proof. reflexivity. Qed.

Lemma service_line_value (s : ServiceShape.DockerService) :
  DefaultEnv.service_line (ServiceShape.service_value s)
  = Ret (ServiceShape.service_text s).
Proof.
  unfold DefaultEnv.service_line, ServiceShape.service_value,
    ServiceShape.service_text, ServiceShape.or_na, opt_chain, or_else.
  cbn.
  destruct (String.eqb (ServiceShape.Spec_Name s) "");
    destruct (String.eqb (ServiceShape.Spec_Image s) ""); reflexivity.
Qed.

Ltac answered Hsel Hup :=
  unfold run_result; rewrite callTool_try_catch;
  unfold DefaultEnv.try_block, DefaultEnv.dispatch;
  cbn [Mcp.arguments Mcp.name]; rewrite Hsel;
  unfold DefaultEnv.fetchDockerContainers, DefaultEnv.fetchImages,
    DefaultEnv.fetchNetworks, DefaultEnv.fetchServices,
    DefaultEnv.deleteUnusedImages, DefaultEnv.createDockerContainer,
    DefaultEnv.deleteImageBuildCache, DefaultEnv.pruneContainer;
  cbn [bind send await run fst snd]; rewrite Hup;
  cbn [bind send await run fst snd call_map].

(** X8.  For a list of images of the declared shape the reply of "fetch
    images" is one line for each image, in the order of the list:
    [Name: <name>, Registry: <registry>, Id: <Id>].  The name is the first
    tag, or [untagged]; the registry is the text of the name before its
    first slash, so it holds no slash and the name starts with
    [<registry>/], and it is [docker.io] when the name has no slash. *)
Theorem images_reply_lines
  (PORTAINER_ENV_ID : option string)
  (Tools : DefaultEnv.ToolKey -> string)
  (StringToNumber_positive : string -> bool)
  (upstream : Request -> Outcome)
  (name : string) (args : list (string * JsValue))
  (images : list ImageShape.DockerImage)
  (case : DefaultEnv.select Tools name = Some DefaultEnv.GetImages)
  (answer : forall r,
      upstream r = Resolved (JArr (map ImageShape.image_value images))) :
  run_result upstream
    (DefaultEnv.callTool PORTAINER_ENV_ID Tools StringToNumber_positive
       (mkCall name (Some args)))
  = inr (text_reply (JStr (join LF (map ImageShape.image_text images))))
  /\ (forall i,
        ImageShape.image_text i
        = "Name: " ++ ImageShape.shown_name i ++ ", Registry: "
          ++ ImageShape.shown_registry i ++ ", Id: " ++ ImageShape.Id i)
  /\ (forall i,
        has_char "/" (ImageShape.shown_registry i) = false
        /\ (has_char "/" (ImageShape.shown_name i) = true ->
            exists rest,
              ImageShape.shown_name i
              = ImageShape.shown_registry i ++ "/" ++ rest)
        /\ (has_char "/" (ImageShape.shown_name i) = false ->
            ImageShape.shown_registry i = "docker.io")).
Proof.
  split; [| split].
  - answered case answer.
    rewrite (mapM_map ImageShape.image_value _ ImageShape.image_text)
      by apply image_line_value.
    reflexivity.
  - reflexivity.
  - intros i. unfold ImageShape.shown_registry.
    destruct (has_char "/" (ImageShape.shown_name i)) eqn:E.
    + split; [apply before_char_free |].
      split; [| discriminate].
      intros _. now apply before_char_split.
    + split; [reflexivity |]. split; [discriminate | reflexivity].
Qed.

Lemma images_reply_lines_witness :
  run_result
    (Sample.answering
       (JArr (map ImageShape.image_value
                [ImageShape.mkImage "sha256:aa" ""
                   ["registry.local:5000/team/app:1.2"; "app:latest"] []
                   1700000000 1024 1024 [];
                 ImageShape.mkImage "sha256:bb" "" ["nginx:1.25"] []
                   1700000000 2048 2048 [];
                 ImageShape.mkImage "sha256:cc" "" [] []
                   1700000000 4096 4096 []])))
    (DefaultEnv.callTool (Some "2") Sample.Tools Sample.digits_positive
       (mkCall "GetImages" (Some [])))
  = inr (text_reply
           (JStr ("Name: registry.local:5000/team/app:1.2, Registry: registry.local:5000, Id: sha256:aa"
                  ++ LF ++
                  "Name: nginx:1.25, Registry: docker.io, Id: sha256:bb"
                  ++ LF ++
                  "Name: untagged, Registry: docker.io, Id: sha256:cc"))).
Proof.
  exact (proj1
           (images_reply_lines (Some "2") Sample.Tools
              Sample.digits_positive
              (Sample.answering _) "GetImages" []
              [ImageShape.mkImage "sha256:aa" ""
                 ["registry.local:5000/team/app:1.2"; "app:latest"] []
                 1700000000 1024 1024 [];
               ImageShape.mkImage "sha256:bb" "" ["nginx:1.25"] []
                 1700000000 2048 2048 [];
               ImageShape.mkImage "sha256:cc" "" [] []
                 1700000000 4096 4096 []]
              eq_refl (fun _ => eq_refl))).
Defined.

(** X9.  For networks and services of the declared shapes the replies of
    "fetch networks" and "fetch services" are one line for each entry, in
    the order of the list.  The declared network has no [Created], which
    therefore shows as [undefined]; the declared service has its ports
    under [Endpoint.Spec], where the line does not look, so its ports show
    as [None]; an empty name or image shows as [N/A]. *)
Theorem networks_and_services_reply_lines
  (PORTAINER_ENV_ID : option string)
  (Tools : DefaultEnv.ToolKey -> string)
  (StringToNumber_positive : string -> bool)
  (upstream : Request -> Outcome)
  (name : string) (args : list (string * JsValue)) :
  (forall networks,
      DefaultEnv.select Tools name = Some DefaultEnv.GetNetworks ->
      (forall r,
          upstream r
          = Resolved (JArr (map NetworkShape.network_value networks))) ->
      run_result upstream
        (DefaultEnv.callTool PORTAINER_ENV_ID Tools
           StringToNumber_positive (mkCall name (Some args)))
      = inr (text_reply
               (JStr (join LF (map NetworkShape.network_text networks)))))
  /\ (forall services,
        DefaultEnv.select Tools name = Some DefaultEnv.GetServices ->
        (forall r,
            upstream r
            = Resolved (JArr (map ServiceShape.service_value services))) ->
        run_result upstream
          (DefaultEnv.callTool PORTAINER_ENV_ID Tools
             StringToNumber_positive (mkCall name (Some args)))
        = inr (text_reply
                 (JStr (join LF (map ServiceShape.service_text services)))))
  /\ (forall n,
        NetworkShape.network_text n
        = "Name: " ++ NetworkShape.Name n ++ ", Id: " ++ NetworkShape.Id n
          ++ ", Created: undefined, Scope: " ++ NetworkShape.Scope n
          ++ ", Driver: " ++ NetworkShape.Driver n)
  /\ (forall s,
        ServiceShape.service_text s
        = "Name: "
          ++ (if String.eqb (ServiceShape.Spec_Name s) "" then "N/A"
              else ServiceShape.Spec_Name s)
          ++ ", Image: "
          ++ (if String.eqb (ServiceShape.Spec_Image s) "" then "N/A"
              else ServiceShape.Spec_Image s)
          ++ ", Ports: None").
Proof.
  split; [| split; [| split; reflexivity]].
  - intros networks case answer. answered case answer.
    rewrite (mapM_map NetworkShape.network_value _
               NetworkShape.network_text)
      by apply network_line_value.
    reflexivity.
  - intros services case answer. answered case answer.
    rewrite (mapM_map ServiceShape.service_value _
               ServiceShape.service_text)
      by apply service_line_value.
    reflexivity.
Qed.

Lemma networks_and_services_reply_lines_witness :
  run_result
    (Sample.answering
       (JArr (map ServiceShape.service_value
                [ServiceShape.mkService "s1" 7 "2024-01-01" "2024-01-02"
                   "api" [] "registry.local/api:3" 2 "vip"
                   [ServiceShape.mkServicePort "tcp" 80 8080 "ingress"]
                   "completed" "" "" ""])))
    (DefaultEnv.callTool (Some "2") Sample.Tools Sample.digits_positive
       (mkCall "GetServices" (Some [])))
  = inr (text_reply
           (JStr "Name: api, Image: registry.local/api:3, Ports: None")).
Proof.
  exact (proj1 (proj2
           (networks_and_services_reply_lines (Some "2") Sample.Tools
              Sample.digits_positive (Sample.answering _)
              "GetServices" []))
           [ServiceShape.mkService "s1" 7 "2024-01-01" "2024-01-02"
              "api" [] "registry.local/api:3" 2 "vip"
              [ServiceShape.mkServicePort "tcp" 80 8080 "ingress"]
              "completed" "" "" ""]
           eq_refl (fun _ => eq_refl)).
Defined.

Lemma port_shown_nonempty (p : ServiceShape.ServicePort) :
  ServiceShape.port_shown p <> "".
Proof.
  unfold ServiceShape.port_shown.
  destruct (string_of_Z (ServiceShape.PublishedPort p)); discriminate.
Qed.

Lemma service_port_text_value (p : ServiceShape.ServicePort) :
  DefaultEnv.service_port_text (ServiceShape.service_port_value p)
  = Ret (ServiceShape.port_shown p).
Proof. reflexivity. Qed.

Lemma service_line_entry
  (e : option (string * string * list ServiceShape.ServicePort)) :
  DefaultEnv.service_line (ServiceShape.entry_value e)
  = Ret (ServiceShape.entry_text e).
Proof.
  destruct e as [[[name image] ports] |]; [| reflexivity].
  unfold DefaultEnv.service_line, ServiceShape.entry_value,
    ServiceShape.listed_value, ServiceShape.entry_text,
    ServiceShape.or_na, opt_chain.
  cbn [nullish prop field String.eqb Ascii.eqb Bool.eqb call_map].
  rewrite (mapM_map ServiceShape.service_port_value _
             ServiceShape.port_shown)
    by apply service_port_text_value.
  cbn [bind].
  assert (Hports :
            or_else (JStr (join ", " (map ServiceShape.port_shown ports)))
                    (JStr "None")
            = JStr (ServiceShape.ports_shown ports)).
  { unfold or_else, ServiceShape.ports_shown.
    destruct ports as [| p ports]; [reflexivity |].
    cbn [truthy map].
    destruct (String.eqb_spec
                (join ", " (ServiceShape.port_shown p
                            :: map ServiceShape.port_shown ports)) "")
      as [E | E]; [| reflexivity].
    exfalso. revert E. apply join_nonempty, port_shown_nonempty. }
  rewrite Hports. unfold or_else. cbn [truthy str lift ToString bind].
  destruct (String.eqb name ""); destruct (String.eqb image "");
    reflexivity.
Qed.

(** X10.  "Fetch services" reads the ports of a service at
    [Endpoint.Ports]: a service the upstream lists with its name, image and
    ports there, the port numbers being safe integers, gets the line
    [Name: <name>, Image: <image>, Ports: <published>-><target>/<protocol>, ...],
    with [None] when it has no ports and [N/A] for an empty name or image.
    A [null] entry of the list does not fail the reply: its line is
    [Name: N/A, Image: N/A, Ports: None].  One call is issued, a [GET] of
    the services of the start-up environment. *)
Theorem services_reply_tolerates_null
  (PORTAINER_ENV_ID : option string)
  (Tools : DefaultEnv.ToolKey -> string)
  (StringToNumber_positive : string -> bool)
  (upstream : Request -> Outcome)
  (name : string) (args : list (string * JsValue))
  (entries : list (option (string * string
                           * list ServiceShape.ServicePort)))
  (case : DefaultEnv.select Tools name = Some DefaultEnv.GetServices)
  (exact : forallb ServiceShape.exact_entry entries = true)
  (answer : forall r,
      upstream r = Resolved (JArr (map ServiceShape.entry_value entries))) :
  run upstream
    (DefaultEnv.callTool PORTAINER_ENV_ID Tools StringToNumber_positive
       (mkCall name (Some args)))
  = (inr (text_reply (JStr (join LF (map ServiceShape.entry_text entries)))),
     [mkRequest GET
        ("/api/endpoints/" ++ DefaultEnv.env_text PORTAINER_ENV_ID
         ++ "/docker/services") [] None]).
Proof.
  enter_case case. unfold DefaultEnv.fetchServices.
  cbn [bind send await run fst snd]. rewrite answer.
  cbn [bind send await run fst snd call_map].
  rewrite (mapM_map ServiceShape.entry_value _ ServiceShape.entry_text)
    by apply service_line_entry.
  reflexivity.
Qed.

Lemma services_reply_tolerates_null_witness :
  run
    (Sample.answering
       (JArr (map ServiceShape.entry_value
                [Some ("api", "registry.local/api:3",
                       [ServiceShape.mkServicePort "tcp" 80 8080 "ingress";
                        ServiceShape.mkServicePort "udp" 53 5353 "host"]);
                 None;
                 Some ("", "redis:7", [])])))
    (DefaultEnv.callTool (Some "2") Sample.Tools Sample.digits_positive
       (mkCall "GetServices" (Some [])))
  = (inr (text_reply
            (JStr ("Name: api, Image: registry.local/api:3, Ports: 8080->80/tcp, 5353->53/udp"
                   ++ LF ++ "Name: N/A, Image: N/A, Ports: None"
                   ++ LF ++ "Name: N/A, Image: redis:7, Ports: None"))),
     [mkRequest GET "/api/endpoints/2/docker/services" [] None]).
Proof.
  exact (services_reply_tolerates_null (Some "2") Sample.Tools
           Sample.digits_positive (Sample.answering _) "GetServices" []
           [Some ("api", "registry.local/api:3",
                  [ServiceShape.mkServicePort "tcp" 80 8080 "ingress";
                   ServiceShape.mkServicePort "udp" 53 5353 "host"]);
            None;
            Some ("", "redis:7", [])]
           eq_refl eq_refl (fun _ => eq_refl)).
Defined.

(** When the line of one element throws, the whole [map] throws. *)
Lemma mapM_throws {A B : Type} (f : A -> Prog B) (l : list A) (x : A) :
  (forall y, plain (f y)) ->
  In x l -> (exists m, f x = Throw (Error m)) ->
  exists m, mapM f l = Throw (Error m).
Proof.
  intros Hplain Hin [m Hx].
  induction l as [| y l IH]; [destruct Hin |].
  simpl. pose proof (Hplain y) as Hy.
  destruct (f y) as [b | [m' |] | r k] eqn:E; try (now destruct Hy).
  - destruct Hin as [-> | Hin]; [congruence |].
    destruct (IH Hin) as [m' ->]. simpl. now exists m'.
  - simpl. now exists m'.
Qed.

(** A [map] throws what the line of the first element throws whose line
    does not return. *)
Lemma mapM_first_throw {A B : Type} (f : A -> Prog B)
  (before : list A) (x : A) (after : list A) (e : Exn) :
  Forall (fun v => exists s, f v = Ret s) before ->
  f x = Throw e ->
  mapM f (before ++ x :: after) = Throw e.
Proof.
  intros Hbefore Hx.
  induction Hbefore as [| v before [s Hv] _ IH]; simpl.
  - now rewrite Hx.
  - now rewrite Hv, IH.
Qed.

(** X11.  In the lists of containers, images and networks one [null] (or
    [undefined]) entry spoils the whole reply.  The call is made and
    answered, and the reply is [Failed: <message>] whatever the other
    entries are; when the entries before it have their lines, the reply is
    exactly [Failed: Cannot read properties of null (reading '<field>')],
    for the field the line reads first ([Id], [RepoTags], [Name]), and so
    carries no line of the other entries. *)
Theorem null_entry_fails_the_list
  (PORTAINER_ENV_ID : option string)
  (Tools : DefaultEnv.ToolKey -> string)
  (StringToNumber_positive : string -> bool)
  (upstream : Request -> Outcome)
  (name : string) (args : list (string * JsValue))
  (before after : list JsValue) (x : JsValue)
  (empty : nullish x = true)
  (answer : forall r, upstream r = Resolved (JArr (before ++ x :: after))) :
  let outcome :=
    run upstream
      (DefaultEnv.callTool PORTAINER_ENV_ID Tools StringToNumber_positive
         (mkCall name (Some args))) in
  let env := DefaultEnv.env_text PORTAINER_ENV_ID in
  (DefaultEnv.select Tools name = Some DefaultEnv.GetDockerContainers ->
   (exists message,
       outcome = (inr (text_reply (JStr ("Failed: " ++ message))),
                  [containers_call env]))
   /\ (Forall (fun v => exists s, DefaultEnv.container_line v = Ret s)
         before ->
       outcome
       = (inr (text_reply (JStr ("Failed: " ++ cannot_read x "Id"))),
          [containers_call env])))
  /\ (DefaultEnv.select Tools name = Some DefaultEnv.GetImages ->
      (exists message,
          outcome
          = (inr (text_reply (JStr ("Failed: " ++ message))),
             [mkRequest GET
                ("/api/endpoints/" ++ env ++ "/docker/images/json")
                [] None]))
      /\ (Forall (fun v => exists s, DefaultEnv.image_line v = Ret s)
            before ->
          outcome
          = (inr (text_reply
                    (JStr ("Failed: " ++ cannot_read x "RepoTags"))),
             [mkRequest GET
                ("/api/endpoints/" ++ env ++ "/docker/images/json")
                [] None])))
  /\ (DefaultEnv.select Tools name = Some DefaultEnv.GetNetworks ->
      (exists message,
          outcome
          = (inr (text_reply (JStr ("Failed: " ++ message))),
             [mkRequest GET
                ("/api/endpoints/" ++ env ++ "/docker/networks")
                [] None]))
      /\ (Forall (fun v => exists s, DefaultEnv.network_line v = Ret s)
            before ->
          outcome
          = (inr (text_reply (JStr ("Failed: " ++ cannot_read x "Name"))),
             [mkRequest GET
                ("/api/endpoints/" ++ env ++ "/docker/networks")
                [] None]))).
Proof.
  intros outcome env. subst outcome env.
  assert (entry : In x (before ++ x :: after)).
  { apply in_or_app. right. now left. }
  split; [| split]; intros case; split.
  - enter_case case. unfold DefaultEnv.fetchDockerContainers, containers_call.
    cbn [bind send await run fst snd]. rewrite answer.
    cbn [bind send await run fst snd call_map].
    destruct (mapM_throws DefaultEnv.container_line _ x
                plain_container_line entry) as [m ->].
    { destruct x; try discriminate empty; eexists; reflexivity. }
    cbn [bind run fst snd]. unfold DefaultEnv.on_error, str.
    rewrite errorMessage_plain. now eexists.
  - intros Hbefore.
    enter_case case. unfold DefaultEnv.fetchDockerContainers, containers_call.
    cbn [bind send await run fst snd]. rewrite answer.
    cbn [bind send await run fst snd call_map].
    rewrite (mapM_first_throw DefaultEnv.container_line before x after
               (TypeError (cannot_read x "Id")) Hbefore)
      by (destruct x; try discriminate empty; reflexivity).
    destruct x; try discriminate empty; reflexivity.
  - enter_case case. unfold DefaultEnv.fetchImages.
    cbn [bind send await run fst snd]. rewrite answer.
    cbn [bind send await run fst snd call_map].
    destruct (mapM_throws DefaultEnv.image_line _ x
                plain_image_line entry) as [m ->].
    { destruct x; try discriminate empty; eexists; reflexivity. }
    cbn [bind run fst snd]. unfold DefaultEnv.on_error, str.
    rewrite errorMessage_plain. now eexists.
  - intros Hbefore.
    enter_case case. unfold DefaultEnv.fetchImages.
    cbn [bind send await run fst snd]. rewrite answer.
    cbn [bind send await run fst snd call_map].
    rewrite (mapM_first_throw DefaultEnv.image_line before x after
               (TypeError (cannot_read x "RepoTags")) Hbefore)
      by (destruct x; try discriminate empty; reflexivity).
    destruct x; try discriminate empty; reflexivity.
  - enter_case case. unfold DefaultEnv.fetchNetworks.
    cbn [bind send await run fst snd]. rewrite answer.
    cbn [bind send await run fst snd call_map].
    destruct (mapM_throws DefaultEnv.network_line _ x
                plain_network_line entry) as [m ->].
    { destruct x; try discriminate empty; eexists; reflexivity. }
    cbn [bind run fst snd]. unfold DefaultEnv.on_error, str.
    rewrite errorMessage_plain. now eexists.
  - intros Hbefore.
    enter_case case. unfold DefaultEnv.fetchNetworks.
    cbn [bind send await run fst snd]. rewrite answer.
    cbn [bind send await run fst snd call_map].
    rewrite (mapM_first_throw DefaultEnv.network_line before x after
               (TypeError (cannot_read x "Name")) Hbefore)
      by (destruct x; try discriminate empty; reflexivity).
    destruct x; try discriminate empty; reflexivity.
Qed.

Lemma null_entry_fails_the_list_witness :
  nullish JNull = true
  /\ Forall (fun v => exists s, DefaultEnv.container_line v = Ret s)
       [container_value Sample.web]
  /\ run
       (Sample.answering
          (JArr [container_value Sample.web; JNull;
                 container_value Sample.cache]))
       (DefaultEnv.callTool (Some "2") Sample.Tools Sample.digits_positive
          (mkCall "GetDockerContainers" (Some [])))
     = (inr (text_reply
               (JStr "Failed: Cannot read properties of null (reading 'Id')")),
        [mkRequest GET "/api/endpoints/2/docker/containers/json"
           [("all", JBool true)] None]).
Proof.
  assert (lines : Forall (fun v => exists s,
                              DefaultEnv.container_line v = Ret s)
                    [container_value Sample.web]).
  { constructor; [eexists; reflexivity | constructor]. }
  split; [reflexivity |].
  split; [exact lines |].
  exact (proj2
           (proj1
              (null_entry_fails_the_list (Some "2") Sample.Tools
                 Sample.digits_positive (Sample.answering _)
                 "GetDockerContainers" []
                 [container_value Sample.web]
                 [container_value Sample.cache] JNull
                 eq_refl (fun _ => eq_refl))
              eq_refl)
           lines).
Defined.

(** X12.  The five tools that build their text with [map] reply
    [Failed: <callee> is not a function] whenever the upstream answers with
    something that is no array (an object, a string, a number, a boolean),
    although the call was made and answered.  "Delete unused images" is one
    of them, and the answer to its prune call is an object. *)
Theorem answer_without_map_fails
  (PORTAINER_ENV_ID : option string)
  (Tools : DefaultEnv.ToolKey -> string)
  (StringToNumber_positive : string -> bool)
  (upstream : Request -> Outcome)
  (name : string) (args : list (string * JsValue))
  (key : DefaultEnv.ToolKey) (callee : string) (v : JsValue)
  (case : DefaultEnv.select Tools name = Some key)
  (mapped : mapped_callee key = Some callee)
  (no_map : unmappable v = true)
  (answer : forall r, upstream r = Resolved v) :
  run_result upstream
    (DefaultEnv.callTool PORTAINER_ENV_ID Tools StringToNumber_positive
       (mkCall name (Some args)))
  = inr (text_reply (JStr ("Failed: " ++ callee ++ " is not a function")))
  /\ List.length
       (run_calls upstream
          (DefaultEnv.callTool PORTAINER_ENV_ID Tools
             StringToNumber_positive (mkCall name (Some args)))) = 1.
Proof.
  split.
  - destruct key; try discriminate mapped; injection mapped as <-;
      answered case answer;
      destruct v; try discriminate no_map; reflexivity.
  - unfold run_calls.
    destruct key; try discriminate mapped;
      answered case answer;
      destruct v; try discriminate no_map; reflexivity.
Qed.

Lemma answer_without_map_fails_witness :
  run_result
    (Sample.answering
       (JObj [("ImagesDeleted", JArr [JStr "sha256:aa"]);
              ("SpaceReclaimed", JNum 1024)]))
    (DefaultEnv.callTool (Some "2") Sample.Tools Sample.digits_positive
       (mkCall "DeleteUnusedImages" (Some [])))
  = inr (text_reply (JStr "Failed: result.map is not a function")).
Proof.
  exact (proj1
           (answer_without_map_fails (Some "2") Sample.Tools
              Sample.digits_positive (Sample.answering _)
              "DeleteUnusedImages" [] DefaultEnv.DeleteUnusedImages
              "result.map"
              (JObj [("ImagesDeleted", JArr [JStr "sha256:aa"]);
                     ("SpaceReclaimed", JNum 1024)])
              eq_refl eq_refl eq_refl (fun _ => eq_refl))).
Defined.

Lemma array_join_strings (sep : string) (l : list string) :
  array_join sep (map JStr l) = inr (join sep l).
Proof.
  induction l as [| x l IH]; [reflexivity |].
  simpl. destruct l as [| y l]; [reflexivity |].
  simpl in IH |- *. now rewrite IH.
Qed.

(** X13.  "Create container" posts the body
    [{ name, Image, ExposedPorts, HostConfig }] with [{}] in place of an
    [exposedPorts] or [hostConfig] argument that is missing or falsy.  On an
    answer [{ Id, Warnings }] of the declared shape the reply is
    [Container created successfully with Id: <Id>], followed on a new line
    by [Warnings: <w1>, <w2>, ...] exactly when there are warnings. *)
Theorem create_container_reply
  (PORTAINER_ENV_ID : option string)
  (Tools : DefaultEnv.ToolKey -> string)
  (StringToNumber_positive : string -> bool)
  (upstream : Request -> Outcome)
  (name : string) (args : list (string * JsValue))
  (id : string) (warnings : list string)
  (case : DefaultEnv.select Tools name
          = Some DefaultEnv.CreateDockerContainer)
  (answer : forall r,
      upstream r = Resolved (CreatedShape.created_value id warnings)) :
  run upstream
    (DefaultEnv.callTool PORTAINER_ENV_ID Tools StringToNumber_positive
       (mkCall name (Some args)))
  = (inr (text_reply (JStr (CreatedShape.created_text id warnings))),
     [CreatedShape.create_call (DefaultEnv.env_text PORTAINER_ENV_ID)
        (field args "containerName") (field args "image")
        (if truthy (field args "exposedPorts")
         then field args "exposedPorts" else JObj [])
        (if truthy (field args "hostConfig")
         then field args "hostConfig" else JObj [])]).
Proof.
  rewrite callTool_try_catch.
  unfold DefaultEnv.try_block, DefaultEnv.dispatch.
  cbn [Mcp.arguments Mcp.name]. rewrite case.
  unfold DefaultEnv.createDockerContainer.
  cbn [bind send await run fst snd]. rewrite answer.
  unfold CreatedShape.created_value, CreatedShape.created_text.
  cbn [bind await get field String.eqb Ascii.eqb Bool.eqb str lift ToString
       get_length run fst snd].
  destruct warnings as [| w ws]; [reflexivity |].
  cbn [map List.length gt_zero].
  replace (Z.ltb 0 (Z.of_nat (S (List.length (map JStr ws))))) with true
    by (symmetry; apply Z.ltb_lt; lia).
  cbn [bind get field String.eqb Ascii.eqb Bool.eqb call_join].
  change (JStr w :: map JStr ws) with (map JStr (w :: ws)).
  rewrite array_join_strings. reflexivity.
Qed.

Lemma create_container_reply_witness :
  run
    (Sample.answering
       (CreatedShape.created_value "4f1c" ["no swap limit"; "no healthcheck"]))
    (DefaultEnv.callTool (Some "2") Sample.Tools Sample.digits_positive
       (mkCall "CreateDockerContainer"
          (Some [("containerName", JStr "web"); ("image", JStr "nginx:1.25");
                 ("hostConfig", JNull)])))
  = (inr (text_reply
            (JStr ("Container created successfully with Id: 4f1c" ++ LF
                   ++ "Warnings: no swap limit, no healthcheck"))),
     [mkRequest POST "/api/endpoints/2/docker/containers/create" []
        (Some (JObj [("name", JStr "web"); ("Image", JStr "nginx:1.25");
                     ("ExposedPorts", JObj []);
                     ("HostConfig", JObj [])]))]).
Proof.
  exact (create_container_reply (Some "2") Sample.Tools
           Sample.digits_positive (Sample.answering _)
           "CreateDockerContainer"
           [("containerName", JStr "web"); ("image", JStr "nginx:1.25");
            ("hostConfig", JNull)]
           "4f1c" ["no swap limit"; "no healthcheck"]
           eq_refl (fun _ => eq_refl)).
Defined.

(** X14.  When the answer to "create container" has no list of warnings
    ([Warnings] is [null] or missing), the reply is [Failed: <message>]
    although the container was created: the [POST] was made and
    answered. *)
Theorem create_without_warnings_fails
  (PORTAINER_ENV_ID : option string)
  (Tools : DefaultEnv.ToolKey -> string)
  (StringToNumber_positive : string -> bool)
  (upstream : Request -> Outcome)
  (name : string) (args : list (string * JsValue))
  (fields : list (string * JsValue))
  (case : DefaultEnv.select Tools name
          = Some DefaultEnv.CreateDockerContainer)
  (no_warnings : nullish (field fields "Warnings") = true)
  (answer : forall r, upstream r = Resolved (JObj fields)) :
  exists message r,
    run upstream
      (DefaultEnv.callTool PORTAINER_ENV_ID Tools StringToNumber_positive
         (mkCall name (Some args)))
    = (inr (text_reply (JStr ("Failed: " ++ message))), [r])
    /\ method r = POST.
Proof.
  rewrite callTool_try_catch.
  unfold DefaultEnv.try_block, DefaultEnv.dispatch.
  cbn [Mcp.arguments Mcp.name]. rewrite case.
  unfold DefaultEnv.createDockerContainer.
  cbn [bind send await run fst snd]. rewrite answer.
  cbn [bind await get run fst snd]. unfold str.
  pose proof (ToString_error (field fields "Id")) as Hid.
  destruct (ToString (field fields "Id")) as [e | s].
  - destruct Hid as [m ->]. cbn [lift bind run fst snd].
    rewrite errorMessage_plain. do 2 eexists. split; reflexivity.
  - cbn [lift bind run fst snd].
    destruct (field fields "Warnings"); try discriminate no_warnings;
      cbn [get_length bind run fst snd]; rewrite errorMessage_plain;
      do 2 eexists; split; reflexivity.
Qed.

Lemma create_without_warnings_fails_witness :
  exists message r,
    run
      (Sample.answering (JObj [("Id", JStr "4f1c"); ("Warnings", JNull)]))
      (DefaultEnv.callTool (Some "2") Sample.Tools Sample.digits_positive
         (mkCall "CreateDockerContainer"
            (Some [("containerName", JStr "web");
                   ("image", JStr "nginx:1.25")])))
    = (inr (text_reply (JStr ("Failed: " ++ message))), [r])
    /\ method r = POST.
Proof.
  exact (create_without_warnings_fails (Some "2") Sample.Tools
           Sample.digits_positive (Sample.answering _)
           "CreateDockerContainer"
           [("containerName", JStr "web"); ("image", JStr "nginx:1.25")]
           [("Id", JStr "4f1c"); ("Warnings", JNull)]
           eq_refl eq_refl (fun _ => eq_refl)).
Defined.



(** X16.  When a "fetch service logs" request leaves out [stdout],
    [stderr], [follow], [timestamps] and [tail], both dispatchers behave as
    on the same request with [stdout=true], [stderr=true], [follow=false],
    [timestamps=false] and [tail=10] given, and the call to
    [.../docker/services/<serviceId>/logs] carries exactly these five
    parameters. *)
Theorem service_logs_defaults
  (PORTAINER_ENV_ID : option string)
  (Tools : DefaultEnv.ToolKey -> string)
  (StringToNumber_positive : string -> bool)
  (TOOL : PerCallEnv.ToolKey -> string)
  (upstream : Request -> Outcome)
  (name_a name_b : string) (args : list (string * JsValue))
  (case_a : DefaultEnv.select Tools name_a = Some DefaultEnv.GetServiceLogs)
  (case_b : PerCallEnv.select TOOL name_b
            = Some PerCallEnv.FETCH_SERVICE_LOG)
  (omitted : forall k, In k log_options -> has_key args k = false) :
  let handler_a :=
    DefaultEnv.callTool PORTAINER_ENV_ID Tools StringToNumber_positive in
  let handler_b := PerCallEnv.callTool TOOL in
  let explicit := (log_defaults ++ args)%list in
  run upstream (handler_a (mkCall name_a (Some args)))
  = run upstream (handler_a (mkCall name_a (Some explicit)))
  /\ run upstream (handler_b (mkCall name_b (Some args)))
     = run upstream (handler_b (mkCall name_b (Some explicit)))
  /\ (forall id,
        ToString (field args "serviceId") = inr id ->
        run_calls upstream (handler_a (mkCall name_a (Some args)))
        = [logs_call "services" (DefaultEnv.env_text PORTAINER_ENV_ID) id
             log_defaults])
  /\ (forall env id,
        ToString (field args "envId") = inr env ->
        ToString (field args "serviceId") = inr id ->
        run_calls upstream (handler_b (mkCall name_b (Some args)))
        = [logs_call "services" env id log_defaults]).
Proof.
  intros handler_a handler_b explicit. subst handler_a handler_b explicit.
  destruct (options_omitted args omitted) as [H1 [H2 [H3 [H4 H5]]]].
  split.
  { rewrite !callTool_try_catch.
    unfold DefaultEnv.try_block, DefaultEnv.dispatch.
    cbn [Mcp.arguments Mcp.name]. rewrite case_a.
    unfold log_defaults. cbn [app field String.eqb Ascii.eqb Bool.eqb].
    now rewrite H1, H2, H3, H4, H5. }
  split.
  { unfold PerCallEnv.callTool, PerCallEnv.dispatch.
    cbn [Mcp.arguments Mcp.name]. rewrite case_b.
    unfold log_defaults. cbn [app field String.eqb Ascii.eqb Bool.eqb].
    now rewrite H1, H2, H3, H4, H5. }
  split.
  { intros id Hid. rewrite callTool_calls. unfold run_calls.
    unfold DefaultEnv.try_block, DefaultEnv.dispatch.
    cbn [Mcp.arguments Mcp.name]. rewrite case_a.
    unfold DefaultEnv.fetchServiceLog, str.
    rewrite H1, H2, H3, H4, H5, Hid.
    cbn [lift bind send await run fst snd default_to].
    destruct (upstream _) as [[| | | | | |] | e]; reflexivity. }
  { intros env id Henv Hid. unfold run_calls.
    unfold PerCallEnv.callTool, PerCallEnv.dispatch.
    cbn [Mcp.arguments Mcp.name]. rewrite case_b.
    unfold PerCallEnv.fetchServiceLog, PerCallEnv.reply, str.
    rewrite H1, H2, H3, H4, H5, Henv, Hid.
    cbn [lift bind send await run fst snd default_to].
    rewrite run_bind. rewrite handleRequest_no_calls.
    now destruct (fst (run upstream (PerCallEnv.handleRequest _))). }
Qed.

Lemma service_logs_defaults_witness :
  DefaultEnv.select Sample.Tools "GetServiceLogs"
  = Some DefaultEnv.GetServiceLogs
  /\ PerCallEnv.select Sample.TOOL "FETCH_SERVICE_LOG"
     = Some PerCallEnv.FETCH_SERVICE_LOG
  /\ (forall k, In k log_options ->
        has_key [("envId", JStr "2"); ("serviceId", JStr "api")] k = false)
  /\ run_calls (Sample.answering (JStr "ready"))
       (PerCallEnv.callTool Sample.TOOL
          (mkCall "FETCH_SERVICE_LOG"
             (Some [("envId", JStr "2"); ("serviceId", JStr "api")])))
     = [mkRequest GET "/api/endpoints/2/docker/services/api/logs"
          [("stdout", JBool true); ("stderr", JBool true);
           ("follow", JBool false); ("timestamps", JBool false);
           ("tail", JNum 10)] None].
Proof.
  assert (Hom : forall k, In k log_options ->
            has_key [("envId", JStr "2"); ("serviceId", JStr "api")] k
            = false).
  { intros k Hk. simpl in Hk.
    repeat (destruct Hk as [<- | Hk]; [reflexivity |]). destruct Hk. }
  split; [reflexivity |].
  split; [reflexivity |].
  split; [exact Hom |].
  exact (proj2 (proj2 (proj2
           (service_logs_defaults (Some "2") Sample.Tools
              Sample.digits_positive Sample.TOOL
              (Sample.answering (JStr "ready"))
              "GetServiceLogs" "FETCH_SERVICE_LOG"
              [("envId", JStr "2"); ("serviceId", JStr "api")]
              eq_refl eq_refl Hom)))
           "2" "api" eq_refl eq_refl).
Defined.

(* ------------------------------------------------------------------ *)
(** ** The two revisions side by side *)

Lemma default_calls_of_dispatch (PORTAINER_ENV_ID : option string)
  (Tools : DefaultEnv.ToolKey -> string)
  (StringToNumber_positive : string -> bool)
  (upstream : Request -> Outcome)
  (name : string) (args : list (string * JsValue)) :
  run_calls upstream
    (DefaultEnv.callTool PORTAINER_ENV_ID Tools StringToNumber_positive
       (mkCall name (Some args)))
  = match DefaultEnv.dispatch PORTAINER_ENV_ID Tools
            StringToNumber_positive name args with
    | Await r _ => [r]
    | _ => []
    end.
Proof.
  rewrite callTool_calls. unfold run_calls, DefaultEnv.try_block.
  cbn [Mcp.arguments Mcp.name].
  pose proof (default_dispatch_shape PORTAINER_ENV_ID Tools
                StringToNumber_positive name args) as H.
  destruct (DefaultEnv.dispatch PORTAINER_ENV_ID Tools
              StringToNumber_positive name args) as [a | e | r k];
    [reflexivity | reflexivity |].
  destruct H as [_ [_ [Hplain Hrej]]]. cbn [run snd].
  destruct (upstream r) as [d | e].
  - now rewrite (plain_run upstream _ (Hplain d)).
  - now rewrite Hrej.
Qed.

(** X17.  The two revisions issue the same call: a request of the
    revision with an environment id per call whose [envId] is the string
    [env] leads to exactly the upstream call that the same tool of the
    revision started with [PORTAINER_ENV_ID = env] issues on the remaining
    arguments, and to no call where that one issues none. *)
Theorem revisions_issue_the_same_call
  (env : string)
  (Tools : DefaultEnv.ToolKey -> string)
  (StringToNumber_positive : string -> bool)
  (TOOL : PerCallEnv.ToolKey -> string)
  (upstream : Request -> Outcome)
  (name_a name_b : string) (args : list (string * JsValue))
  (key_a : DefaultEnv.ToolKey) (key_b : PerCallEnv.ToolKey)
  (case_a : DefaultEnv.select Tools name_a = Some key_a)
  (case_b : PerCallEnv.select TOOL name_b = Some key_b)
  (same_tool : row_of_Tools key_a = row_of_TOOL key_b) :
  run_calls upstream
    (DefaultEnv.callTool (Some env) Tools StringToNumber_positive
       (mkCall name_a (Some args)))
  = run_calls upstream
      (PerCallEnv.callTool TOOL
         (mkCall name_b (Some (("envId", JStr env) :: args)))).
Proof.
  rewrite default_calls_of_dispatch, per_call_calls_of_dispatch.
  unfold DefaultEnv.dispatch, PerCallEnv.dispatch.
  rewrite case_a, case_b.
  destruct key_a, key_b; try discriminate same_tool;
    unfold PerCallEnv.reply, DefaultEnv.env_text,
      DefaultEnv.fetchDockerContainers, PerCallEnv.fetchDockerContainers,
      DefaultEnv.createDockerContainer, PerCallEnv.createDockerContainer,
      DefaultEnv.startDockerContainer, PerCallEnv.startDockerContainer,
      DefaultEnv.deleteDockerContainer, PerCallEnv.deleteDockerContainer,
      DefaultEnv.fetchContainerLogs, PerCallEnv.fetchContainerLogs,
      DefaultEnv.updateContainerResourceLimits,
      PerCallEnv.updateContainerResourceLimits,
      DefaultEnv.pruneContainer, PerCallEnv.deleteStoppedContainers,
      DefaultEnv.fetchImages, PerCallEnv.fetchImages,
      DefaultEnv.deleteImageBuildCache, PerCallEnv.deleteImageBuildCache,
      DefaultEnv.deleteUnusedImages, PerCallEnv.deleteUnusedImages,
      DefaultEnv.fetchNetworks, PerCallEnv.fetchNetworks,
      DefaultEnv.fetchServices, PerCallEnv.fetchServices,
      DefaultEnv.fetchServiceLog, PerCallEnv.fetchServiceLog, str;
    cbn [field String.eqb Ascii.eqb Bool.eqb ToString lift bind send];
    convert_ids; reflexivity.
Qed.

Lemma revisions_issue_the_same_call_witness :
  run_calls (Sample.answering (JStr ""))
    (DefaultEnv.callTool (Some "2") Sample.Tools Sample.digits_positive
       (mkCall "UpdateContainer"
          (Some [("containerId", JStr "4f1c"); ("memory", JNum 268435456)])))
  = run_calls (Sample.answering (JStr ""))
      (PerCallEnv.callTool Sample.TOOL
         (mkCall "UPDATE_CONTAINER_RESOURCE_LIMITS"
            (Some [("envId", JStr "2"); ("containerId", JStr "4f1c");
                   ("memory", JNum 268435456)]))).
Proof.
  exact (revisions_issue_the_same_call "2" Sample.Tools
           Sample.digits_positive Sample.TOOL (Sample.answering (JStr ""))
           "UpdateContainer" "UPDATE_CONTAINER_RESOURCE_LIMITS"
           [("containerId", JStr "4f1c"); ("memory", JNum 268435456)]
           DefaultEnv.UpdateContainer
           PerCallEnv.UPDATE_CONTAINER_RESOURCE_LIMITS
           eq_refl eq_refl eq_refl).
Defined.

(* ------------------------------------------------------------------ *)
(** ** The input schemas *)

Ltac schema_in_order :=
  repeat (constructor;
          [ repeat split;
            [ intros x Hx; simpl in Hx |- *; tauto
            | repeat (constructor; [simpl; intuition discriminate |]);
              constructor
            | repeat (constructor; [simpl; tauto |]); constructor ]
          |]);
  constructor.

(** X18.  Every input schema of the three lists of tools is in order: each
    field it requires is among the properties it declares, no property is
    declared twice, and every property has one of the types [string],
    [number], [boolean] and [object]. *)
Theorem input_schemas_well_formed
  (Tools : DefaultEnv.ToolKey -> string)
  (TOOL : PerCallEnv.ToolKey -> string)
  (Tools3 : ThirdRevision.ToolKey -> string) :
  Forall well_formed (DefaultEnv.listTools Tools)
  /\ Forall well_formed (PerCallEnv.listTools TOOL)
  /\ Forall well_formed (ThirdRevision.listTools Tools3).
Proof.
  unfold well_formed, schema_types.
  split; [| split].
  - unfold DefaultEnv.listTools. schema_in_order.
  - unfold PerCallEnv.listTools. schema_in_order.
  - unfold ThirdRevision.listTools. schema_in_order.
Qed.

(** X19.  A container entry that is an object without [Names] and without
    [Ports] still gets its line, with [unknown] for the name and [none] for
    the ports; a field that is missing shows as [undefined].  The same
    holds when [Names] and [Ports] are [null]. *)
Theorem container_line_without_names_and_ports
  (fields : list (string * JsValue)) (id state status : string)
  (no_names : nullish (field fields "Names") = true)
  (no_ports : nullish (field fields "Ports") = true)
  (has_id : ToString (field fields "Id") = inr id)
  (has_state : ToString (field fields "State") = inr state)
  (has_status : ToString (field fields "Status") = inr status) :
  DefaultEnv.container_line (JObj fields)
  = Ret ("ContainerId: " ++ id ++ ", Name: unknown, Ports: none, State: "
         ++ state ++ ", Status: " ++ status)
  /\ DefaultEnv.container_line (JObj [])
     = Ret "ContainerId: undefined, Name: unknown, Ports: none, State: undefined, Status: undefined".
Proof.
  split; [| reflexivity].
  unfold DefaultEnv.container_line, opt_chain, str.
  cbn [get bind]. rewrite has_id, no_names, no_ports, has_state, has_status.
  reflexivity.
Qed.

Lemma container_line_without_names_and_ports_witness :
  DefaultEnv.container_line
    (JObj [("Id", JStr "4f1c"); ("Names", JNull); ("State", JStr "created")])
  = Ret "ContainerId: 4f1c, Name: unknown, Ports: none, State: created, Status: undefined".
Proof.
  exact (proj1
           (container_line_without_names_and_ports
              [("Id", JStr "4f1c"); ("Names", JNull);
               ("State", JStr "created")]
              "4f1c" "created" "undefined"
              eq_refl eq_refl eq_refl eq_refl eq_refl)).
Defined.
